(** * Sensors information system: validators, in-memory store, paginated DAO

    Shallow embedding of
      - [prj1-sol/src/lib/validators.ts] and [prj1-sol/src/lib/sensors-info.ts]
        (the in-memory [SensorsInfo]),
      - the search validators with paging fields (the copy of
        [validators.ts] carried by [prj4-sol/src/lib/init.ts]),
      - [prj3-sol/src/lib/sensors-dao.ts] and [prj3-sol/src/lib/sensors-info.ts]
        (the MongoDB-backed [SensorsDao] and the [SensorsInfo] on top of it).

    JavaScript numbers are modelled as exact rationals extended with the
    two infinities and NaN; IEEE rounding is outside the model.  A plain
    JavaScript object used as a dictionary is the finite map of its own
    properties together with its prototype: a lookup that finds no own
    property goes on to the prototype, and an assignment to [__proto__]
    replaces the prototype.  The enumeration order of a map stands for
    the insertion order of the object, which the searches sort away.
    Strings are compared by their bytes. *)

From Stdlib Require Import ZArith QArith Qreduction Qcanon Ascii String List Sorted Bool Lia.
From stdpp Require Import gmap strings list fin_maps.

Local Open Scope string_scope.

(** ** JavaScript values and builtins *)

Module JS.

(** A JavaScript [number]. *)
Inductive number : Type :=
| NaN : number
| NegInf : number
| Fin (q : Q) : number
| PosInf : number.

Definition of_Z (z : Z) : number := Fin (z # 1).

(** [a <= b] *)
Definition le (a b : number) : bool :=
  match a, b with
  | NaN, _ | _, NaN => false
  | NegInf, _ => true
  | _, PosInf => true
  | Fin x, Fin y => Qle_bool x y
  | _, _ => false
  end.

(** [a < b] *)
Definition lt (a b : number) : bool :=
  match a, b with
  | NaN, _ | _, NaN => false
  | NegInf, NegInf => false
  | NegInf, _ => true
  | PosInf, _ => false
  | Fin x, Fin y => negb (Qle_bool y x)
  | Fin _, PosInf => true
  | Fin _, NegInf => false
  end.

(** [a > b] *)
Definition gt (a b : number) : bool := lt b a.

(** [a === b] on numbers *)
Definition eqb (a b : number) : bool :=
  match a, b with
  | NegInf, NegInf => true
  | PosInf, PosInf => true
  | Fin x, Fin y => Qeq_bool x y
  | _, _ => false
  end.

(** [a - b] *)
Definition sub (a b : number) : number :=
  match a, b with
  | NaN, _ | _, NaN => NaN
  | Fin x, Fin y => Fin (Qred (x - y))
  | NegInf, NegInf => NaN
  | PosInf, PosInf => NaN
  | NegInf, _ => NegInf
  | PosInf, _ => PosInf
  | Fin _, NegInf => PosInf
  | Fin _, PosInf => NegInf
  end.

Definition is_digit (c : ascii) : bool :=
  let n := N_of_ascii c in (48 <=? n)%N && (n <=? 57)%N.

Definition digit_val (c : ascii) : Z := Z.of_N (N_of_ascii c) - 48.

(** Longest prefix of decimal digits, and what follows it. *)
Fixpoint span_digits (s : string) : string * string :=
  match s with
  | String c r =>
      if is_digit c
      then let '(d, rest) := span_digits r in (String c d, rest)
      else (EmptyString, s)
  | EmptyString => (EmptyString, EmptyString)
  end.

Fixpoint all_digits (s : string) : bool :=
  match s with
  | String c r => is_digit c && all_digits r
  | EmptyString => true
  end.

(** Value of a string of decimal digits, most significant first. *)
Fixpoint digits_val (acc : Z) (s : string) : Z :=
  match s with
  | String c r => digits_val (10 * acc + digit_val c) r
  | EmptyString => acc
  end.

Definition strip_sign (s : string) : bool * string :=
  match s with
  | String "-" r => (true, r)
  | String "+" r => (false, r)
  | _ => (false, s)
  end.

Definition signed (neg : bool) (z : Z) : Z := if neg then (- z)%Z else z.

(** The decimal literals: an optional sign, one or more digits, then
    optionally a point followed by any number of digits; and their value. *)
Definition parse_decimal (s : string) : option Q :=
  let '(neg, body) := strip_sign s in
  let '(ip, rest) := span_digits body in
  match ip with
  | EmptyString => None
  | _ =>
      match rest with
      | EmptyString => Some (signed neg (digits_val 0 ip) # 1)
      | String "." fp =>
          if all_digits fp
          then
            let k := Z.of_nat (String.length fp) in
            Some (Qred (signed neg (digits_val (digits_val 0 ip) fp)
                         # Z.to_pos (10 ^ k)))
          else None
      | _ => None
      end
  end.

(** [Number(s)] for a string [s].  The source applies it only to fields
    that went through [NUMBER_CHK] or [INTEGER_CHK]; on that grammar the
    definition is the value of the literal, elsewhere it answers NaN. *)
Definition Number (s : string) : number :=
  match parse_decimal s with
  | Some q => Fin q
  | None => NaN
  end.

(** [Number(x ?? d)] for a possibly undefined string [x] and a number [d]. *)
Definition NumberOr (x : option string) (d : number) : number :=
  match x with
  | Some s => Number s
  | None => d
  end.

(** [parseInt(s, 10)]: optional sign, then the leading digits; what
    follows the digits is ignored; NaN when there is no digit. *)
Definition parseInt (s : string) : number :=
  let '(neg, body) := strip_sign s in
  let '(ip, _) := span_digits body in
  match ip with
  | EmptyString => NaN
  | _ => of_Z (signed neg (digits_val 0 ip))
  end.

(** Strings compare by code units: [a > b] and [a < b]. *)
Definition str_gt (a b : string) : bool := String.ltb b a.
Definition str_lt (a b : string) : bool := String.ltb a b.

(** [Array.prototype.sort(cmp)]: a stable sort; [cmp a b > 0] puts [b]
    first, a NaN answer counts as [0]. *)
Section Sort.
Context {A : Type} (cmp : A -> A -> number).

Definition after (a b : A) : bool := lt (of_Z 0) (cmp a b).

Fixpoint insert_sorted (x : A) (l : list A) : list A :=
  match l with
  | [] => [x]
  | y :: ys => if after x y then y :: insert_sorted x ys else x :: y :: ys
  end.

Fixpoint sort (l : list A) : list A :=
  match l with
  | [] => []
  | x :: xs => insert_sorted x (sort xs)
  end.
End Sort.

(** [Array.prototype.findIndex] *)
Fixpoint findIndex {A : Type} (p : A -> bool) (l : list A) : option nat :=
  match l with
  | [] => None
  | x :: xs => if p x then Some 0%nat else S <$> findIndex p xs
  end.

End JS.

(** ** Results and errors ([Errors] of cs544-js-utils) *)

Module Errors.

(** A message is either a checker template with its [$[i]] arguments or
    a template literal, kept as its parts so that interpolated numbers
    stay numbers. *)
Inductive MsgPart : Type :=
| Txt (s : string)
| Num (n : JS.number)
| Rendered (what : string).   (* the text of a value left unspelt *)

Inductive Message : Type :=
| Template (tpl : string) (args : list string)
| Literal (parts : list MsgPart).

Record Err : Type := mkErr {
  message : Message;
  code : string;            (* options.code *)
  widget : option string;   (* options.widget *)
}.

Inductive Result (A : Type) : Type :=
| okResult (val : A)
| errResults (errors : list Err).
Arguments okResult {A} val.
Arguments errResults {A} errors.

Definition errResult {A : Type} (msg : Message) (c : string)
    (w : option string) : Result A :=
  errResults [mkErr msg c w].

Definition isOk {A : Type} (r : Result A) : bool :=
  match r with okResult _ => true | errResults _ => false end.

(** The error codes of a result; empty for a success. *)
Definition codes {A : Type} (r : Result A) : list string :=
  match r with
  | okResult _ => []
  | errResults es => map code es
  end.

(** What the runtime throws when a property of [undefined] is read,
    when something that is no function is called, or when something
    that is not iterable is iterated. *)
Inductive Exception : Type :=
| TypeError.

(** How a call that may throw ends: it returns its result, or the
    exception leaves it. *)
Inductive Completion (A : Type) : Type :=
| Returns (r : Result A)
| Throws (e : Exception).
Arguments Returns {A} r.
Arguments Throws {A} e.

End Errors.

(** ** Flat request checking ([Checkers] of cs544-js-utils) *)

Module Checkers.
Import Errors.

Abbreviation FlatReq := (gmap string string).

(** [makeRegexChkFn(regex, msg)]: a field check that objects with [msg]
    when the field does not match [regex]. *)
Record ChkFn : Type := makeRegexChkFn {
  regex : string -> bool;
  chkMsg : string;
}.

(** [default] is [None] when no default is declared, [Some None] for
    [default: null], and [Some (Some v)] for a default value. *)
Record FieldInfo : Type := mkField {
  name : option string;
  chk : option ChkFn;
  default : option (option string);
}.

(** A cross-field check, as [rangeChk] returns it: [chk] answers the
    message and code of its error, or nothing. *)
Record CrossChk : Type := mkCross {
  xchk : FlatReq -> option (string * string);
  fieldIds : list string;
}.

(** [{fields: {...}, chk: ...}] *)
Record FlatReqChecks : Type := mkChecks {
  fields : list (string * FieldInfo);
  chks : list CrossChk;
}.

(** Modelled from the spec: what the check of one field comes to, its
    value (none under [default: null]) or its error. *)
Inductive Outcome : Type :=
| Resolved (v : option string)
| Failed (e : Err).

(** Modelled from the spec: the text of the library's REQUIRED message is
    given neither by the sources nor by the spec; a template stands for it. *)
Definition REQUIRED_MSG : string := "$[0] is required".

(** Modelled from the spec: a field is reported under its [name] when it
    has one. *)
Definition displayName (id : string) (info : FieldInfo) : string :=
  match name info with Some n => n | None => id end.

(** Modelled from the spec: the per-field step of [checkFlatReq]. *)
Definition checkField (req : FlatReq) (id : string) (info : FieldInfo)
    : Outcome :=
  match req !! id with
  | Some v =>
      match chk info with
      | Some c =>
          if regex c v then Resolved (Some v)
          else Failed (mkErr (Template (chkMsg c) [displayName id info])
                             "BAD_VAL" (Some id))
      | None => Resolved (Some v)
      end
  | None =>
      match default info with
      | Some d => Resolved d
      | None => Failed (mkErr (Template REQUIRED_MSG [displayName id info])
                              "REQUIRED" (Some id))
      end
  end.

(** Modelled from the spec: the fields are checked in declaration order. *)
Definition outcomes (req : FlatReq) (fs : list (string * FieldInfo))
    : list (string * Outcome) :=
  map (fun '(id, info) => (id, checkField req id info)) fs.

(** Modelled from the spec: the field errors, in declaration order. *)
Definition fieldErrors (os : list (string * Outcome)) : list Err :=
  flat_map (fun '(_, o) => match o with Failed e => [e] | Resolved _ => [] end) os.

(** Modelled from the spec: the checked request, which omits the fields
    without a value. *)
Definition checkedVal (os : list (string * Outcome)) : FlatReq :=
  list_to_map
    (flat_map (fun '(id, o) =>
                 match o with Resolved (Some v) => [(id, v)] | _ => [] end) os).

(** Modelled from the spec: a field resolved when its check left no
    error. *)
Definition resolved (os : list (string * Outcome)) (id : string) : bool :=
  existsb (fun '(id', o) =>
             String.eqb id id' &&
             match o with Resolved _ => true | Failed _ => false end) os.

(** Modelled from the spec: the cross-field step of [checkFlatReq]; the
    error refers to the fields of the check. *)
Definition crossErrors (req : FlatReq) (os : list (string * Outcome))
    (cs : list CrossChk) : list Err :=
  flat_map (fun c =>
              if forallb (resolved os) (fieldIds c)
              then match xchk c req with
                   | Some (msg, cd) => [mkErr (Template msg (fieldIds c)) cd None]
                   | None => []
                   end
              else []) cs.

(** Modelled from the spec: [checkFlatReq] of the package cs544-js-utils,
    whose code is not among the sources.  Per field, in declaration
    order: an absent field is [REQUIRED] unless a default is declared; a
    present field that fails its check is [BAD_VAL].  A cross-field check
    runs once both of its fields resolved (defaults included) and yields
    one error with the code the check returns.  All errors are returned
    together, field errors first; on success the checked request holds
    the declared fields that have a value. *)
Definition checkFlatReq (req : FlatReq) (checks : FlatReqChecks)
    : Result FlatReq :=
  let os := outcomes req (fields checks) in
  match (fieldErrors os ++ crossErrors req os (chks checks))%list with
  | [] => okResult (checkedVal os)
  | es => errResults es
  end.

End Checkers.

(** ** Validators ([prj1-sol/src/lib/validators.ts]) *)

Module Validators.
Import Errors Checkers.

Definition dq : string := String (ascii_of_nat 34) EmptyString.

(** The regular expression of [NUMBER_CHK]: anchored, an optional sign,
    at least one digit, optionally a point and further digits. *)
Definition NUMBER_RE (s : string) : bool :=
  let '(_, body) := JS.strip_sign s in
  let '(ip, rest) := JS.span_digits body in
  match ip with
  | EmptyString => false
  | _ =>
      match rest with
      | EmptyString => true
      | String "." fp => JS.all_digits fp
      | _ => false
      end
  end.

(** The regular expression of [INTEGER_CHK]: anchored, digits only, at
    least one. *)
Definition INTEGER_RE (s : string) : bool :=
  match s with
  | EmptyString => false
  | _ => JS.all_digits s
  end.

Definition NUMBER_CHK : ChkFn :=
  makeRegexChkFn NUMBER_RE (dq ++ "$[0]" ++ dq ++ " must be a number").

Definition INTEGER_CHK : ChkFn :=
  makeRegexChkFn INTEGER_RE
    (dq ++ "$[0]" ++ dq ++ " must be a non-negative integer").

Definition rangeChk_msg : string :=
  "The value of " ++ dq ++ "$[0]" ++ dq ++ " must be less than that of "
    ++ dq ++ "$[1]" ++ dq.

(** Validate [req[minId] <= req[maxId]]. *)
Definition rangeChk (minId maxId : string) : CrossChk :=
  let errRet := (rangeChk_msg, "BAD_RANGE") in
  mkCross
    (fun req =>
       if negb (JS.le (JS.NumberOr (req !! minId) JS.NegInf)
                      (JS.NumberOr (req !! maxId) JS.PosInf))
       then Some errRet else None)
    [minId; maxId].

Definition required : FieldInfo := mkField None None None.
Definition optional : FieldInfo := mkField None None (Some None).
Definition checked (c : ChkFn) : FieldInfo := mkField None (Some c) None.
Definition named (n : string) (c : ChkFn) : FieldInfo :=
  mkField (Some n) (Some c) None.
Definition optional_checked (c : ChkFn) : FieldInfo :=
  mkField None (Some c) (Some None).

Inductive FindCommand : Type :=
| findSensorTypes | findSensors | findSensorReadings.

Definition FIND_VALIDATION_INFO (cmd : FindCommand) : FlatReqChecks :=
  match cmd with
  | findSensorTypes =>
      mkChecks [("id", optional); ("manufacturer", optional);
                ("modelNumber", optional); ("quantity", optional);
                ("unit", optional)] []
  | findSensors =>
      mkChecks [("id", optional); ("sensorTypeId", optional)] []
  | findSensorReadings =>
      mkChecks [("sensorId", required);
                ("minTimestamp", optional_checked INTEGER_CHK);
                ("maxTimestamp", optional_checked INTEGER_CHK);
                ("minValue", optional_checked NUMBER_CHK);
                ("maxValue", optional_checked NUMBER_CHK)]
               [rangeChk "minTimestamp" "maxTimestamp";
                rangeChk "minValue" "maxValue"]
  end.

Definition validateFindCommand (cmd : FindCommand) (req : FlatReq)
    : Result FlatReq :=
  checkFlatReq req (FIND_VALIDATION_INFO cmd).

(** Inclusive bounds. *)
Module Range.
Record t : Type := mk { min : JS.number; max : JS.number }.

Definition isWithin (r : t) (val : JS.number) : bool :=
  JS.le (min r) val && JS.le val (max r).

Definition isSubrange (r superRange : t) : bool :=
  JS.le (min superRange) (min r) && JS.le (max r) (max superRange).
End Range.

Module SensorType.
Record t : Type := mk {
  id : string;
  manufacturer : string;
  modelNumber : string;
  quantity : string;
  unit : string;
  limits : Range.t;
}.
End SensorType.

Definition ADD_SENSOR_TYPE_CHECKS : FlatReqChecks :=
  mkChecks [("id", required); ("manufacturer", required);
            ("modelNumber", required); ("quantity", required);
            ("unit", required);
            ("min", checked NUMBER_CHK); ("max", checked NUMBER_CHK)]
           [rangeChk "min" "max"].

Definition makeSensorType (req : FlatReq) : Result SensorType.t :=
  match checkFlatReq req ADD_SENSOR_TYPE_CHECKS with
  | errResults es => errResults es
  | okResult _ =>
      okResult
        (SensorType.mk (req !!! "id") (req !!! "manufacturer")
           (req !!! "modelNumber") (req !!! "quantity") (req !!! "unit")
           (Range.mk (JS.Number (req !!! "min")) (JS.Number (req !!! "max"))))
  end.

Module Sensor.
Record t : Type := mk {
  id : string;
  sensorTypeId : string;
  period : JS.number;
  expected : Range.t;
}.
End Sensor.

Definition ADD_SENSOR_CHECKS : FlatReqChecks :=
  mkChecks [("id", required); ("sensorTypeId", required);
            ("period", checked INTEGER_CHK);
            ("min", named "min expected" NUMBER_CHK);
            ("max", named "max expected" NUMBER_CHK)]
           [rangeChk "min" "max"].

Definition makeSensor (req : FlatReq) : Result Sensor.t :=
  match checkFlatReq req ADD_SENSOR_CHECKS with
  | errResults es => errResults es
  | okResult _ =>
      okResult
        (Sensor.mk (req !!! "id") (req !!! "sensorTypeId")
           (JS.Number (req !!! "period"))
           (Range.mk (JS.Number (req !!! "min")) (JS.Number (req !!! "max"))))
  end.

Module SensorReading.
Record t : Type := mk {
  sensorId : string;
  timestamp : JS.number;
  value : JS.number;
}.
End SensorReading.

Definition ADD_SENSOR_READING_CHECKS : FlatReqChecks :=
  mkChecks [("sensorId", required);
            ("timestamp", checked INTEGER_CHK);
            ("value", checked NUMBER_CHK)] [].

Definition makeSensorReading (req : FlatReq) : Result SensorReading.t :=
  match checkFlatReq req ADD_SENSOR_READING_CHECKS with
  | errResults es => errResults es
  | okResult _ =>
      okResult
        (SensorReading.mk (req !!! "sensorId")
           (JS.Number (req !!! "timestamp")) (JS.Number (req !!! "value")))
  end.

End Validators.

(** ** Dynamic property access and loose comparison *)

Module Dyn.
Import Validators.

(** What [entity[name]] can be for the entities of this program. *)
Inductive value : Type :=
| VUndef
| VStr (s : string)
| VNum (n : JS.number)
| VObj.

Definition str_truthy (s : string) : bool :=
  match s with EmptyString => false | _ => true end.

Definition truthy (v : value) : bool :=
  match v with
  | VUndef => false
  | VStr s => str_truthy s
  | VNum n => negb (JS.eqb n (JS.of_Z 0)) && JS.eqb n n
  | VObj => true
  end.

(** [s != v] for a string [s]: strings compare as strings, a number
    with the number the string denotes, an object through its string
    form, and nothing equals [undefined]. *)
Definition loose_neq (s : string) (v : value) : bool :=
  match v with
  | VUndef => true
  | VStr t => negb (String.eqb s t)
  | VNum n => negb (JS.eqb (JS.Number s) n)
  | VObj => negb (String.eqb s "[object Object]")
  end.

Definition sensorType_get (t : SensorType.t) (k : string) : value :=
  if String.eqb k "id" then VStr (SensorType.id t)
  else if String.eqb k "manufacturer" then VStr (SensorType.manufacturer t)
  else if String.eqb k "modelNumber" then VStr (SensorType.modelNumber t)
  else if String.eqb k "quantity" then VStr (SensorType.quantity t)
  else if String.eqb k "unit" then VStr (SensorType.unit t)
  else if String.eqb k "limits" then VObj
  else VUndef.

Definition sensor_get (s : Sensor.t) (k : string) : value :=
  if String.eqb k "id" then VStr (Sensor.id s)
  else if String.eqb k "sensorTypeId" then VStr (Sensor.sensorTypeId s)
  else if String.eqb k "period" then VNum (Sensor.period s)
  else if String.eqb k "expected" then VObj
  else VUndef.

(** [Object.values(o)] and [Object.keys(o)] of an object used as a
    dictionary, in the map's enumeration order. *)
Definition values {V : Type} (o : gmap string V) : list V :=
  (map_to_list o).*2.
Definition keys {V : Type} (o : gmap string V) : list string :=
  (map_to_list o).*1.

End Dyn.

(** ** Plain objects used as dictionaries *)

Module Obj.
Import Dyn.

(** The names of the properties every object inherits from
    [Object.prototype]. *)
Definition PROTOTYPE_NAMES : list string :=
  ["constructor"; "__defineGetter__"; "__defineSetter__"; "hasOwnProperty";
   "__lookupGetter__"; "__lookupSetter__"; "isPrototypeOf";
   "propertyIsEnumerable"; "toString"; "valueOf"; "__proto__";
   "toLocaleString"].

Definition inherited (k : string) : bool :=
  existsb (String.eqb k) PROTOTYPE_NAMES.

(** [Object.prototype[k]]: a function, for [__proto__] the prototype of
    [Object.prototype]'s heir, an object either way; or nothing. *)
Definition fromObjectPrototype (k : string) : value :=
  if inherited k then VObj else VUndef.

(** What [o[k]] is for a dictionary [o] of entities: an entity, or some
    other value. *)
Inductive Got (V : Type) : Type :=
| Entity (v : V)
| Other (x : value).
Arguments Entity {V} v.
Arguments Other {V} x.

Definition truthy {V : Type} (g : Got V) : bool :=
  match g with
  | Entity _ => true
  | Other x => Dyn.truthy x
  end.

Section Dict.
(** A dictionary is given by its own properties [own] and by [proto],
    the entity that an assignment to [__proto__] made its prototype, if
    there was one; before that its prototype is [Object.prototype].
    [field p k] is the own property [k] of an entity [p]. *)
Context {V : Type} (field : V -> string -> value).

(** [o[k]]: the own property, or else what the prototype chain has;
    [__proto__] answers the prototype itself. *)
Definition get (own : gmap string V) (proto : option V) (k : string) : Got V :=
  match own !! k with
  | Some v => Entity v
  | None =>
      match proto with
      | None => Other (fromObjectPrototype k)
      | Some p =>
          if String.eqb k "__proto__" then Entity p
          else Other (match field p k with
                      | VUndef => fromObjectPrototype k
                      | x => x
                      end)
      end
  end.

(** [o[k] = v] for an entity [v]: an own property is written, except
    that [__proto__], unless it is an own property, sets the prototype
    and leaves the own properties as they are. *)
Definition set (own : gmap string V) (proto : option V) (k : string) (v : V)
    : gmap string V * option V :=
  match own !! k with
  | Some _ => (<[k := v]> own, proto)
  | None =>
      if String.eqb k "__proto__" then (own, Some v)
      else (<[k := v]> own, proto)
  end.
End Dict.

End Obj.

(** ** The in-memory store ([prj1-sol/src/lib/sensors-info.ts]) *)

Module Prj1.
Import Errors Checkers Validators Dyn.

(** The three dictionaries of a [SensorsInfo], each by its own
    properties, and the prototypes of the first two.  The prototype of
    [sensorReadings] stays [Object.prototype]: an assignment to it is
    made only where the lookup before it found nothing, and a lookup of
    [__proto__] always finds an object. *)
Record SensorsInfo : Type := mkInfo {
  sensorTypes : gmap string SensorType.t;
  sensors : gmap string Sensor.t;
  sensorReadings : gmap string (list SensorReading.t);
  sensorTypesProto : option SensorType.t;
  sensorsProto : option Sensor.t;
}.

(** [new SensorsInfo()] *)
Definition new : SensorsInfo := mkInfo ∅ ∅ ∅ None None.

Definition clear (this : SensorsInfo) : Result (list string) * SensorsInfo :=
  (okResult [], mkInfo ∅ ∅ ∅ None None).

(** [this.sensorTypes[k]], [this.sensors[k]] and [this.sensorReadings[k]] *)
Definition sensorTypeAt (this : SensorsInfo) (k : string) : Obj.Got SensorType.t :=
  Obj.get sensorType_get (sensorTypes this) (sensorTypesProto this) k.

Definition sensorAt (this : SensorsInfo) (k : string) : Obj.Got Sensor.t :=
  Obj.get sensor_get (sensors this) (sensorsProto this) k.

Definition sensorReadingsAt (this : SensorsInfo) (k : string)
    : Obj.Got (list SensorReading.t) :=
  Obj.get (fun _ _ => VUndef) (sensorReadings this) None k.

(** [this.sensorTypes[sensorType.id] = sensorType] and
    [this.sensors[sensor.id] = sensor] *)
Definition setSensorType (this : SensorsInfo) (sensorType : SensorType.t)
    : SensorsInfo :=
  let o := Obj.set (sensorTypes this) (sensorTypesProto this)
             (SensorType.id sensorType) sensorType in
  mkInfo o.1 (sensors this) (sensorReadings this) o.2 (sensorsProto this).

Definition setSensor (this : SensorsInfo) (sensor : Sensor.t) : SensorsInfo :=
  let o := Obj.set (sensors this) (sensorsProto this) (Sensor.id sensor) sensor in
  mkInfo (sensorTypes this) o.1 (sensorReadings this) (sensorTypesProto this) o.2.

Definition addSensorType (this : SensorsInfo) (req : FlatReq)
    : Result (list SensorType.t) * SensorsInfo :=
  match makeSensorType req with
  | errResults es => (errResults es, this)
  | okResult sensorType => (okResult [sensorType], setSensorType this sensorType)
  end.

(** Where [this.sensorTypes[sensor.sensorTypeId]] is truthy but no
    sensor type, its [limits] is [undefined], and [isSubrange] throws
    on reading the [min] of that. *)
Definition addSensor (this : SensorsInfo) (req : FlatReq)
    : Completion (list Sensor.t) * SensorsInfo :=
  match makeSensor req with
  | errResults es => (Returns (errResults es), this)
  | okResult sensor =>
      match sensorTypeAt this (Sensor.sensorTypeId sensor) with
      | Obj.Entity sensorType =>
          let limits := SensorType.limits sensorType in
          let expected := Sensor.expected sensor in
          if Range.isSubrange expected limits
          then (Returns (okResult [sensor]), setSensor this sensor)
          else (Returns
                  (errResult
                     (Literal [Txt "Expected range ["; Num (Range.min expected);
                               Txt ", "; Num (Range.max expected);
                               Txt "] of sensor '"; Txt (Sensor.id sensor);
                               Txt "' is not within the limits [";
                               Num (Range.min limits); Txt ", ";
                               Num (Range.max limits);
                               Txt "] of sensor-type '";
                               Txt (Sensor.sensorTypeId sensor); Txt "'"])
                     "BAD_RANGE" None), this)
      | Obj.Other x =>
          if truthy x then (Throws TypeError, this)
          else (Returns
                  (errResult
                     (Literal [Txt "Unknown sensor type '";
                               Txt (Sensor.sensorTypeId sensor); Txt "'"])
                     "BAD_ID" None), this)
      end
  end.

Definition sameTimestamp (sensorReading currentSensorReading : SensorReading.t)
    : bool :=
  JS.eqb (SensorReading.timestamp currentSensorReading)
         (SensorReading.timestamp sensorReading).

(** Where [this.sensorReadings[sensorId]] is truthy but no array, it
    has no [findIndex], and the call of that throws.  The assignment of
    the last branch is to a key whose lookup found nothing, which
    [__proto__] is not: it writes an own property. *)
Definition addSensorReading (this : SensorsInfo) (req : FlatReq)
    : Completion (list SensorReading.t) * SensorsInfo :=
  match makeSensorReading req with
  | errResults es => (Returns (errResults es), this)
  | okResult sensorReading =>
      let sensorId := SensorReading.sensorId sensorReading in
      if negb (Obj.truthy (sensorAt this sensorId))
      then (Returns
              (errResult
                 (Literal [Txt "Unknown sensor '"; Txt sensorId; Txt "'"])
                 "BAD_ID" None), this)
      else
        match sensorReadingsAt this sensorId with
        | Obj.Entity rs =>
            let readings :=
              match JS.findIndex (sameTimestamp sensorReading) rs with
              | Some index => <[index := sensorReading]> rs
              | None => (rs ++ [sensorReading])%list
              end in
            (Returns (okResult [sensorReading]),
             mkInfo (sensorTypes this) (sensors this)
                    (<[sensorId := readings]> (sensorReadings this))
                    (sensorTypesProto this) (sensorsProto this))
        | Obj.Other x =>
            if truthy x then (Throws TypeError, this)
            else (Returns (okResult [sensorReading]),
                  mkInfo (sensorTypes this) (sensors this)
                         (<[sensorId := [sensorReading]]> (sensorReadings this))
                         (sensorTypesProto this) (sensorsProto this))
        end
  end.

(** The inner loop of the two entity searches: the flag stays set unless
    some filter field is truthy in the entity and differs from it. *)
Definition keep {E : Type} (get : E -> string -> value) (filterReq : FlatReq)
    (current : E) : bool :=
  forallb
    (fun filterFieldName =>
       negb (truthy (get current filterFieldName) &&
             match filterReq !! filterFieldName with
             | Some v => loose_neq v (get current filterFieldName)
             | None => false
             end))
    (keys filterReq).

Definition byId (a b : string) : JS.number :=
  if JS.str_gt a b then JS.of_Z 1
  else if JS.str_lt a b then JS.of_Z (-1)
  else JS.of_Z 0.

Definition findSensorTypes (this : SensorsInfo) (req : FlatReq)
    : Result (list SensorType.t) :=
  match validateFindCommand Validators.findSensorTypes req with
  | errResults es => errResults es
  | okResult filterReq =>
      let filteredSensorTypes :=
        List.filter (keep sensorType_get filterReq) (values (sensorTypes this)) in
      okResult
        (JS.sort (fun a b => byId (SensorType.id a) (SensorType.id b))
                 filteredSensorTypes)
  end.

Definition findSensors (this : SensorsInfo) (req : FlatReq)
    : Result (list Sensor.t) :=
  match validateFindCommand Validators.findSensors req with
  | errResults es => errResults es
  | okResult filterReq =>
      let filteredSensors :=
        List.filter (keep sensor_get filterReq) (values (sensors this)) in
      okResult
        (JS.sort (fun a b => byId (Sensor.id a) (Sensor.id b)) filteredSensors)
  end.

(** [filterReq[f] && x < parseInt(filterReq[f], 10)] *)
Definition belowBound (bound : option string) (x : JS.number) : bool :=
  match bound with
  | Some s => str_truthy s && JS.lt x (JS.parseInt s)
  | None => false
  end.

(** [filterReq[f] && x > parseInt(filterReq[f], 10)] *)
Definition aboveBound (bound : option string) (x : JS.number) : bool :=
  match bound with
  | Some s => str_truthy s && JS.gt x (JS.parseInt s)
  | None => false
  end.

Definition keepReading (filterReq : FlatReq) (current : SensorReading.t)
    : bool :=
  negb (belowBound (filterReq !! "minTimestamp") (SensorReading.timestamp current))
  && negb (aboveBound (filterReq !! "maxTimestamp") (SensorReading.timestamp current))
  && negb (belowBound (filterReq !! "minValue") (SensorReading.value current))
  && negb (aboveBound (filterReq !! "maxValue") (SensorReading.value current)).

Definition byTimestamp (a b : SensorReading.t) : JS.number :=
  JS.sub (SensorReading.timestamp a) (SensorReading.timestamp b).

(** Where [this.sensorReadings[sensorId]] is truthy but no array, it is
    not iterable, and the loop over it throws. *)
Definition findSensorReadings (this : SensorsInfo) (req : FlatReq)
    : Completion (list SensorReading.t) :=
  match validateFindCommand Validators.findSensorReadings req with
  | errResults es => Returns (errResults es)
  | okResult filterReq =>
      let key := match filterReq !! "sensorId" with
                 | Some id => id
                 | None => "undefined"
                 end in
      match sensorReadingsAt this key with
      | Obj.Entity tempSensorReadings =>
          Returns
            (okResult
               (JS.sort byTimestamp
                  (List.filter (keepReading filterReq) tempSensorReadings)))
      | Obj.Other x =>
          if truthy x then Throws TypeError
          else Returns (okResult (JS.sort byTimestamp []))
      end
  end.

(** The three loops of [addSensorsInfo]; each stops at the first error,
    and an exception leaves the loop and the function. *)
Fixpoint addAll {A : Type}
    (add : SensorsInfo -> FlatReq -> Completion A * SensorsInfo)
    (reqs : list FlatReq) (this : SensorsInfo) : Completion unit * SensorsInfo :=
  match reqs with
  | [] => (Returns (okResult tt), this)
  | req :: rest =>
      match add this req with
      | (Returns (okResult _), this') => addAll add rest this'
      | (Returns (errResults es), this') => (Returns (errResults es), this')
      | (Throws e, this') => (Throws e, this')
      end
  end.

Definition addSensorsInfo (sensorTypes sensors sensorReadings : list FlatReq)
    (sensorsInfo : SensorsInfo) : Completion unit * SensorsInfo :=
  match addAll (fun this req => (Returns (addSensorType this req).1,
                                 (addSensorType this req).2))
          sensorTypes sensorsInfo with
  | (Returns (okResult _), s1) =>
      match addAll addSensor sensors s1 with
      | (Returns (okResult _), s2) => addAll addSensorReading sensorReadings s2
      | (Returns (errResults es), s) => (Returns (errResults es), s)
      | (Throws e, s) => (Throws e, s)
      end
  | (Returns (errResults es), s) => (Returns (errResults es), s)
  | (Throws e, s) => (Throws e, s)
  end.

Definition makeSensorsInfo (sensorTypes sensors sensorReadings : list FlatReq)
    : Completion SensorsInfo :=
  match addSensorsInfo sensorTypes sensors sensorReadings new with
  | (Returns (okResult _), s) => Returns (okResult s)
  | (Returns (errResults es), _) => Returns (errResults es)
  | (Throws e, _) => Throws e
  end.

(** The states a [SensorsInfo] object goes through. *)
Inductive reachable : SensorsInfo -> Prop :=
| reach_new : reachable new
| reach_clear this : reachable this -> reachable (clear this).2
| reach_addSensorType this req :
    reachable this -> reachable (addSensorType this req).2
| reach_addSensor this req :
    reachable this -> reachable (addSensor this req).2
| reach_addSensorReading this req :
    reachable this -> reachable (addSensorReading this req).2.

End Prj1.

(** ** Search criteria with paging (the [validators.ts] of the paginated
       revision, as carried by [prj4-sol/src/lib/init.ts]) *)

Module Search.
Import Errors Checkers Validators Dyn.

Definition PAGING_FIELDS : list (string * FieldInfo) :=
  [("count", optional_checked NUMBER_CHK);
   ("index", optional_checked NUMBER_CHK)].

(** [if (req.f) this.f = Number(req.f)] *)
Definition pagingField (req : FlatReq) (f : string) : option JS.number :=
  match req !! f with
  | Some s => if str_truthy s then Some (JS.Number s) else None
  | None => None
  end.

(** [if (req.f) this.f = req.f] *)
Definition truthyField (req : FlatReq) (f : string) : option string :=
  match req !! f with
  | Some s => if str_truthy s then Some s else None
  | None => None
  end.

Module SensorTypeSearch.
Record t : Type := mk {
  id : option string;
  manufacturer : option string;
  modelNumber : option string;
  quantity : option string;
  unit : option string;
  count : option JS.number;
  index : option JS.number;
}.

Definition new (req : FlatReq) : t :=
  mk (req !! "id") (req !! "manufacturer") (req !! "modelNumber")
     (req !! "quantity") (req !! "unit")
     (pagingField req "count") (pagingField req "index").

Definition CHECKS : FlatReqChecks :=
  mkChecks ([("id", optional); ("manufacturer", optional);
             ("modelNumber", optional); ("quantity", optional);
             ("unit", optional)] ++ PAGING_FIELDS)%list [].

Definition make (req : FlatReq) : Result t :=
  match checkFlatReq req CHECKS with
  | errResults es => errResults es
  | okResult val => okResult (new val)
  end.

(** [{id: ...} as SensorTypeSearch] *)
Definition ofId (i : string) : t :=
  mk (Some i) None None None None None None.
End SensorTypeSearch.

Module SensorSearch.
Record t : Type := mk {
  id : option string;
  sensorTypeId : option string;
  count : option JS.number;
  index : option JS.number;
}.

Definition new (req : FlatReq) : t :=
  mk (truthyField req "id") (truthyField req "sensorTypeId")
     (pagingField req "count") (pagingField req "index").

Definition CHECKS : FlatReqChecks :=
  mkChecks ([("id", optional); ("sensorTypeId", optional)]
              ++ PAGING_FIELDS)%list [].

Definition make (req : FlatReq) : Result t :=
  match checkFlatReq req CHECKS with
  | errResults es => errResults es
  | okResult val => okResult (new val)
  end.

(** [{id: ...} as SensorSearch] *)
Definition ofId (i : string) : t := mk (Some i) None None None.
End SensorSearch.

Module SensorReadingSearch.
Record t : Type := mk {
  sensorId : option string;
  minTimestamp : JS.number;
  maxTimestamp : JS.number;
  minValue : JS.number;
  maxValue : JS.number;
  count : option JS.number;
  index : option JS.number;
}.

Definition new (req : FlatReq) : t :=
  mk (req !! "sensorId")
     (JS.NumberOr (req !! "minTimestamp") JS.NegInf)
     (JS.NumberOr (req !! "maxTimestamp") JS.PosInf)
     (JS.NumberOr (req !! "minValue") JS.NegInf)
     (JS.NumberOr (req !! "maxValue") JS.PosInf)
     (pagingField req "count") (pagingField req "index").

Definition CHECKS : FlatReqChecks :=
  mkChecks ([("sensorId", required);
             ("minTimestamp", optional_checked INTEGER_CHK);
             ("maxTimestamp", optional_checked INTEGER_CHK);
             ("minValue", optional_checked NUMBER_CHK);
             ("maxValue", optional_checked NUMBER_CHK)]
              ++ PAGING_FIELDS)%list
           [rangeChk "minTimestamp" "maxTimestamp";
            rangeChk "minValue" "maxValue"].

Definition make (req : FlatReq) : Result t :=
  match checkFlatReq req CHECKS with
  | errResults es => errResults es
  | okResult val => okResult (new val)
  end.
End SensorReadingSearch.

End Search.

(** ** The persistence collaborator ([prj3-sol/src/lib/sensors-dao.ts]) *)

Module Dao.
Import Errors Validators Search.

(** The operations of class [SensorsDao]; every call may change the
    collaborator's state. *)
Class SensorsDao (D : Type) : Type := {
  clear : D -> Result unit * D;
  addSensorType : SensorType.t -> D -> Result SensorType.t * D;
  addSensor : Sensor.t -> D -> Result Sensor.t * D;
  addSensorReading : SensorReading.t -> D -> Result SensorReading.t * D;
  findSensorTypes : SensorTypeSearch.t -> D -> Result (list SensorType.t) * D;
  findSensors : SensorSearch.t -> D -> Result (list Sensor.t) * D;
  findSensorReadings :
    SensorReadingSearch.t -> D -> Result (list SensorReading.t) * D;
}.

End Dao.

(** *** MongoDB, as far as the DAO uses it *)

Module Mongo.
Import Errors Validators Search Dyn.

(** What an operation can throw. *)
Inductive Error : Type :=
| MongoServerError (code : Z)
| OtherError.

(** mongo err.code on inserting duplicate entry *)
Definition MONGO_DUPLICATE_CODE : Z := 11000.

(** The three collections.  [sensorTypes] and [sensors] are keyed by
    [_id]; [sensorReadings] has a unique index on (sensorId, timestamp)
    and keeps insertion order.  [connected] is false when the server
    cannot be reached: every operation then throws. *)
Record Db : Type := mkDb {
  connected : bool;
  sensorTypes : gmap string SensorType.t;
  sensors : gmap string Sensor.t;
  sensorReadings : list SensorReading.t;
}.

(** [collection.insertOne({...doc, _id})] *)
Definition insertOne {V : Type} (up : bool) (_id : string) (doc : V)
    (coll : gmap string V) : Error + gmap string V :=
  if negb up then inl OtherError
  else match coll !! _id with
       | Some _ => inl (MongoServerError MONGO_DUPLICATE_CODE)
       | None => inr (<[_id := doc]> coll)
       end.

Definition sameKey (a b : SensorReading.t) : bool :=
  String.eqb (SensorReading.sensorId a) (SensorReading.sensorId b)
  && JS.eqb (SensorReading.timestamp a) (SensorReading.timestamp b).

(** [sensorReadings.insertOne({...sensorReading})] *)
Definition insertReading (up : bool) (doc : SensorReading.t)
    (coll : list SensorReading.t) : Error + list SensorReading.t :=
  if negb up then inl OtherError
  else if existsb (sameKey doc) coll
       then inl (MongoServerError MONGO_DUPLICATE_CODE)
       else inr (coll ++ [doc])%list.

(** A paging argument that is a natural number. *)
Definition as_nat (n : JS.number) : option nat :=
  match n with
  | JS.Fin q =>
      let r := Qred q in
      if (Qden r =? 1)%positive && (0 <=? Qnum r)%Z
      then Some (Z.to_nat (Qnum r)) else None
  | _ => None
  end.

(** [cursor.skip(index).limit(count).toArray()].  A limit of [0] means
    no limit.  A skip or limit that is not a natural number makes the
    operation throw. *)
Definition page {A : Type} (index count : JS.number) (l : list A)
    : option (list A) :=
  match as_nat index, as_nat count with
  | Some i, Some c =>
      Some (match c with
            | O => drop i l
            | _ => take c (drop i l)
            end)
  | _, _ => None
  end.

(** A query field that is [undefined] is ignored ([ignoreUndefined]). *)
Definition fieldIs (q : option string) (v : string) : bool :=
  match q with
  | Some s => String.eqb s v
  | None => true
  end.

(** [if (!search.id) delete query._id] *)
Definition idIs (q : option string) (_id : string) : bool :=
  match q with
  | Some s => if str_truthy s then String.eqb s _id else true
  | None => true
  end.

Definition matchSensorType (search : SensorTypeSearch.t)
    (doc : string * SensorType.t) : bool :=
  fieldIs (SensorTypeSearch.id search) (SensorType.id doc.2)
  && fieldIs (SensorTypeSearch.manufacturer search) (SensorType.manufacturer doc.2)
  && fieldIs (SensorTypeSearch.modelNumber search) (SensorType.modelNumber doc.2)
  && fieldIs (SensorTypeSearch.quantity search) (SensorType.quantity doc.2)
  && fieldIs (SensorTypeSearch.unit search) (SensorType.unit doc.2)
  && idIs (SensorTypeSearch.id search) doc.1.

Definition matchSensor (search : SensorSearch.t) (doc : string * Sensor.t)
    : bool :=
  fieldIs (SensorSearch.id search) (Sensor.id doc.2)
  && fieldIs (SensorSearch.sensorTypeId search) (Sensor.sensorTypeId doc.2)
  && idIs (SensorSearch.id search) doc.1.

(** [{sensorId, timestamp: {$gte, $lte}, value: {$gte, $lte}}] *)
Definition matchReading (search : SensorReadingSearch.t)
    (doc : SensorReading.t) : bool :=
  fieldIs (SensorReadingSearch.sensorId search) (SensorReading.sensorId doc)
  && JS.le (SensorReadingSearch.minTimestamp search) (SensorReading.timestamp doc)
  && JS.le (SensorReading.timestamp doc) (SensorReadingSearch.maxTimestamp search)
  && JS.le (SensorReadingSearch.minValue search) (SensorReading.value doc)
  && JS.le (SensorReading.value doc) (SensorReadingSearch.maxValue search).

(** The full sorted match sets, before paging. *)
Definition sortedSensorTypes (search : SensorTypeSearch.t) (db : Db)
    : list SensorType.t :=
  JS.sort (fun a b => Prj1.byId (SensorType.id a) (SensorType.id b))
    (List.filter (matchSensorType search) (map_to_list (sensorTypes db))).*2.

Definition sortedSensors (search : SensorSearch.t) (db : Db)
    : list Sensor.t :=
  JS.sort (fun a b => Prj1.byId (Sensor.id a) (Sensor.id b))
    (List.filter (matchSensor search) (map_to_list (sensors db))).*2.

Definition sortedReadings (search : SensorReadingSearch.t) (db : Db)
    : list SensorReading.t :=
  JS.sort Prj1.byTimestamp
    (List.filter (matchReading search) (sensorReadings db)).

Definition checkDuplicateError {A : Type} (err : Error) (dataType : string)
    : Result A :=
  match err with
  | MongoServerError code =>
      if (code =? MONGO_DUPLICATE_CODE)%Z
      then errResult (Literal [Txt "duplicate "; Txt dataType; Txt " ";
                               Rendered "JSON.stringify(data)"])
             "EXISTS" None
      else errResult (Literal [Txt "cannot add "; Txt dataType; Txt " for ";
                               Rendered "JSON.stringify(data)";
                               Txt " to DB: "; Rendered "err"])
             "DB" None
  | OtherError =>
      errResult (Literal [Txt "cannot add "; Txt dataType; Txt " for ";
                          Rendered "JSON.stringify(data)";
                          Txt " to DB: "; Rendered "err"])
        "DB" None
  end.

Definition findError {A : Type} (what : string) : Result A :=
  errResult (Literal [Txt "cannot find "; Txt what; Txt ": ";
                      Rendered "JSON.stringify(search)"; Txt ": ";
                      Rendered "err"])
    "DB" None.

Definition clear (db : Db) : Result unit * Db :=
  if negb (connected db)
  then (errResult (Literal [Txt "cannot close DB: "; Rendered "err"]) "DB" None,
        db)
  else (okResult tt, mkDb (connected db) ∅ ∅ []).

Definition addSensorType (sensorType : SensorType.t) (db : Db)
    : Result SensorType.t * Db :=
  match insertOne (connected db) (SensorType.id sensorType) sensorType
          (sensorTypes db) with
  | inr coll =>
      (okResult sensorType,
       mkDb (connected db) coll (sensors db) (sensorReadings db))
  | inl err => (checkDuplicateError err "sensorType", db)
  end.

Definition addSensor (sensor : Sensor.t) (db : Db) : Result Sensor.t * Db :=
  match insertOne (connected db) (Sensor.id sensor) sensor (sensors db) with
  | inr coll =>
      (okResult sensor,
       mkDb (connected db) (sensorTypes db) coll (sensorReadings db))
  | inl err => (checkDuplicateError err "sensor", db)
  end.

Definition addSensorReading (sensorReading : SensorReading.t) (db : Db)
    : Result SensorReading.t * Db :=
  match insertReading (connected db) sensorReading (sensorReadings db) with
  | inr coll =>
      (okResult sensorReading,
       mkDb (connected db) (sensorTypes db) (sensors db) coll)
  | inl err => (checkDuplicateError err "sensorReading", db)
  end.

Section Params.
(** [DEFAULT_COUNT] and [DEFAULT_INDEX] of [params.js], which is not
    among the sources. *)
Variables DEFAULT_COUNT DEFAULT_INDEX : nat.

Definition orDefault (x : option JS.number) (d : nat) : JS.number :=
  match x with
  | Some n => n
  | None => JS.of_Z (Z.of_nat d)
  end.

Definition findSensorTypes (search : SensorTypeSearch.t) (db : Db)
    : Result (list SensorType.t) * Db :=
  let count := orDefault (SensorTypeSearch.count search) DEFAULT_COUNT in
  let index := orDefault (SensorTypeSearch.index search) DEFAULT_INDEX in
  if negb (connected db) then (findError "sensorTypes", db)
  else match page index count (sortedSensorTypes search db) with
       | Some sensorTypes => (okResult sensorTypes, db)
       | None => (findError "sensorTypes", db)
       end.

Definition findSensors (search : SensorSearch.t) (db : Db)
    : Result (list Sensor.t) * Db :=
  let count := orDefault (SensorSearch.count search) DEFAULT_COUNT in
  let index := orDefault (SensorSearch.index search) DEFAULT_INDEX in
  if negb (connected db) then (findError "sensors", db)
  else match page index count (sortedSensors search db) with
       | Some sensors => (okResult sensors, db)
       | None => (findError "sensors", db)
       end.

Definition findSensorReadings (search : SensorReadingSearch.t) (db : Db)
    : Result (list SensorReading.t) * Db :=
  let count := orDefault (SensorReadingSearch.count search) DEFAULT_COUNT in
  let index := orDefault (SensorReadingSearch.index search) DEFAULT_INDEX in
  if negb (connected db) then (findError "sensorTypes", db)
  else match page index count (sortedReadings search db) with
       | Some sensorReadings => (okResult sensorReadings, db)
       | None => (findError "sensorTypes", db)
       end.

#[export] Instance dao : Dao.SensorsDao Db := {|
  Dao.clear := clear;
  Dao.addSensorType := addSensorType;
  Dao.addSensor := addSensor;
  Dao.addSensorReading := addSensorReading;
  Dao.findSensorTypes := findSensorTypes;
  Dao.findSensors := findSensors;
  Dao.findSensorReadings := findSensorReadings;
|}.
End Params.

End Mongo.

(** ** The store over a DAO ([prj3-sol/src/lib/sensors-info.ts]) *)

Module Prj3.
Import Errors Checkers Validators Search.

Section SensorsInfo.
Context {D : Type} {DAO : Dao.SensorsDao D}.

Definition clear (dao : D) : Result unit * D := Dao.clear dao.

Definition addSensorType (req : FlatReq) (dao : D)
    : Result SensorType.t * D :=
  match makeSensorType req with
  | errResults es => (errResults es, dao)
  | okResult sensorType => Dao.addSensorType sensorType dao
  end.

Definition addSensor (req : FlatReq) (dao : D) : Result Sensor.t * D :=
  match makeSensor req with
  | errResults es => (errResults es, dao)
  | okResult sensor =>
      match Dao.findSensorTypes
              (SensorTypeSearch.ofId (Sensor.sensorTypeId sensor)) dao with
      | (errResults es, dao1) => (errResults es, dao1)
      | (okResult sensorTypes, dao1) =>
          match sensorTypes with
          | [sensorType] =>
              let limits := SensorType.limits sensorType in
              let expected := Sensor.expected sensor in
              if negb (Range.isSubrange expected limits)
              then (errResult
                      (Literal [Txt "expected range [";
                                Num (Range.min expected); Txt ", ";
                                Num (Range.max expected);
                                Txt "] of sensor "; Txt Validators.dq;
                                Txt (Sensor.id sensor); Txt Validators.dq;
                                Txt " is not within the limits [";
                                Num (Range.min limits); Txt ", ";
                                Num (Range.max limits);
                                Txt "] of sensor-type "; Txt Validators.dq;
                                Txt (Sensor.sensorTypeId sensor);
                                Txt Validators.dq])
                      "BAD_RANGE" (Some "min"), dao1)
              else Dao.addSensor sensor dao1
          | _ =>
              (errResult
                 (Literal [Txt "unknown sensor type "; Txt Validators.dq;
                           Txt (Sensor.sensorTypeId sensor);
                           Txt Validators.dq])
                 "BAD_ID" (Some "sensorTypeId"), dao1)
          end
      end
  end.

Definition addSensorReading (req : FlatReq) (dao : D)
    : Result SensorReading.t * D :=
  match makeSensorReading req with
  | errResults es => (errResults es, dao)
  | okResult sensorReading =>
      match Dao.findSensors
              (SensorSearch.ofId (SensorReading.sensorId sensorReading))
              dao with
      | (errResults es, dao1) => (errResults es, dao1)
      | (okResult sensors, dao1) =>
          match sensors with
          | [_] => Dao.addSensorReading sensorReading dao1
          | _ =>
              (errResult
                 (Literal [Txt "unknown sensor id "; Txt Validators.dq;
                           Txt (SensorReading.sensorId sensorReading);
                           Txt Validators.dq])
                 "BAD_ID" (Some "sensorId"), dao1)
          end
      end
  end.

Definition findSensorTypes (req : FlatReq) (dao : D)
    : Result (list SensorType.t) * D :=
  match SensorTypeSearch.make req with
  | errResults es => (errResults es, dao)
  | okResult sensorTypeSearch => Dao.findSensorTypes sensorTypeSearch dao
  end.

Definition findSensors (req : FlatReq) (dao : D)
    : Result (list Sensor.t) * D :=
  match SensorSearch.make req with
  | errResults es => (errResults es, dao)
  | okResult sensorsSearch => Dao.findSensors sensorsSearch dao
  end.

Definition findSensorReadings (req : FlatReq) (dao : D)
    : Result (list SensorReading.t) * D :=
  match SensorReadingSearch.make req with
  | errResults es => (errResults es, dao)
  | okResult search => Dao.findSensorReadings search dao
  end.
End SensorsInfo.

(** The states the database goes through under a store that uses the
    MongoDB DAO; the connection may come and go at any time. *)
Inductive reachable (DEFAULT_COUNT DEFAULT_INDEX : nat) : Mongo.Db -> Prop :=
| reach_empty up : reachable DEFAULT_COUNT DEFAULT_INDEX (Mongo.mkDb up ∅ ∅ [])
| reach_connection db up :
    reachable DEFAULT_COUNT DEFAULT_INDEX db ->
    reachable DEFAULT_COUNT DEFAULT_INDEX
      (Mongo.mkDb up (Mongo.sensorTypes db) (Mongo.sensors db)
                  (Mongo.sensorReadings db))
| reach_clear db :
    reachable DEFAULT_COUNT DEFAULT_INDEX db ->
    reachable DEFAULT_COUNT DEFAULT_INDEX
      (clear (DAO := Mongo.dao DEFAULT_COUNT DEFAULT_INDEX) db).2
| reach_addSensorType db req :
    reachable DEFAULT_COUNT DEFAULT_INDEX db ->
    reachable DEFAULT_COUNT DEFAULT_INDEX
      (addSensorType (DAO := Mongo.dao DEFAULT_COUNT DEFAULT_INDEX) req db).2
| reach_addSensor db req :
    reachable DEFAULT_COUNT DEFAULT_INDEX db ->
    reachable DEFAULT_COUNT DEFAULT_INDEX
      (addSensor (DAO := Mongo.dao DEFAULT_COUNT DEFAULT_INDEX) req db).2
| reach_addSensorReading db req :
    reachable DEFAULT_COUNT DEFAULT_INDEX db ->
    reachable DEFAULT_COUNT DEFAULT_INDEX
      (addSensorReading (DAO := Mongo.dao DEFAULT_COUNT DEFAULT_INDEX) req db).2.

End Prj3.

(** ** Predicates used to state the properties *)

Module Spec.
Import Errors Checkers Validators Dyn.

Definition finite (n : JS.number) : Prop := exists q, n = JS.Fin q.

(** A natural number as a JavaScript number. *)
Definition ofNat (n : nat) : JS.number := JS.of_Z (Z.of_nat n).

(** The window [[index, index + count)] of a list. *)
Definition window {A : Type} (index count : nat) (l : list A) : list A :=
  take count (drop index l).

(** Numeric [<=] and string [<=], as relations. *)
Definition numLe (a b : JS.number) : Prop := JS.le a b = true.
Definition strLe (a b : string) : Prop := String.leb a b = true.

Definition sensorTypesById : list SensorType.t -> Prop :=
  Sorted (fun a b => strLe (SensorType.id a) (SensorType.id b)).
Definition sensorsById : list Sensor.t -> Prop :=
  Sorted (fun a b => strLe (Sensor.id a) (Sensor.id b)).
Definition readingsByTimestamp : list SensorReading.t -> Prop :=
  Sorted (fun a b => numLe (SensorReading.timestamp a) (SensorReading.timestamp b)).

(** The search fields of the two entity searches and their values in
    an entity. *)
Definition sensorTypeFields : list string :=
  ["id"; "manufacturer"; "modelNumber"; "quantity"; "unit"].
Definition sensorFields : list string := ["id"; "sensorTypeId"].

Definition fieldOf {E : Type} (get : E -> string -> value) (e : E)
    (f : string) : string :=
  match get e f with VStr s => s | _ => EmptyString end.

(** Every stored reading has a finite timestamp. *)
Definition finiteTimestamps (this : Prj1.SensorsInfo) : Prop :=
  forall k rs, Prj1.sensorReadings this !! k = Some rs ->
               Forall (fun r => finite (SensorReading.timestamp r)) rs.

Definition dbFiniteTimestamps (db : Mongo.Db) : Prop :=
  Forall (fun r => finite (SensorReading.timestamp r)) (Mongo.sensorReadings db).

(** Readings are kept for stored sensors only. *)
Definition dbReadingsHaveSensor (db : Mongo.Db) : Prop :=
  Forall (fun r => is_Some (Mongo.sensors db !! SensorReading.sensorId r))
         (Mongo.sensorReadings db).

(** Documents are stored under their own id ([_id] is set to [id]). *)
Definition idKeyed (db : Mongo.Db) : Prop :=
  (forall k t, Mongo.sensorTypes db !! k = Some t -> SensorType.id t = k)
  /\ (forall k s, Mongo.sensors db !! k = Some s -> Sensor.id s = k).

(** The readings of a sensor after [r] was added to them: [r] takes the
    place of the first reading with its timestamp, or goes last. *)
Definition updated (r : SensorReading.t) (old : option (list SensorReading.t))
    : list SensorReading.t :=
  match old with
  | Some rs =>
      match JS.findIndex (Prj1.sameTimestamp r) rs with
      | Some index => <[index := r]> rs
      | None => (rs ++ [r])%list
      end
  | None => [r]
  end.

(** [r] fails with exactly the one error code [c]. *)
Definition failsWith {A : Type} (r : Result A) (c : string) : Prop :=
  codes r = [c] /\ isOk r = false.

(** [r] fails and [c] is among its error codes. *)
Definition failsWithSome {A : Type} (r : Result A) (c : string) : Prop :=
  In c (codes r).

(** A call returns, and what it returns fails in the one way or the
    other. *)
Definition returnsWith {A : Type} (c : Completion A) (cd : string) : Prop :=
  exists r, c = Returns r /\ failsWith r cd.

Definition returnsWithSome {A : Type} (c : Completion A) (cd : string) : Prop :=
  exists r, c = Returns r /\ failsWithSome r cd.

(** The two ways a request can set the page. *)
Definition pageSupplied (req : FlatReq) (index count : nat) : Prop :=
  exists cs ixs,
    req !! "count" = Some cs /\ req !! "index" = Some ixs
    /\ JS.Number cs = ofNat count /\ JS.Number ixs = ofNat index.

Definition pageAbsent (req : FlatReq) : Prop :=
  req !! "count" = None /\ req !! "index" = None.

(** Both bounds of a pair are supplied, each in the format of its field,
    and the minimum exceeds the maximum. *)
Definition badPair (req : FlatReq) (minId maxId : string)
    (format : string -> bool) : Prop :=
  exists lo hi,
    req !! minId = Some lo /\ req !! maxId = Some hi
    /\ format lo = true /\ format hi = true
    /\ JS.gt (JS.Number lo) (JS.Number hi) = true.

(** Both bounds of a pair are supplied, each a number literal, and they
    denote the same number. *)
Definition equalPair (req : FlatReq) (minId maxId : string) : Prop :=
  exists lo hi,
    req !! minId = Some lo /\ req !! maxId = Some hi
    /\ NUMBER_RE lo = true /\ NUMBER_RE hi = true
    /\ JS.eqb (JS.Number lo) (JS.Number hi) = true.

Definition present (req : FlatReq) (ids : list string) : Prop :=
  Forall (fun id => is_Some (req !! id)) ids.

(** [limits.min <= expected.min and expected.max <= limits.max] *)
Definition within (expected limits : Range.t) : Prop :=
  numLe (Range.min limits) (Range.min expected)
  /\ numLe (Range.max expected) (Range.max limits).

End Spec.

(** ** Sample data ([prj1-sol/src/test/data/data.ts]) *)

Module Data.
Import Checkers Validators.

Definition SENSOR_TYPE1 : FlatReq :=
  list_to_map [("id", "hw123"); ("manufacturer", "honeywell");
               ("modelNumber", "123"); ("quantity", "pressure");
               ("unit", "PSI"); ("min", "10.0"); ("max", "100")].

Definition SENSOR_TYPE1_VAL : SensorType.t :=
  SensorType.mk "hw123" "honeywell" "123" "pressure" "PSI"
    (Range.mk (JS.of_Z 10) (JS.of_Z 100)).

Definition SENSOR1 : FlatReq :=
  list_to_map [("id", "ln1120"); ("sensorTypeId", "hw123");
               ("period", "1000"); ("min", "15"); ("max", "85")].

Definition SENSOR1_VAL : Sensor.t :=
  Sensor.mk "ln1120" "hw123" (JS.of_Z 1000)
    (Range.mk (JS.of_Z 15) (JS.of_Z 85)).

Definition SENSOR_READING1 : FlatReq :=
  list_to_map [("sensorId", "ln1120"); ("timestamp", "1694129048");
               ("value", "12.4")].

Definition SENSOR_READING1_VAL : SensorReading.t :=
  SensorReading.mk "ln1120" (JS.of_Z 1694129048) (JS.Fin (62 # 5)).

(** The in-memory store after the three sample adds. *)
Definition store1 : Prj1.SensorsInfo :=
  (Prj1.addSensorReading
     (Prj1.addSensor (Prj1.addSensorType Prj1.new SENSOR_TYPE1).2 SENSOR1).2
     SENSOR_READING1).2.

(** The database after the same adds through the DAO-backed store,
    with the given paging defaults. *)
Definition db1 (DEFAULT_COUNT DEFAULT_INDEX : nat) : Mongo.Db :=
  let dao := Mongo.dao DEFAULT_COUNT DEFAULT_INDEX in
  let db := Mongo.mkDb true ∅ ∅ [] in
  let db := (Prj3.addSensorType (DAO := dao) SENSOR_TYPE1 db).2 in
  let db := (Prj3.addSensor (DAO := dao) SENSOR1 db).2 in
  (Prj3.addSensorReading (DAO := dao) SENSOR_READING1 db).2.

(** An earlier reading of the same sensor, and the in-memory store
    after it was added last. *)
Definition SENSOR_READING0 : FlatReq :=
  list_to_map [("sensorId", "ln1120"); ("timestamp", "1694129000");
               ("value", "11")].

Definition SENSOR_READING0_VAL : SensorReading.t :=
  SensorReading.mk "ln1120" (JS.of_Z 1694129000) (JS.of_Z 11).

Definition store2 : Prj1.SensorsInfo :=
  (Prj1.addSensorReading store1 SENSOR_READING0).2.

(** Six sensor types that differ in their ids only. *)
Definition sixSensorTypes : list FlatReq :=
  map (fun id => <[ "id" := id ]> SENSOR_TYPE1)
      ["t1"; "t2"; "t3"; "t4"; "t5"; "t6"].

Definition db6 (DEFAULT_COUNT DEFAULT_INDEX : nat) : Mongo.Db :=
  fold_left
    (fun db req =>
       (Prj3.addSensorType (DAO := Mongo.dao DEFAULT_COUNT DEFAULT_INDEX) req db).2)
    sixSensorTypes (Mongo.mkDb true ∅ ∅ []).

End Data.

(** ** Factory functions of the store over a DAO
       ([prj3-sol/src/lib/sensors-info.ts]) *)

Module Prj3Factory.
Import Errors Checkers.

Section SensorsInfo.
Context {D : Type} {DAO : Dao.SensorsDao D}.

(** The three loops of [addSensorsInfo]; each stops at the first error. *)
Fixpoint addAll {A : Type} (add : FlatReq -> D -> Result A * D)
    (reqs : list FlatReq) (dao : D) : Result unit * D :=
  match reqs with
  | [] => (okResult tt, dao)
  | req :: rest =>
      match add req dao with
      | (errResults es, dao') => (errResults es, dao')
      | (okResult _, dao') => addAll add rest dao'
      end
  end.

Definition addSensorsInfo (sensorTypes sensors sensorReadings : list FlatReq)
    (dao : D) : Result unit * D :=
  match addAll Prj3.addSensorType sensorTypes dao with
  | (errResults es, dao') => (errResults es, dao')
  | (okResult _, dao1) =>
      match addAll Prj3.addSensor sensors dao1 with
      | (errResults es, dao') => (errResults es, dao')
      | (okResult _, dao2) => addAll Prj3.addSensorReading sensorReadings dao2
      end
  end.

(** The [SensorsInfo] object made holds nothing but the DAO: the answer
    is the outcome of the adds and the state they left the DAO in. *)
Definition makeSensorsInfo (dao : D)
    (sensorTypes sensors sensorReadings : list FlatReq) : Result unit * D :=
  addSensorsInfo sensorTypes sensors sensorReadings dao.
End SensorsInfo.

End Prj3Factory.

(** ** The web services ([prj3-sol/src/lib/sensors-ws.ts]) *)

Module Ws.
Import Errors Checkers Validators Search.

(** The status codes of the package http-status that the handlers use. *)
Module STATUS.
Definition OK : Z := 200.
Definition CREATED : Z := 201.
Definition BAD_REQUEST : Z := 400.
Definition UNAUTHORIZED : Z := 401.
Definition NOT_FOUND : Z := 404.
Definition CONFLICT : Z := 409.
Definition INTERNAL_SERVER_ERROR : Z := 500.
End STATUS.

(** Map from domain errors to HTTP status codes.  For a code that is not
    mentioned the lookup gives [undefined], or what [Object.prototype]
    has under that name; neither is a number, so it counts as no entry. *)
Definition ERROR_MAP (code : string) : option Z :=
  if String.eqb code "EXISTS" then Some STATUS.CONFLICT
  else if String.eqb code "NOT_FOUND" then Some STATUS.NOT_FOUND
  else if String.eqb code "BAD_REQ" then Some STATUS.BAD_REQUEST
  else if String.eqb code "AUTH" then Some STATUS.UNAUTHORIZED
  else if String.eqb code "DB" then Some STATUS.INTERNAL_SERVER_ERROR
  else if String.eqb code "INTERNAL" then Some STATUS.INTERNAL_SERVER_ERROR
  else None.

(** One turn of the loop of [getHttpStatus]; what is no entry of
    [ERROR_MAP] is neither [> 0] nor [=== 500]. *)
Definition statusStep (status : Z) (err : Err) : Z :=
  let errStatus := ERROR_MAP (code err) in
  let status :=
    match errStatus with
    | Some s => if (0 <? s)%Z && (status =? 0)%Z then s else status
    | None => status
    end in
  match errStatus with
  | Some s => if (s =? STATUS.INTERNAL_SERVER_ERROR)%Z then s else status
  | None => status
  end.

Definition getHttpStatus (errors : list Err) : Z :=
  let status := fold_left statusStep errors 0%Z in
  if negb (status =? 0)%Z then status else STATUS.BAD_REQUEST.

(** What a handler catches: a failed result it threw itself, or an
    [Error] with its message. *)
Inductive Thrown : Type :=
| ThrownResult (errors : list Err)
| ThrownError (message : string).

(** [{isOk: false, status, errors}] *)
Record ErrorEnvelope : Type := mkErrorEnvelope {
  errStatus : Z;
  errors : list Err;
}.

Definition mapResultErrors (err : Thrown) : ErrorEnvelope :=
  let errors :=
    match err with
    | ThrownResult errors => errors
    | ThrownError message => [mkErr (Literal [Txt message]) "UNKNOWN" None]
    end in
  mkErrorEnvelope (getHttpStatus errors) errors.

(** A request, as far as the links need it: its method and the path and
    query string of its URL. *)
Record Request : Type := mkRequest {
  method : string;
  pathname : string;
  search : string;
}.

(** Path for [req]: extended with [/id] when [id] is given, with the
    query string otherwise. *)
Definition selfHref (req : Request) (id : string) : string :=
  pathname req ++ (if Dyn.str_truthy id then "/" ++ id else search req).

Record Link : Type := mkLink {
  rel : string;
  href : string;
  linkMethod : string;
}.

(** [{isOk: true, status, links: {self}, result}] *)
Record SuccessEnvelope (A : Type) : Type := mkSuccessEnvelope {
  status : Z;
  self : Link;
  result : A;
}.
Arguments mkSuccessEnvelope {A} status self result.
Arguments status {A} _.
Arguments self {A} _.
Arguments result {A} _.

Definition selfResult {A : Type} (req : Request) (result : A) (status : Z)
    : SuccessEnvelope A :=
  mkSuccessEnvelope status (mkLink "self" (selfHref req "") (method req)) result.

(** What a handler sends: the status of the response, what it handed to
    [res.location] if it did, and the JSON body. *)
Record Response (A : Type) : Type := mkResponse {
  httpStatus : Z;
  location : option string;
  json : SuccessEnvelope A + ErrorEnvelope;
}.
Arguments mkResponse {A} httpStatus location json.
Arguments httpStatus {A} _.
Arguments location {A} _.
Arguments json {A} _.

(** The [catch] block of every handler. *)
Definition caught {A : Type} (err : Thrown) : Response A :=
  let mapped := mapResultErrors err in
  mkResponse (errStatus mapped) None (inr mapped).

(** The answer of the two [doGet...] handlers when the search does not
    come back with exactly one result. *)
Definition notFound {A : Type} (message : list MsgPart) : Response A :=
  mkResponse 404 None
    (inr (mkErrorEnvelope STATUS.NOT_FOUND
            [mkErr (Literal message) "NOT_FOUND" None])).

Section Handlers.
Context {D : Type} {DAO : Dao.SensorsDao D}.

(** The handlers take the request, its body (a flat record of strings)
    or its route parameter, and the state of the DAO behind
    [app.locals.sensorsInfo]. *)
Definition doCreateSensorType (req : Request) (body : FlatReq) (dao : D)
    : Response SensorType.t * D :=
  match Prj3.addSensorType body dao with
  | (errResults es, dao') => (caught (ThrownResult es), dao')
  | (okResult addedSensorType, dao') =>
      (mkResponse STATUS.CREATED
         (Some (selfHref req (SensorType.id addedSensorType)))
         (inl (selfResult req addedSensorType STATUS.CREATED)), dao')
  end.

Definition doGetSensorType (req : Request) (sensorTypeId : string) (dao : D)
    : Response SensorType.t * D :=
  match Prj3.findSensorTypes (list_to_map [("id", sensorTypeId)]) dao with
  | (errResults es, dao') => (caught (ThrownResult es), dao')
  | (okResult [val0], dao') =>
      (mkResponse STATUS.OK None (inl (selfResult req val0 STATUS.OK)), dao')
  | (okResult _, dao') =>
      (notFound [Txt "Sensor-type with id - "; Txt sensorTypeId;
                 Txt " not found!!"], dao')
  end.

Definition doCreateSensor (req : Request) (body : FlatReq) (dao : D)
    : Response Sensor.t * D :=
  match Prj3.addSensor body dao with
  | (errResults es, dao') => (caught (ThrownResult es), dao')
  | (okResult addedSensor, dao') =>
      (mkResponse STATUS.CREATED
         (Some (selfHref req (Sensor.id addedSensor)))
         (inl (selfResult req addedSensor STATUS.CREATED)), dao')
  end.

Definition doGetSensor (req : Request) (sensorId : string) (dao : D)
    : Response Sensor.t * D :=
  match Prj3.findSensors (list_to_map [("id", sensorId)]) dao with
  | (errResults es, dao') => (caught (ThrownResult es), dao')
  | (okResult [val0], dao') =>
      (mkResponse STATUS.OK None (inl (selfResult req val0 STATUS.OK)), dao')
  | (okResult _, dao') =>
      (notFound [Txt "Sensor with id - "; Txt sensorId; Txt " not found!!"],
       dao')
  end.

Definition doCreateSensorReadings (req : Request) (body : FlatReq) (dao : D)
    : Response SensorReading.t * D :=
  match Prj3.addSensorReading body dao with
  | (errResults es, dao') => (caught (ThrownResult es), dao')
  | (okResult addedSensorReading, dao') =>
      (mkResponse STATUS.CREATED
         (Some (selfHref req (SensorReading.sensorId addedSensorReading)))
         (inl (selfResult req addedSensorReading STATUS.CREATED)), dao')
  end.
End Handlers.

End Ws.

(** ** Invariants of the two stores *)

Module Inv.
Import Errors Checkers Validators Search.

(** Every entry of the in-memory store is kept under its own id, and a
    reading under the id of its sensor. *)
Definition keyedById (this : Prj1.SensorsInfo) : Prop :=
  (forall k t, Prj1.sensorTypes this !! k = Some t -> SensorType.id t = k)
  /\ (forall k s, Prj1.sensors this !! k = Some s -> Sensor.id s = k)
  /\ (forall k rs, Prj1.sensorReadings this !! k = Some rs ->
                   Forall (fun r => SensorReading.sensorId r = k) rs).

(** No dictionary has an own property [__proto__], the readings have no
    own property under any name that [Object.prototype] has, and an
    entity that was made the prototype of its dictionary has the id
    [__proto__]. *)
Definition protoKeyed (this : Prj1.SensorsInfo) : Prop :=
  Prj1.sensorTypes this !! "__proto__" = None
  /\ Prj1.sensors this !! "__proto__" = None
  /\ (forall k, Obj.inherited k = true -> Prj1.sensorReadings this !! k = None)
  /\ (forall t, Prj1.sensorTypesProto this = Some t ->
                SensorType.id t = "__proto__")
  /\ (forall s, Prj1.sensorsProto this = Some s -> Sensor.id s = "__proto__").

(** The sensors a store holds: the entries of the dictionary, and its
    prototype if a sensor was made that. *)
Definition holdsSensor (this : Prj1.SensorsInfo) (s : Sensor.t) : Prop :=
  (exists k, Prj1.sensors this !! k = Some s) \/ Prj1.sensorsProto this = Some s.

(** For every sensor held, [this.sensorTypes[sensor.sensorTypeId]] is a
    sensor type. *)
Definition sensorsHaveType (this : Prj1.SensorsInfo) : Prop :=
  forall s, holdsSensor this s ->
            exists sensorType,
              Prj1.sensorTypeAt this (Sensor.sensorTypeId s)
              = Obj.Entity sensorType.

(** No two readings of a list have the same timestamp. *)
Definition distinctTimestamps (rs : list SensorReading.t) : Prop :=
  forall i j x y,
    rs !! i = Some x -> rs !! j = Some y -> i <> j ->
    JS.eqb (SensorReading.timestamp x) (SensorReading.timestamp y) = false.

(** Every stored reading has a finite value. *)
Definition finiteValues (this : Prj1.SensorsInfo) : Prop :=
  forall k rs, Prj1.sensorReadings this !! k = Some rs ->
               Forall (fun r => Spec.finite (SensorReading.value r)) rs.

(** Every sensor in the database has its sensor type there, with an
    expected range inside the limits of the type. *)
Definition dbSensorsWithinLimits (db : Mongo.Db) : Prop :=
  forall k s, Mongo.sensors db !! k = Some s ->
    exists t, Mongo.sensorTypes db !! Sensor.sensorTypeId s = Some t
              /\ Range.isSubrange (Sensor.expected s) (SensorType.limits t)
                 = true.

(** No two readings in the database have the same sensor and timestamp. *)
Definition dbDistinctKeys (db : Mongo.Db) : Prop :=
  forall i j x y,
    Mongo.sensorReadings db !! i = Some x ->
    Mongo.sensorReadings db !! j = Some y -> i <> j ->
    Mongo.sameKey x y = false.

(** The bounds the in-memory search compares with: the integer
    [parseInt] reads off the bound, or no bound. *)
Definition lowerBound (bound : option string) : JS.number :=
  match bound with Some s => JS.parseInt s | None => JS.NegInf end.
Definition upperBound (bound : option string) : JS.number :=
  match bound with Some s => JS.parseInt s | None => JS.PosInf end.

(** A search with its page set to [count] results from [index] on. *)
Definition sensorTypesPage (s : SensorTypeSearch.t) (index count : nat)
    : SensorTypeSearch.t :=
  SensorTypeSearch.mk (SensorTypeSearch.id s) (SensorTypeSearch.manufacturer s)
    (SensorTypeSearch.modelNumber s) (SensorTypeSearch.quantity s)
    (SensorTypeSearch.unit s)
    (Some (Spec.ofNat count)) (Some (Spec.ofNat index)).

Definition sensorsPage (s : SensorSearch.t) (index count : nat)
    : SensorSearch.t :=
  SensorSearch.mk (SensorSearch.id s) (SensorSearch.sensorTypeId s)
    (Some (Spec.ofNat count)) (Some (Spec.ofNat index)).

Definition readingsPage (s : SensorReadingSearch.t) (index count : nat)
    : SensorReadingSearch.t :=
  SensorReadingSearch.mk (SensorReadingSearch.sensorId s)
    (SensorReadingSearch.minTimestamp s) (SensorReadingSearch.maxTimestamp s)
    (SensorReadingSearch.minValue s) (SensorReadingSearch.maxValue s)
    (Some (Spec.ofNat count)) (Some (Spec.ofNat index)).

(** The cross-field checks of a table are range checks. *)
Definition rangeChecks (checks : FlatReqChecks) : Prop :=
  forall c, In c (chks checks) ->
            exists minId maxId, c = rangeChk minId maxId.

(** The error codes the comments of the two stores list. *)
Definition validationCodes : list string :=
  ["REQUIRED"; "BAD_VAL"; "BAD_RANGE"].
Definition storeCodes : list string := (validationCodes ++ ["BAD_ID"])%list.
Definition daoCodes : list string := ["EXISTS"; "DB"].

End Inv.

(** * Properties *)

(** ** Numbers, strings and sorting *)

Module JSFacts.

Lemma lt_le_false a b : JS.lt b a = true -> JS.le a b = false.
Proof.
  destruct a, b; simpl; try discriminate; try reflexivity.
  intros H. now apply negb_true_iff in H.
Qed.

Lemma eqb_le a b : JS.eqb a b = true -> JS.le a b = true.
Proof.
  destruct a, b; simpl; try discriminate; try reflexivity.
  intros H. apply Qeq_bool_iff in H. apply Qle_bool_iff.
  rewrite H. apply Qle_refl.
Qed.

Lemma eqb_sym a b : JS.eqb a b = JS.eqb b a.
Proof.
  destruct a, b; simpl; try reflexivity.
  destruct (Qeq_bool q q0) eqn:E, (Qeq_bool q0 q) eqn:E'; try reflexivity.
  - apply Qeq_bool_iff in E. symmetry in E. apply Qeq_bool_iff in E. congruence.
  - apply Qeq_bool_iff in E'. symmetry in E'. apply Qeq_bool_iff in E'. congruence.
Qed.

(** On finite numbers the comparator [a - b] orders as [<=] does. *)
Lemma Qminus_le_0 (x y : Q) : (x - y <= 0 # 1)%Q <-> (x <= y)%Q.
Proof.
  destruct x as [xn xd], y as [yn yd].
  unfold Qle, Qminus, Qplus, Qopp; simpl. lia.
Qed.

(** On finite numbers the comparator [a - b] orders as [<=] does. *)
Lemma sub_after_fin x y :
  JS.lt (JS.of_Z 0) (JS.sub (JS.Fin x) (JS.Fin y)) = true ->
  JS.le (JS.Fin y) (JS.Fin x) = true.
Proof.
  simpl. intros H. apply negb_true_iff in H.
  apply Qle_bool_iff. apply Qnot_lt_le. intros Hlt.
  assert (Hle : (Qred (x - y) <= 0 # 1)%Q).
  { rewrite Qred_correct. apply Qminus_le_0. now apply Qlt_le_weak. }
  apply Qle_bool_iff in Hle. congruence.
Qed.

Lemma sub_not_after_fin x y :
  JS.lt (JS.of_Z 0) (JS.sub (JS.Fin x) (JS.Fin y)) = false ->
  JS.le (JS.Fin x) (JS.Fin y) = true.
Proof.
  simpl. intros H. apply negb_false_iff in H. apply Qle_bool_iff in H.
  apply Qle_bool_iff. rewrite Qred_correct in H. now apply Qminus_le_0.
Qed.

Lemma ltb_leb a b : String.ltb a b = true -> String.leb a b = true.
Proof.
  unfold String.ltb, String.leb. destruct (String.compare a b); congruence.
Qed.

Lemma not_ltb_leb a b : String.ltb b a = false -> String.leb a b = true.
Proof.
  unfold String.ltb, String.leb. rewrite (String.compare_antisym a b).
  destruct (String.compare b a); simpl; congruence.
Qed.

Lemma after_byId a b :
  JS.lt (JS.of_Z 0) (Prj1.byId a b) = String.ltb b a.
Proof.
  unfold Prj1.byId, JS.str_gt, JS.str_lt.
  destruct (String.ltb b a); [reflexivity|].
  destruct (String.ltb a b); reflexivity.
Qed.

Section SortFacts.
Context {A : Type} (cmp : A -> A -> JS.number).

Lemma insert_sorted_Permutation x l :
  Permutation (JS.insert_sorted cmp x l) (x :: l).
Proof.
  induction l as [|y ys IH]; simpl; [reflexivity|].
  destruct (JS.after cmp x y); [|reflexivity].
  rewrite IH. apply perm_swap.
Qed.

Lemma sort_Permutation l : Permutation (JS.sort cmp l) l.
Proof.
  induction l as [|x xs IH]; simpl; [reflexivity|].
  rewrite insert_sorted_Permutation. now constructor.
Qed.

Lemma sort_length l : length (JS.sort cmp l) = length l.
Proof. apply Permutation_length, sort_Permutation. Qed.

Lemma elem_of_sort x l : x ∈ JS.sort cmp l <-> x ∈ l.
Proof. now rewrite sort_Permutation. Qed.

(** Sortedness, for a comparator that decides a total relation [R] on
    the elements that satisfy [P]. *)
Context (R : A -> A -> Prop) (P : A -> Prop).
Hypothesis R_after : forall a b, P a -> P b -> JS.after cmp a b = true -> R b a.
Hypothesis R_not_after :
  forall a b, P a -> P b -> JS.after cmp a b = false -> R a b.

Lemma insert_sorted_HdRel x y l :
  P x -> P y -> Forall P l ->
  JS.after cmp x y = true -> HdRel R y l ->
  HdRel R y (JS.insert_sorted cmp x l).
Proof.
  intros Px Py Pl Hxy Hhd. destruct l as [|z zs]; simpl.
  - constructor. now apply R_after.
  - destruct (JS.after cmp x z).
    + inversion Hhd; subst. now constructor.
    + constructor. now apply R_after.
Qed.

Lemma insert_sorted_Sorted x l :
  P x -> Forall P l -> Sorted R l -> Sorted R (JS.insert_sorted cmp x l).
Proof.
  intros Px. induction l as [|y ys IH]; intros Pl Hs; simpl.
  - repeat constructor.
  - inversion Pl; subst. inversion Hs; subst.
    destruct (JS.after cmp x y) eqn:E.
    + constructor; [now apply IH|]. now apply insert_sorted_HdRel.
    + constructor; [assumption|]. constructor. now apply R_not_after.
Qed.

Lemma sort_Sorted l : Forall P l -> Sorted R (JS.sort cmp l).
Proof.
  induction l as [|x xs IH]; intros Pl; simpl; [constructor|].
  inversion Pl; subst. apply insert_sorted_Sorted; [assumption| |now apply IH].
  eapply Permutation_Forall; [symmetry; apply sort_Permutation|assumption].
Qed.
End SortFacts.

Lemma Sorted_drop {A : Type} (R : A -> A -> Prop) n l :
  Sorted R l -> Sorted R (drop n l).
Proof.
  revert l. induction n as [|n IH]; intros l Hs; [now rewrite drop_0|].
  destruct l as [|x xs]; simpl; [constructor|].
  apply IH. now inversion Hs.
Qed.

Lemma Sorted_take {A : Type} (R : A -> A -> Prop) n l :
  Sorted R l -> Sorted R (take n l).
Proof.
  revert l. induction n as [|n IH]; intros l Hs; [constructor|].
  destruct l as [|x xs]; simpl; [constructor|].
  inversion Hs; subst. constructor; [now apply IH|].
  destruct xs as [|y ys]; [destruct n; constructor|].
  inversion H2; subst. destruct n; simpl; now constructor.
Qed.

End JSFacts.

(** ** Literals accepted by the two regular expressions *)

Module ParseFacts.
Import Validators.

Lemma span_digits_all s :
  JS.all_digits s = true -> JS.span_digits s = (s, EmptyString).
Proof.
  induction s as [|c r IH]; simpl; [reflexivity|].
  intros H. apply andb_true_iff in H as [Hc Hr].
  rewrite Hc, (IH Hr). reflexivity.
Qed.

Lemma strip_sign_digit c r :
  JS.is_digit c = true -> JS.strip_sign (String c r) = (false, String c r).
Proof.
  destruct c as [[] [] [] [] [] [] [] []]; vm_compute; intros H;
    solve [reflexivity | discriminate H].
Qed.

(** A string accepted by [INTEGER_CHK] denotes a finite number. *)
Lemma INTEGER_RE_Number s :
  INTEGER_RE s = true -> exists q, JS.Number s = JS.Fin q.
Proof.
  destruct s as [|c r]; [discriminate|]. unfold INTEGER_RE.
  intros H. pose proof H as H'. simpl in H'.
  apply andb_true_iff in H' as [Hc _].
  unfold JS.Number, JS.parse_decimal.
  rewrite (strip_sign_digit _ _ Hc), (span_digits_all _ H). eauto.
Qed.

(** A string accepted by [NUMBER_CHK] denotes a finite number. *)
Lemma NUMBER_RE_Number s :
  NUMBER_RE s = true -> exists q, JS.Number s = JS.Fin q.
Proof.
  unfold NUMBER_RE, JS.Number, JS.parse_decimal.
  destruct (JS.strip_sign s) as [neg body].
  destruct (JS.span_digits body) as [ip rest].
  destruct ip as [|c ip]; [discriminate|].
  destruct rest as [|d fp]; [eauto|].
  destruct (Ascii.eqb d ".") eqn:E.
  - apply Ascii.eqb_eq in E. subst d. intros H. rewrite H. eauto.
  - intros H. exfalso.
    destruct d as [[] [] [] [] [] [] [] []]; simpl in *; congruence.
Qed.

End ParseFacts.

(** ** The request checker *)

Module CheckerFacts.
Import Errors Checkers.

Lemma checkFlatReq_ok req checks val :
  checkFlatReq req checks = okResult val ->
  fieldErrors (outcomes req (fields checks)) = []
  /\ crossErrors req (outcomes req (fields checks)) (chks checks) = []
  /\ val = checkedVal (outcomes req (fields checks)).
Proof.
  unfold checkFlatReq.
  destruct (fieldErrors _ ++ crossErrors _ _ _)%list eqn:E; [|discriminate].
  apply app_eq_nil in E as [E1 E2]. intros [= <-]. auto.
Qed.

Lemma checkFlatReq_err req checks e es :
  (fieldErrors (outcomes req (fields checks))
     ++ crossErrors req (outcomes req (fields checks)) (chks checks))%list
    = e :: es ->
  checkFlatReq req checks = errResults (e :: es).
Proof. unfold checkFlatReq. now intros ->. Qed.

Lemma fieldErrors_nil_resolved os id o :
  fieldErrors os = [] -> In (id, o) os -> exists v, o = Resolved v.
Proof.
  induction os as [|[id' o'] os IH]; simpl; [tauto|].
  intros H [Heq|Hin].
  - injection Heq as -> ->. destruct o; [eauto|discriminate].
  - apply IH; [|assumption]. destruct o'; [assumption|discriminate].
Qed.

Lemma In_outcomes req fs id info :
  In (id, info) fs -> In (id, checkField req id info) (outcomes req fs).
Proof.
  intros H. unfold outcomes.
  apply (in_map (fun '(id, info) => (id, checkField req id info))) in H.
  exact H.
Qed.

(** After a successful check every declared field without a default is
    present and passes its own check. *)
Lemma checkFlatReq_ok_field req checks val id info :
  checkFlatReq req checks = okResult val ->
  In (id, info) (fields checks) ->
  default info = None ->
  exists v, req !! id = Some v
            /\ forall c, chk info = Some c -> regex c v = true.
Proof.
  intros Hok Hin Hd. apply checkFlatReq_ok in Hok as (Hf & _ & _).
  destruct (fieldErrors_nil_resolved _ _ _ Hf (In_outcomes req _ _ _ Hin))
    as [v Hv].
  unfold checkField in Hv. rewrite Hd in Hv.
  destruct (req !! id) as [s|]; [|discriminate].
  exists s. split; [reflexivity|]. intros c Hc. rewrite Hc in Hv.
  destruct (regex c s); [reflexivity|discriminate].
Qed.

(** After a successful check every declared field that is present
    passes its own check. *)
Lemma checkFlatReq_ok_present req checks val id info v c :
  checkFlatReq req checks = okResult val ->
  In (id, info) (fields checks) ->
  req !! id = Some v -> chk info = Some c -> regex c v = true.
Proof.
  intros Hok Hin Hv Hc. apply checkFlatReq_ok in Hok as (Hf & _ & _).
  destruct (fieldErrors_nil_resolved _ _ _ Hf (In_outcomes req _ _ _ Hin))
    as [x Hx].
  unfold checkField in Hx. rewrite Hv, Hc in Hx.
  destruct (regex c v); [reflexivity|discriminate].
Qed.

(** A required field that is absent is reported, first if it is
    declared first. *)
Lemma checkFlatReq_required_first req id info fs cs :
  req !! id = None -> default info = None ->
  exists e es,
    checkFlatReq req (mkChecks ((id, info) :: fs) cs) = errResults (e :: es)
    /\ code e = "REQUIRED".
Proof.
  intros Hreq Hd. unfold checkFlatReq. simpl.
  unfold checkField at 1. rewrite Hreq, Hd. simpl. eauto.
Qed.

Lemma In_crossErrors req os cs c msg cd :
  In c cs -> forallb (resolved os) (fieldIds c) = true ->
  xchk c req = Some (msg, cd) ->
  In cd (map code (crossErrors req os cs)).
Proof.
  intros Hin Hres Hx. unfold crossErrors. apply in_map_iff.
  exists (mkErr (Template msg (fieldIds c)) cd None). split; [reflexivity|].
  apply in_flat_map. exists c. split; [assumption|].
  rewrite Hres, Hx. now left.
Qed.

(** A cross-field check that runs and objects makes the check fail with
    the code it returns. *)
Lemma checkFlatReq_cross req checks c msg cd :
  In c (chks checks) ->
  forallb (resolved (outcomes req (fields checks))) (fieldIds c) = true ->
  xchk c req = Some (msg, cd) ->
  exists es, checkFlatReq req checks = errResults es /\ In cd (map code es).
Proof.
  intros Hin Hres Hx.
  pose proof (In_crossErrors req _ _ c msg cd Hin Hres Hx) as H.
  unfold checkFlatReq.
  destruct (fieldErrors _ ++ crossErrors _ _ _)%list as [|e es] eqn:E.
  - apply app_eq_nil in E as [_ E2]. rewrite E2 in H. destruct H.
  - exists (e :: es). split; [reflexivity|]. rewrite <- E.
    rewrite map_app. apply in_or_app. now right.
Qed.

End CheckerFacts.

(** ** Entity constructors *)

Module ValidatorFacts.
Import Errors Checkers Validators CheckerFacts ParseFacts Spec.

Lemma lookup_total_Some (req : FlatReq) k v :
  req !! k = Some v -> req !!! k = v.
Proof. intros H. rewrite lookup_total_alt, H. reflexivity. Qed.

Lemma makeSensorReading_ok req r :
  makeSensorReading req = okResult r ->
  exists ts v,
    req !! "timestamp" = Some ts /\ req !! "value" = Some v
    /\ INTEGER_RE ts = true /\ NUMBER_RE v = true
    /\ r = SensorReading.mk (req !!! "sensorId") (JS.Number ts) (JS.Number v).
Proof.
  unfold makeSensorReading.
  destruct (checkFlatReq req ADD_SENSOR_READING_CHECKS) as [val|] eqn:E;
    [|discriminate].
  intros [= <-].
  destruct (checkFlatReq_ok_field _ _ _ "timestamp" (checked INTEGER_CHK) E)
    as (ts & Hts & Hre); [simpl; tauto|reflexivity|].
  destruct (checkFlatReq_ok_field _ _ _ "value" (checked NUMBER_CHK) E)
    as (v & Hv & Hrv); [simpl; tauto|reflexivity|].
  exists ts, v. rewrite (lookup_total_Some _ _ _ Hts), (lookup_total_Some _ _ _ Hv).
  repeat split; try assumption.
  - now apply (Hre INTEGER_CHK).
  - now apply (Hrv NUMBER_CHK).
Qed.

Lemma makeSensorReading_finite req r :
  makeSensorReading req = okResult r -> finite (SensorReading.timestamp r).
Proof.
  intros H. apply makeSensorReading_ok in H as (ts & v & _ & _ & Hre & _ & ->).
  simpl. now apply INTEGER_RE_Number.
Qed.

End ValidatorFacts.

(** ** The in-memory store *)

Module Prj1Facts.
Import Errors Checkers Validators Dyn Prj1 Spec ValidatorFacts.

Lemma isSubrange_spec r superRange :
  Range.isSubrange r superRange = true <->
  numLe (Range.min superRange) (Range.min r)
  /\ numLe (Range.max r) (Range.max superRange).
Proof. unfold Range.isSubrange, numLe. apply andb_true_iff. Qed.

Lemma findIndex_Some {A : Type} (p : A -> bool) l j :
  JS.findIndex p l = Some j ->
  exists y, l !! j = Some y /\ p y = true.
Proof.
  revert j. induction l as [|x xs IH]; simpl; intros j; [discriminate|].
  destruct (p x) eqn:E.
  - intros [= <-]. eauto.
  - destruct (JS.findIndex p xs) as [i|]; simpl; [|discriminate].
    intros [= <-]. destruct (IH i eq_refl) as (y & Hy & Hp). eauto.
Qed.

Lemma findIndex_None {A : Type} (p : A -> bool) l :
  JS.findIndex p l = None -> forall x, x ∈ l -> p x = false.
Proof.
  induction l as [|y ys IH]; simpl; intros H x Hx.
  - inversion Hx.
  - destruct (p y) eqn:E; [discriminate|].
    destruct (JS.findIndex p ys); [discriminate|].
    apply list_elem_of_In in Hx. destruct Hx as [->|Hx]; [assumption|].
    apply IH; [reflexivity|]. now apply list_elem_of_In.
Qed.

(** *** Lookups in a dictionary *)

Lemma get_own {V : Type} (field : V -> string -> value) own proto k v :
  own !! k = Some v -> Obj.get field own proto k = Obj.Entity v.
Proof. unfold Obj.get. now intros ->. Qed.

Lemma get_plain {V : Type} (field : V -> string -> value) own k :
  own !! k = None ->
  Obj.get field own None k = Obj.Other (Obj.fromObjectPrototype k).
Proof. unfold Obj.get. now intros ->. Qed.

Lemma get_Entity_plain {V : Type} (field : V -> string -> value) own k v :
  Obj.get field own None k = Obj.Entity v -> own !! k = Some v.
Proof. unfold Obj.get. destruct (own !! k); [now intros [= ->]|discriminate]. Qed.

Lemma get_Other {V : Type} (field : V -> string -> value) own proto k x :
  Obj.get field own proto k = Obj.Other x -> own !! k = None.
Proof. unfold Obj.get. destruct (own !! k); [discriminate|reflexivity]. Qed.

Lemma set_stored {V : Type} (own : gmap string V) proto k v :
  k <> "__proto__" \/ is_Some (own !! k) ->
  Obj.set own proto k v = (<[k := v]> own, proto).
Proof.
  unfold Obj.set. intros [Hk|[x ->]]; [|reflexivity].
  destruct (own !! k); [reflexivity|].
  apply String.eqb_neq in Hk. now rewrite Hk.
Qed.

Lemma set_proto {V : Type} (own : gmap string V) proto v :
  own !! "__proto__" = None ->
  Obj.set own proto "__proto__" v = (own, Some v).
Proof. unfold Obj.set. now intros ->. Qed.

Lemma truthy_fromObjectPrototype k :
  Dyn.truthy (Obj.fromObjectPrototype k) = Obj.inherited k.
Proof. unfold Obj.fromObjectPrototype. now destruct (Obj.inherited k). Qed.

(** *** Validation errors leave the store alone *)

Lemma mem_addSensorType_invalid this req es :
  makeSensorType req = errResults es ->
  addSensorType this req = (errResults es, this).
Proof. unfold addSensorType. now intros ->. Qed.

Lemma mem_addSensor_invalid this req es :
  makeSensor req = errResults es ->
  addSensor this req = (Returns (errResults es), this).
Proof. unfold addSensor. now intros ->. Qed.

Lemma mem_addSensorReading_invalid this req es :
  makeSensorReading req = errResults es ->
  addSensorReading this req = (Returns (errResults es), this).
Proof. unfold addSensorReading. now intros ->. Qed.

Lemma mem_findSensorTypes_invalid this req es :
  validateFindCommand Validators.findSensorTypes req = errResults es ->
  findSensorTypes this req = errResults es.
Proof. unfold findSensorTypes. now intros ->. Qed.

Lemma mem_findSensors_invalid this req es :
  validateFindCommand Validators.findSensors req = errResults es ->
  findSensors this req = errResults es.
Proof. unfold findSensors. now intros ->. Qed.

Lemma mem_findSensorReadings_invalid this req es :
  validateFindCommand Validators.findSensorReadings req = errResults es ->
  findSensorReadings this req = Returns (errResults es).
Proof. unfold findSensorReadings. now intros ->. Qed.

(** *** The cross-entity checks of [addSensor] *)

Lemma addSensor_unknown_type this req sensor x :
  makeSensor req = okResult sensor ->
  sensorTypeAt this (Sensor.sensorTypeId sensor) = Obj.Other x ->
  Dyn.truthy x = false ->
  returnsWith (addSensor this req).1 "BAD_ID" /\ (addSensor this req).2 = this.
Proof.
  unfold addSensor. intros -> -> ->. split; [|reflexivity].
  eexists. split; [reflexivity|]. now split.
Qed.

Lemma addSensor_throws this req sensor x :
  makeSensor req = okResult sensor ->
  sensorTypeAt this (Sensor.sensorTypeId sensor) = Obj.Other x ->
  Dyn.truthy x = true ->
  addSensor this req = (Throws TypeError, this).
Proof. unfold addSensor. now intros -> -> ->. Qed.

Lemma addSensor_out_of_limits this req sensor sensorType :
  makeSensor req = okResult sensor ->
  sensorTypeAt this (Sensor.sensorTypeId sensor) = Obj.Entity sensorType ->
  ~ (numLe (Range.min (SensorType.limits sensorType))
           (Range.min (Sensor.expected sensor))
     /\ numLe (Range.max (Sensor.expected sensor))
              (Range.max (SensorType.limits sensorType))) ->
  returnsWith (addSensor this req).1 "BAD_RANGE" /\ (addSensor this req).2 = this.
Proof.
  unfold addSensor. intros -> -> H. rewrite <- isSubrange_spec in H.
  destruct (Range.isSubrange _ _); [now elim H|]. split; [|reflexivity].
  eexists. split; [reflexivity|]. now split.
Qed.

Lemma addSensor_stores this req sensor sensorType :
  makeSensor req = okResult sensor ->
  sensorTypeAt this (Sensor.sensorTypeId sensor) = Obj.Entity sensorType ->
  numLe (Range.min (SensorType.limits sensorType))
        (Range.min (Sensor.expected sensor)) ->
  numLe (Range.max (Sensor.expected sensor))
        (Range.max (SensorType.limits sensorType)) ->
  addSensor this req = (Returns (okResult [sensor]), setSensor this sensor).
Proof.
  unfold addSensor. intros -> -> H1 H2.
  now rewrite (proj2 (isSubrange_spec _ _) (conj H1 H2)).
Qed.

(** Every run of [addSensor] is one of the four. *)
Lemma addSensor_cases this req sensor :
  makeSensor req = okResult sensor ->
  (addSensor this req).2 = this
  \/ exists sensorType,
       sensorTypeAt this (Sensor.sensorTypeId sensor) = Obj.Entity sensorType
       /\ Range.isSubrange (Sensor.expected sensor) (SensorType.limits sensorType)
          = true
       /\ addSensor this req = (Returns (okResult [sensor]), setSensor this sensor).
Proof.
  unfold addSensor. intros ->.
  destruct (sensorTypeAt this _) as [ty|x] eqn:E.
  - destruct (Range.isSubrange _ _) eqn:Es; [|now left]. right. eauto.
  - destruct (Dyn.truthy x); now left.
Qed.

(** *** What [addSensorReading] does to the readings of a sensor *)

Lemma addSensorReading_ok this req l this' :
  addSensorReading this req = (Returns (okResult l), this') ->
  exists r,
    makeSensorReading req = okResult r /\ l = [r]
    /\ Obj.truthy (sensorAt this (SensorReading.sensorId r)) = true
    /\ this' = mkInfo (sensorTypes this) (sensors this)
                 (<[SensorReading.sensorId r :=
                      updated r (sensorReadings this !! SensorReading.sensorId r)]>
                    (sensorReadings this))
                 (sensorTypesProto this) (sensorsProto this).
Proof.
  unfold addSensorReading.
  destruct (makeSensorReading req) as [r|]; [|discriminate].
  destruct (Obj.truthy (sensorAt this (SensorReading.sensorId r))) eqn:E;
    [|discriminate].
  simpl. unfold sensorReadingsAt, Obj.get.
  destruct (sensorReadings this !! SensorReading.sensorId r) as [rs|] eqn:Ers.
  - intros [= <- <-]. exists r. rewrite Ers. repeat split; assumption.
  - destruct (Dyn.truthy _); [discriminate|].
    intros [= <- <-]. exists r. rewrite Ers. repeat split; assumption.
Qed.

(** A run of [addSensorReading] that does not return a success leaves
    the store as it was. *)
Lemma addSensorReading_else this req :
  (forall l, (addSensorReading this req).1 <> Returns (okResult l)) ->
  (addSensorReading this req).2 = this.
Proof.
  unfold addSensorReading.
  destruct (makeSensorReading req) as [r|]; [|reflexivity].
  destruct (negb _); [reflexivity|].
  destruct (sensorReadingsAt this _) as [rs|x].
  - intros H. now elim (H [r]).
  - destruct (Dyn.truthy x); [reflexivity|]. intros H. now elim (H [r]).
Qed.

Lemma updated_keeps r old i x :
  from_option (fun rs => rs !! i) None old = Some x ->
  JS.eqb (SensorReading.timestamp x) (SensorReading.timestamp r) = false ->
  updated r old !! i = Some x.
Proof.
  destruct old as [rs|]; simpl; [|discriminate]. intros Hx Hne.
  destruct (JS.findIndex (sameTimestamp r) rs) as [j|] eqn:E.
  - destruct (findIndex_Some _ _ _ E) as (y & Hy & Hp).
    rewrite list_lookup_insert_ne; [assumption|].
    intros <-. unfold sameTimestamp in Hp. congruence.
  - now apply lookup_app_l_Some.
Qed.

Lemma updated_replaces r rs x :
  x ∈ rs ->
  JS.eqb (SensorReading.timestamp x) (SensorReading.timestamp r) = true ->
  exists j y, rs !! j = Some y
              /\ JS.eqb (SensorReading.timestamp y) (SensorReading.timestamp r) = true
              /\ updated r (Some rs) = <[j := r]> rs
              /\ updated r (Some rs) !! j = Some r.
Proof.
  intros Hx Heq. simpl.
  destruct (JS.findIndex (sameTimestamp r) rs) as [j|] eqn:E.
  - destruct (findIndex_Some _ _ _ E) as (y & Hy & Hp).
    exists j, y. repeat split; try assumption.
    apply list_lookup_insert_eq. now apply lookup_lt_Some in Hy.
  - pose proof (findIndex_None _ _ E x Hx) as H.
    unfold sameTimestamp in H. congruence.
Qed.

End Prj1Facts.

(** ** Invariant of the in-memory store, and sorted answers *)

Module Prj1Order.
Import Errors Checkers Validators Dyn Prj1 Spec ValidatorFacts Prj1Facts JSFacts.

Lemma updated_finite r old :
  finite (SensorReading.timestamp r) ->
  from_option (Forall (fun x => finite (SensorReading.timestamp x))) True old ->
  Forall (fun x => finite (SensorReading.timestamp x)) (updated r old).
Proof.
  intros Hr. destruct old as [rs|]; simpl; [|now repeat constructor].
  intros Hrs. destruct (JS.findIndex _ rs) as [j|].
  - now apply Forall_insert.
  - apply Forall_app. split; [assumption|now repeat constructor].
Qed.

Lemma finiteTimestamps_addSensorReading this req :
  finiteTimestamps this -> finiteTimestamps (addSensorReading this req).2.
Proof.
  intros Hinv. destruct (addSensorReading this req) as [res this'] eqn:E.
  destruct res as [[l|es]|e].
  - apply addSensorReading_ok in E as (r & Hmk & -> & _ & ->).
    unfold finiteTimestamps. simpl.
    intros k rs. destruct (decide (SensorReading.sensorId r = k)) as [<-|Hne].
    + rewrite lookup_insert_eq. intros [= <-].
      apply updated_finite; [now apply (makeSensorReading_finite req)|].
      destruct (sensorReadings this !! _) eqn:E'; simpl; [|exact I].
      now apply (Hinv _ _ E').
    + rewrite lookup_insert_ne by assumption. apply Hinv.
  - replace this' with (addSensorReading this req).2 by now rewrite E.
    rewrite addSensorReading_else; [assumption|]. rewrite E. discriminate.
  - replace this' with (addSensorReading this req).2 by now rewrite E.
    rewrite addSensorReading_else; [assumption|]. rewrite E. discriminate.
Qed.

(** Every state the store goes through keeps its timestamps finite. *)
Lemma reachable_finiteTimestamps this :
  reachable this -> finiteTimestamps this.
Proof.
  induction 1 as [|this _ _|this req _ IH|this req _ IH|this req _ IH].
  - intros k rs H. simpl in H. now rewrite lookup_empty in H.
  - intros k rs H. simpl in H. now rewrite lookup_empty in H.
  - unfold addSensorType. now destruct (makeSensorType req).
  - unfold addSensor. destruct (makeSensor req) as [s|]; [|assumption].
    destruct (sensorTypeAt this _) as [ty|x];
      [now destruct (Range.isSubrange _ _)|now destruct (Dyn.truthy x)].
  - now apply finiteTimestamps_addSensorReading.
Qed.

Lemma sort_byId {E : Type} (id : E -> string) l :
  Sorted (fun a b => strLe (id a) (id b))
         (JS.sort (fun a b => byId (id a) (id b)) l).
Proof.
  apply (sort_Sorted _ _ (fun _ => True)).
  - intros a b _ _. unfold JS.after. rewrite after_byId. apply ltb_leb.
  - intros a b _ _. unfold JS.after. rewrite after_byId. apply not_ltb_leb.
  - now apply Forall_forall.
Qed.

Lemma sort_byTimestamp l :
  Forall (fun r => finite (SensorReading.timestamp r)) l ->
  readingsByTimestamp (JS.sort byTimestamp l).
Proof.
  apply (sort_Sorted _ _ (fun r => finite (SensorReading.timestamp r))).
  - intros a b [x Hx] [y Hy]. unfold JS.after, byTimestamp, numLe.
    rewrite Hx, Hy. apply sub_after_fin.
  - intros a b [x Hx] [y Hy]. unfold JS.after, byTimestamp, numLe.
    rewrite Hx, Hy. apply sub_not_after_fin.
Qed.

Lemma mem_findSensorTypes_sorted this req l :
  findSensorTypes this req = okResult l -> sensorTypesById l.
Proof.
  unfold findSensorTypes. destruct (validateFindCommand _ req); [|discriminate].
  intros [= <-]. apply sort_byId.
Qed.

Lemma mem_findSensors_sorted this req l :
  findSensors this req = okResult l -> sensorsById l.
Proof.
  unfold findSensors. destruct (validateFindCommand _ req); [|discriminate].
  intros [= <-]. apply sort_byId.
Qed.

Lemma mem_findSensorReadings_sorted this req l :
  finiteTimestamps this ->
  findSensorReadings this req = Returns (okResult l) -> readingsByTimestamp l.
Proof.
  intros Hinv. unfold findSensorReadings.
  destruct (validateFindCommand _ req) as [filterReq|]; [|discriminate].
  destruct (sensorReadingsAt this _) as [rs|x] eqn:E.
  - intros [= <-]. apply sort_byTimestamp.
    apply get_Entity_plain in E.
    apply Forall_forall. intros x Hx. apply list_elem_of_In in Hx.
    apply filter_In in Hx as [Hx _].
    pose proof (Hinv _ _ E) as H. rewrite Forall_forall in H. apply H.
    now apply list_elem_of_In.
  - destruct (Dyn.truthy x); [discriminate|]. intros [= <-]. constructor.
Qed.

End Prj1Order.

(** ** Filtering by the fields of a checked request *)

Module FilterFacts.
Import Errors Checkers Validators Dyn Prj1 Spec CheckerFacts JSFacts.

Lemma checkedVal_cons_Some id s os :
  checkedVal ((id, Resolved (Some s)) :: os) = <[id := s]> (checkedVal os).
Proof. reflexivity. Qed.

Lemma checkedVal_cons_None id os :
  checkedVal ((id, Resolved None) :: os) = checkedVal os.
Proof. reflexivity. Qed.

(** The checked request holds the declared fields the request has. *)
Lemma checkedVal_lookup req fs k v :
  fieldErrors (outcomes req fs) = [] ->
  (forall id info, In (id, info) fs ->
                   default info = None \/ default info = Some None) ->
  checkedVal (outcomes req fs) !! k = Some v
  <-> In k (map fst fs) /\ req !! k = Some v.
Proof.
  induction fs as [|[id info] fs IH]; intros Herr Hd.
  - simpl. unfold checkedVal. simpl. rewrite lookup_empty. split; [discriminate|tauto].
  - assert (Hd' : forall id info, In (id, info) fs ->
                    default info = None \/ default info = Some None).
    { intros i f Hi. apply (Hd i f). now right. }
    change (outcomes req ((id, info) :: fs))
      with ((id, checkField req id info) :: outcomes req fs) in *.
    change (map fst ((id, info) :: fs)) with (id :: map fst fs).
    assert (Hhead : checkField req id info = Resolved (req !! id)
                    /\ fieldErrors (outcomes req fs) = []).
    { simpl in Herr. unfold checkField in *.
      destruct (req !! id) as [s|].
      - destruct (chk info) as [c|]; [destruct (regex c s)|];
          simpl in Herr; try discriminate; now split.
      - destruct (Hd id info (or_introl eq_refl)) as [E|E]; rewrite E in *;
          simpl in Herr; [discriminate|now split]. }
    destruct Hhead as [-> Hrest]. specialize (IH Hrest Hd').
    destruct (req !! id) as [s|] eqn:Es.
    + rewrite checkedVal_cons_Some.
      destruct (decide (id = k)) as [->|Hne].
      * rewrite lookup_insert_eq. split.
        -- intros [= <-]. split; [now left|assumption].
        -- intros [_ Hk]. congruence.
      * rewrite lookup_insert_ne by assumption. rewrite IH.
        split; intros [Hin Hk]; (split; [|assumption]).
        -- now right.
        -- destruct Hin as [->|Hin]; [now elim Hne|assumption].
    + rewrite checkedVal_cons_None, IH.
      split; intros [Hin Hk]; (split; [|assumption]).
      * now right.
      * destruct Hin as [->|Hin]; [congruence|assumption].
Qed.

Lemma In_keys {V : Type} (m : gmap string V) k :
  In k (keys m) <-> exists v, m !! k = Some v.
Proof.
  unfold keys. rewrite <- list_elem_of_In, list_elem_of_fmap. split.
  - intros [[k' v] [-> H]]. apply elem_of_map_to_list in H. eauto.
  - intros [v H]. exists (k, v). split; [reflexivity|].
    now apply elem_of_map_to_list.
Qed.

Lemma In_values {V : Type} (m : gmap string V) x :
  In x (values m) <-> exists k, m !! k = Some x.
Proof.
  unfold values. rewrite <- list_elem_of_In, list_elem_of_fmap. split.
  - intros [[k v] [-> H]]. apply elem_of_map_to_list in H. eauto.
  - intros [k H]. exists (k, x). split; [reflexivity|].
    now apply elem_of_map_to_list.
Qed.

Lemma keep_spec {E : Type} (get : E -> string -> value) filterReq e :
  keep get filterReq e = true
  <-> forall k v, filterReq !! k = Some v ->
                  truthy (get e k) && loose_neq v (get e k) = false.
Proof.
  unfold keep. rewrite forallb_forall. split.
  - intros H k v Hk. specialize (H k (proj2 (In_keys _ _) (ex_intro _ v Hk))).
    rewrite Hk in H. now apply negb_true_iff in H.
  - intros H k Hin. apply In_keys in Hin as [v Hk]. rewrite Hk.
    apply negb_true_iff. now apply H.
Qed.

Lemma string_guard s v :
  truthy (VStr s) && loose_neq v (VStr s) = false <-> s = EmptyString \/ s = v.
Proof.
  simpl. destruct s as [|c r]; simpl; [tauto|].
  destruct (String.eqb_spec v (String c r)) as [->|Hne]; simpl.
  - tauto.
  - split; [discriminate|]. intros [H|H]; congruence.
Qed.

(** The filter of the entity searches, in terms of the request. *)
Lemma keep_checked {E : Type} (get : E -> string -> value) req fs cs filterReq e :
  checkFlatReq req (mkChecks fs cs) = okResult filterReq ->
  (forall id info, In (id, info) fs ->
                   default info = None \/ default info = Some None) ->
  (forall f, In f (map fst fs) -> exists s, get e f = VStr s) ->
  keep get filterReq e = true
  <-> forall f v, In f (map fst fs) -> req !! f = Some v ->
                  fieldOf get e f = EmptyString \/ fieldOf get e f = v.
Proof.
  intros Hok Hd Hstr. apply checkFlatReq_ok in Hok as (Herr & _ & ->).
  simpl in Herr. rewrite keep_spec. split.
  - intros H f v Hf Hreq. destruct (Hstr f Hf) as [s Hs].
    unfold fieldOf. rewrite Hs. apply string_guard. rewrite <- Hs.
    apply H. apply checkedVal_lookup; auto.
  - intros H k v Hk. apply checkedVal_lookup in Hk as [Hin Hreq]; auto.
    destruct (Hstr k Hin) as [s Hs]. specialize (H k v Hin Hreq).
    unfold fieldOf in H. rewrite Hs in *. now apply string_guard.
Qed.

Lemma optional_defaults (fs : list (string * FieldInfo)) :
  Forall (fun p => default p.2 = None \/ default p.2 = Some None) fs ->
  forall id info, In (id, info) fs ->
                  default info = None \/ default info = Some None.
Proof.
  intros H id info Hin. rewrite Forall_forall in H.
  apply (H (id, info)). now apply list_elem_of_In.
Qed.

Lemma findSensorTypes_filter this req filterReq :
  validateFindCommand Validators.findSensorTypes req = okResult filterReq ->
  exists l,
    findSensorTypes this req = okResult l
    /\ forall t,
         In t l <->
         In t (values (sensorTypes this))
         /\ forall f v, In f sensorTypeFields -> req !! f = Some v ->
                        fieldOf sensorType_get t f = EmptyString
                        \/ fieldOf sensorType_get t f = v.
Proof.
  intros Hok. unfold findSensorTypes. rewrite Hok. eexists. split; [reflexivity|].
  intros t. rewrite <- list_elem_of_In, elem_of_sort, list_elem_of_In, filter_In.
  apply and_iff_compat_l.
  apply (keep_checked sensorType_get req _ _ filterReq t Hok).
  - apply optional_defaults.
    repeat (apply List.Forall_cons; [now right|]). apply List.Forall_nil.
  - intros f Hf. simpl in Hf.
    repeat (destruct Hf as [<-|Hf]; [eexists; reflexivity|]). destruct Hf.
Qed.

Lemma findSensors_filter this req filterReq :
  validateFindCommand Validators.findSensors req = okResult filterReq ->
  exists l,
    findSensors this req = okResult l
    /\ forall s,
         In s l <->
         In s (values (sensors this))
         /\ forall f v, In f sensorFields -> req !! f = Some v ->
                        fieldOf sensor_get s f = EmptyString
                        \/ fieldOf sensor_get s f = v.
Proof.
  intros Hok. unfold findSensors. rewrite Hok. eexists. split; [reflexivity|].
  intros t. rewrite <- list_elem_of_In, elem_of_sort, list_elem_of_In, filter_In.
  apply and_iff_compat_l.
  apply (keep_checked sensor_get req _ _ filterReq t Hok).
  - apply optional_defaults.
    repeat (apply List.Forall_cons; [now right|]). apply List.Forall_nil.
  - intros f Hf. simpl in Hf.
    repeat (destruct Hf as [<-|Hf]; [eexists; reflexivity|]). destruct Hf.
Qed.

(** The two entity searches accept every request. *)
Lemma checkField_optional req id :
  checkField req id optional = Resolved (req !! id).
Proof. unfold checkField. now destruct (req !! id). Qed.

Lemma validate_findSensorTypes req :
  exists filterReq,
    validateFindCommand Validators.findSensorTypes req = okResult filterReq.
Proof.
  unfold validateFindCommand, checkFlatReq. simpl.
  rewrite !checkField_optional. simpl. eauto.
Qed.

Lemma validate_findSensors req :
  exists filterReq,
    validateFindCommand Validators.findSensors req = okResult filterReq.
Proof.
  unfold validateFindCommand, checkFlatReq. simpl.
  rewrite !checkField_optional. simpl. eauto.
Qed.

End FilterFacts.

(** ** The MongoDB-backed DAO *)

Module MongoFacts.
Import Errors Checkers Validators Search Dyn Spec JSFacts CheckerFacts FilterFacts.

Lemma as_nat_ofNat n : Mongo.as_nat (ofNat n) = Some n.
Proof.
  unfold Mongo.as_nat, ofNat, JS.of_Z.
  rewrite Qred_identity by apply Z.gcd_1_r. simpl.
  destruct (Z.leb_spec 0 (Z.of_nat n)); [|lia]. now rewrite Nat2Z.id.
Qed.

(** Paging by natural numbers: a window, or everything from [index] on
    when the limit is [0]. *)
Lemma page_ofNat {A : Type} i c (l : list A) :
  Mongo.page (ofNat i) (ofNat c) l =
    Some (match c with O => drop i l | _ => window i c l end).
Proof. unfold Mongo.page. now rewrite !as_nat_ofNat. Qed.

Lemma page_window {A : Type} i c (l : list A) :
  1 <= c -> Mongo.page (ofNat i) (ofNat c) l = Some (window i c l).
Proof. intros H. rewrite page_ofNat. destruct c; [lia|reflexivity]. Qed.

Lemma page_Sorted {A : Type} (R : A -> A -> Prop) index count l l' :
  Sorted R l -> Mongo.page index count l = Some l' -> Sorted R l'.
Proof.
  intros Hs. unfold Mongo.page.
  destruct (Mongo.as_nat index) as [i|]; [|discriminate].
  destruct (Mongo.as_nat count) as [[|c]|]; [| |discriminate];
    intros [= <-].
  - now apply Sorted_drop.
  - now apply Sorted_take, Sorted_drop.
Qed.

(** *** Looking a document up by its id *)

Lemma filter_key_absent {V : Type} (l : list (string * V)) k :
  ~ In k (map fst l) -> List.filter (fun d => String.eqb k d.1) l = [].
Proof.
  induction l as [|[k' v] l IH]; simpl; [reflexivity|]. intros H.
  destruct (String.eqb_spec k k') as [->|_]; [tauto|]. apply IH. tauto.
Qed.

Lemma filter_key_present {V : Type} (l : list (string * V)) k v :
  List.NoDup (map fst l) -> In (k, v) l ->
  List.filter (fun d => String.eqb k d.1) l = [(k, v)].
Proof.
  induction l as [|[k' v'] l IH]; simpl; [tauto|].
  intros Hnd [Heq|Hin]; inversion Hnd as [|? ? Hnotin Hnd']; subst.
  - injection Heq as -> ->. rewrite String.eqb_refl.
    now rewrite filter_key_absent.
  - destruct (String.eqb_spec k k') as [->|_].
    + elim Hnotin. apply in_map_iff. now exists (k', v).
    + now apply IH.
Qed.

Lemma filter_map_to_list_key {V : Type} (m : gmap string V) k :
  List.filter (fun d => String.eqb k d.1) (map_to_list m) =
    match m !! k with Some v => [(k, v)] | None => [] end.
Proof.
  destruct (m !! k) as [v|] eqn:E.
  - apply filter_key_present.
    + apply NoDup_ListNoDup, NoDup_fst_map_to_list.
    + apply list_elem_of_In. now apply elem_of_map_to_list.
  - apply filter_key_absent. intros H. apply in_map_iff in H as [[k' v] [<- H]].
    apply list_elem_of_In, elem_of_map_to_list in H. simpl in E. congruence.
Qed.

Lemma matchSensorType_ofId db tid :
  idKeyed db ->
  List.filter (Mongo.matchSensorType (SensorTypeSearch.ofId tid))
              (map_to_list (Mongo.sensorTypes db)) =
    match Mongo.sensorTypes db !! tid with
    | Some t => [(tid, t)]
    | None => []
    end.
Proof.
  intros [Hk _]. rewrite <- filter_map_to_list_key. apply filter_ext_in.
  intros [k t] Hin. apply list_elem_of_In, elem_of_map_to_list in Hin.
  unfold Mongo.matchSensorType. simpl. rewrite (Hk _ _ Hin).
  destruct (String.eqb tid k), (str_truthy tid); reflexivity.
Qed.

Lemma matchSensor_ofId db sid :
  idKeyed db ->
  List.filter (Mongo.matchSensor (SensorSearch.ofId sid))
              (map_to_list (Mongo.sensors db)) =
    match Mongo.sensors db !! sid with
    | Some s => [(sid, s)]
    | None => []
    end.
Proof.
  intros [_ Hk]. rewrite <- filter_map_to_list_key. apply filter_ext_in.
  intros [k t] Hin. apply list_elem_of_In, elem_of_map_to_list in Hin.
  unfold Mongo.matchSensor. simpl. rewrite (Hk _ _ Hin).
  destruct (String.eqb sid k), (str_truthy sid); reflexivity.
Qed.

Lemma page_short {A : Type} DC (l : list A) :
  length l <= 1 -> Mongo.page (ofNat 0) (ofNat DC) l = Some l.
Proof.
  intros H. rewrite page_ofNat. unfold window.
  destruct DC, l as [|x [|y l]]; simpl in *; try lia;
    rewrite ?take_nil; reflexivity.
Qed.

(** With [DEFAULT_INDEX] zero, the lookup the store uses for its
    foreign-key checks finds the document stored under the id. *)
Lemma findSensorTypes_ofId DC db tid :
  Mongo.connected db = true -> idKeyed db ->
  Mongo.findSensorTypes DC 0 (SensorTypeSearch.ofId tid) db =
    (okResult (match Mongo.sensorTypes db !! tid with
               | Some t => [t]
               | None => []
               end), db).
Proof.
  intros Hup Hk. unfold Mongo.findSensorTypes. rewrite Hup. simpl.
  unfold Mongo.sortedSensorTypes. rewrite (matchSensorType_ofId _ _ Hk).
  destruct (Mongo.sensorTypes db !! tid); simpl;
    change (JS.of_Z (Z.of_nat 0)) with (ofNat 0);
    change (JS.of_Z (Z.of_nat DC)) with (ofNat DC);
    rewrite page_short by (simpl; lia); reflexivity.
Qed.

Lemma findSensors_ofId DC db sid :
  Mongo.connected db = true -> idKeyed db ->
  Mongo.findSensors DC 0 (SensorSearch.ofId sid) db =
    (okResult (match Mongo.sensors db !! sid with
               | Some s => [s]
               | None => []
               end), db).
Proof.
  intros Hup Hk. unfold Mongo.findSensors. rewrite Hup. simpl.
  unfold Mongo.sortedSensors. rewrite (matchSensor_ofId _ _ Hk).
  destruct (Mongo.sensors db !! sid); simpl;
    change (JS.of_Z (Z.of_nat 0)) with (ofNat 0);
    change (JS.of_Z (Z.of_nat DC)) with (ofNat DC);
    rewrite page_short by (simpl; lia); reflexivity.
Qed.

(** *** Inserting *)

Lemma addSensorType_duplicate db t old :
  Mongo.connected db = true ->
  Mongo.sensorTypes db !! SensorType.id t = Some old ->
  failsWith (Mongo.addSensorType t db).1 "EXISTS"
  /\ (Mongo.addSensorType t db).2 = db.
Proof.
  intros Hup Hold. unfold Mongo.addSensorType, Mongo.insertOne.
  rewrite Hup, Hold. now repeat split.
Qed.

Lemma addSensorType_fresh db t :
  Mongo.connected db = true ->
  Mongo.sensorTypes db !! SensorType.id t = None ->
  Mongo.addSensorType t db =
    (okResult t,
     Mongo.mkDb (Mongo.connected db)
       (<[SensorType.id t := t]> (Mongo.sensorTypes db))
       (Mongo.sensors db) (Mongo.sensorReadings db)).
Proof.
  intros Hup Hnone. unfold Mongo.addSensorType, Mongo.insertOne.
  now rewrite Hup, Hnone.
Qed.

Lemma addSensor_duplicate db s old :
  Mongo.connected db = true ->
  Mongo.sensors db !! Sensor.id s = Some old ->
  failsWith (Mongo.addSensor s db).1 "EXISTS"
  /\ (Mongo.addSensor s db).2 = db.
Proof.
  intros Hup Hold. unfold Mongo.addSensor, Mongo.insertOne.
  rewrite Hup, Hold. now repeat split.
Qed.

Lemma addSensor_fresh db s :
  Mongo.connected db = true ->
  Mongo.sensors db !! Sensor.id s = None ->
  Mongo.addSensor s db =
    (okResult s,
     Mongo.mkDb (Mongo.connected db) (Mongo.sensorTypes db)
       (<[Sensor.id s := s]> (Mongo.sensors db)) (Mongo.sensorReadings db)).
Proof.
  intros Hup Hnone. unfold Mongo.addSensor, Mongo.insertOne.
  now rewrite Hup, Hnone.
Qed.

Lemma addSensorReading_duplicate db r old :
  Mongo.connected db = true ->
  In old (Mongo.sensorReadings db) ->
  SensorReading.sensorId old = SensorReading.sensorId r ->
  JS.eqb (SensorReading.timestamp old) (SensorReading.timestamp r) = true ->
  failsWith (Mongo.addSensorReading r db).1 "EXISTS"
  /\ (Mongo.addSensorReading r db).2 = db.
Proof.
  intros Hup Hin Hid Hts. unfold Mongo.addSensorReading, Mongo.insertReading.
  rewrite Hup. simpl.
  assert (E : existsb (Mongo.sameKey r) (Mongo.sensorReadings db) = true).
  { apply existsb_exists. exists old. split; [assumption|].
    unfold Mongo.sameKey. rewrite Hid, String.eqb_refl. simpl.
    now rewrite eqb_sym. }
  rewrite E. now repeat split.
Qed.

(** *** Answers are sorted *)

Lemma mongo_findSensorTypes_sorted DC DI search db l :
  (Mongo.findSensorTypes DC DI search db).1 = okResult l -> sensorTypesById l.
Proof.
  unfold Mongo.findSensorTypes.
  destruct (negb (Mongo.connected db)); [discriminate|].
  destruct (Mongo.page _ _ _) as [l'|] eqn:E; [|discriminate].
  intros [= <-]. apply (page_Sorted _ _ _ _ _ (Prj1Order.sort_byId _ _) E).
Qed.

Lemma mongo_findSensors_sorted DC DI search db l :
  (Mongo.findSensors DC DI search db).1 = okResult l -> sensorsById l.
Proof.
  unfold Mongo.findSensors.
  destruct (negb (Mongo.connected db)); [discriminate|].
  destruct (Mongo.page _ _ _) as [l'|] eqn:E; [|discriminate].
  intros [= <-]. apply (page_Sorted _ _ _ _ _ (Prj1Order.sort_byId _ _) E).
Qed.

Lemma mongo_findSensorReadings_sorted DC DI search db l :
  dbFiniteTimestamps db ->
  (Mongo.findSensorReadings DC DI search db).1 = okResult l ->
  readingsByTimestamp l.
Proof.
  intros Hfin. unfold Mongo.findSensorReadings.
  destruct (negb (Mongo.connected db)); [discriminate|].
  destruct (Mongo.page _ _ _) as [l'|] eqn:E; [|discriminate].
  intros [= <-]. refine (page_Sorted _ _ _ _ _ _ E).
  apply Prj1Order.sort_byTimestamp.
  apply Forall_forall. intros x Hx. apply list_elem_of_In in Hx.
  apply filter_In in Hx as [Hx _].
  unfold dbFiniteTimestamps in Hfin. rewrite Forall_forall in Hfin.
  apply Hfin. now apply list_elem_of_In.
Qed.

(** The insert of the DAO keeps the timestamps finite when the reading
    comes from [makeSensorReading]. *)
Lemma dbFiniteTimestamps_addSensorReading db req r :
  makeSensorReading req = okResult r ->
  dbFiniteTimestamps db ->
  dbFiniteTimestamps (Mongo.addSensorReading r db).2.
Proof.
  intros Hmk Hfin. unfold Mongo.addSensorReading, Mongo.insertReading.
  destruct (negb (Mongo.connected db)); [assumption|].
  destruct (existsb _ _); [assumption|]. simpl.
  unfold dbFiniteTimestamps. simpl. apply Forall_app. split; [assumption|].
  repeat constructor. now apply (ValidatorFacts.makeSensorReading_finite req).
Qed.

End MongoFacts.

(** ** The store over a DAO *)

Module Prj3Facts.
Import Errors Checkers Validators Search Dyn Spec.
Import JSFacts CheckerFacts FilterFacts MongoFacts.

(** *** Validation errors never reach the DAO *)

Section AnyDao.
Context {D : Type} {DAO : Dao.SensorsDao D}.

Lemma dao_addSensorType_invalid req es (dao : D) :
  makeSensorType req = errResults es ->
  Prj3.addSensorType req dao = (errResults es, dao).
Proof. unfold Prj3.addSensorType. now intros ->. Qed.

Lemma dao_addSensor_invalid req es (dao : D) :
  makeSensor req = errResults es ->
  Prj3.addSensor req dao = (errResults es, dao).
Proof. unfold Prj3.addSensor. now intros ->. Qed.

Lemma dao_addSensorReading_invalid req es (dao : D) :
  makeSensorReading req = errResults es ->
  Prj3.addSensorReading req dao = (errResults es, dao).
Proof. unfold Prj3.addSensorReading. now intros ->. Qed.

Lemma dao_findSensorTypes_invalid req es (dao : D) :
  SensorTypeSearch.make req = errResults es ->
  Prj3.findSensorTypes req dao = (errResults es, dao).
Proof. unfold Prj3.findSensorTypes. now intros ->. Qed.

Lemma dao_findSensors_invalid req es (dao : D) :
  SensorSearch.make req = errResults es ->
  Prj3.findSensors req dao = (errResults es, dao).
Proof. unfold Prj3.findSensors. now intros ->. Qed.

Lemma dao_findSensorReadings_invalid req es (dao : D) :
  SensorReadingSearch.make req = errResults es ->
  Prj3.findSensorReadings req dao = (errResults es, dao).
Proof. unfold Prj3.findSensorReadings. now intros ->. Qed.
End AnyDao.

(** *** Paging fields of a search built from a request *)

Lemma checkedVal_declared req fs f :
  fieldErrors (outcomes req fs) = [] ->
  (forall id info, In (id, info) fs ->
                   default info = None \/ default info = Some None) ->
  In f (map fst fs) ->
  checkedVal (outcomes req fs) !! f = req !! f.
Proof.
  intros Herr Hd Hin. destruct (req !! f) as [v|] eqn:E.
  - apply checkedVal_lookup; auto.
  - destruct (checkedVal _ !! f) as [v|] eqn:E'; [|reflexivity].
    apply checkedVal_lookup in E' as [_ E']; auto. congruence.
Qed.

Lemma pagingField_ext (val req : FlatReq) f :
  val !! f = req !! f -> pagingField val f = pagingField req f.
Proof. unfold pagingField. now intros ->. Qed.

Lemma pagingField_supplied (req : FlatReq) f s n :
  req !! f = Some s -> JS.Number s = ofNat n ->
  pagingField req f = Some (ofNat n).
Proof.
  unfold pagingField. intros -> H.
  destruct s; [discriminate H|]. simpl. now rewrite H.
Qed.

Lemma pagingField_absent (req : FlatReq) f :
  req !! f = None -> pagingField req f = None.
Proof. unfold pagingField. now intros ->. Qed.

Ltac paging_of_make make CHECKS :=
  unfold make;
  match goal with
  | |- context [checkFlatReq ?req CHECKS] =>
      let E := fresh "E" in
      destruct (checkFlatReq req CHECKS) as [val|] eqn:E; [|discriminate];
      intros [= <-]; apply checkFlatReq_ok in E as (Herr & _ & ->);
      split;
      [ change (pagingField (checkedVal (outcomes req (fields CHECKS))) "count"
                = pagingField req "count")
      | change (pagingField (checkedVal (outcomes req (fields CHECKS))) "index"
                = pagingField req "index") ];
      apply pagingField_ext; apply checkedVal_declared;
      try assumption;
      solve [ apply optional_defaults;
              repeat (apply List.Forall_cons; [simpl; tauto|]);
              apply List.Forall_nil
            | simpl; tauto ]
  end.

Lemma SensorTypeSearch_paging req search :
  SensorTypeSearch.make req = okResult search ->
  SensorTypeSearch.count search = pagingField req "count"
  /\ SensorTypeSearch.index search = pagingField req "index".
Proof. paging_of_make SensorTypeSearch.make SensorTypeSearch.CHECKS. Qed.

Lemma SensorSearch_paging req search :
  SensorSearch.make req = okResult search ->
  SensorSearch.count search = pagingField req "count"
  /\ SensorSearch.index search = pagingField req "index".
Proof. paging_of_make SensorSearch.make SensorSearch.CHECKS. Qed.

Lemma SensorReadingSearch_paging req search :
  SensorReadingSearch.make req = okResult search ->
  SensorReadingSearch.count search = pagingField req "count"
  /\ SensorReadingSearch.index search = pagingField req "index".
Proof. paging_of_make SensorReadingSearch.make SensorReadingSearch.CHECKS. Qed.

End Prj3Facts.

(** ** Invariants of the database under the DAO-backed store *)

Module Prj3Inv.
Import Errors Checkers Validators Search Dyn Spec.
Import JSFacts CheckerFacts FilterFacts MongoFacts Prj3Facts.

Section Params.
Variables DC DI : nat.

Lemma find_keeps_db_types search db :
  (Mongo.findSensorTypes DC DI search db).2 = db.
Proof.
  unfold Mongo.findSensorTypes. destruct (negb _); [reflexivity|].
  now destruct (Mongo.page _ _ _).
Qed.

Lemma find_keeps_db_sensors search db :
  (Mongo.findSensors DC DI search db).2 = db.
Proof.
  unfold Mongo.findSensors. destruct (negb _); [reflexivity|].
  now destruct (Mongo.page _ _ _).
Qed.

(** Each add leaves the database as it was or performs the one
    insert of the entity built from the request. *)
Lemma addSensorType_state req db :
  (Prj3.addSensorType (DAO := Mongo.dao DC DI) req db).2 = db
  \/ exists t, (Prj3.addSensorType (DAO := Mongo.dao DC DI) req db).2
               = (Mongo.addSensorType t db).2.
Proof.
  unfold Prj3.addSensorType. destruct (makeSensorType req) as [t|]; eauto.
Qed.

Lemma addSensor_state req db :
  (Prj3.addSensor (DAO := Mongo.dao DC DI) req db).2 = db
  \/ exists s, (Prj3.addSensor (DAO := Mongo.dao DC DI) req db).2
               = (Mongo.addSensor s db).2.
Proof.
  unfold Prj3.addSensor. destruct (makeSensor req) as [s|]; [|now left].
  simpl. pose proof (find_keeps_db_types
                       (SensorTypeSearch.ofId (Sensor.sensorTypeId s)) db) as H.
  destruct (Mongo.findSensorTypes DC DI _ db) as [[l|es] db']; simpl in H;
    subst db'; [|now left].
  destruct l as [|ty [|? ?]]; [now left| |now left].
  destruct (negb _); [now left|]. right. now exists s.
Qed.

Lemma addSensorReading_state req db :
  (Prj3.addSensorReading (DAO := Mongo.dao DC DI) req db).2 = db
  \/ exists r, makeSensorReading req = okResult r
               /\ (Prj3.addSensorReading (DAO := Mongo.dao DC DI) req db).2
                  = (Mongo.addSensorReading r db).2.
Proof.
  unfold Prj3.addSensorReading.
  destruct (makeSensorReading req) as [r|] eqn:E; [|now left].
  simpl. pose proof (find_keeps_db_sensors
                       (SensorSearch.ofId (SensorReading.sensorId r)) db) as H.
  destruct (Mongo.findSensors DC DI _ db) as [[l|es] db']; simpl in H;
    subst db'; [|now left].
  destruct l as [|s [|? ?]]; [now left| |now left].
  right. now exists r.
Qed.

Lemma idKeyed_addSensorType t db :
  idKeyed db -> idKeyed (Mongo.addSensorType t db).2.
Proof.
  intros [Ht Hs]. unfold Mongo.addSensorType, Mongo.insertOne.
  destruct (negb _); [now split|].
  destruct (Mongo.sensorTypes db !! _) eqn:E; [now split|].
  split; [|assumption]. simpl. intros k x.
  destruct (decide (SensorType.id t = k)) as [<-|Hne].
  - rewrite lookup_insert_eq. now intros [= <-].
  - rewrite lookup_insert_ne by assumption. apply Ht.
Qed.

Lemma idKeyed_addSensor s db :
  idKeyed db -> idKeyed (Mongo.addSensor s db).2.
Proof.
  intros [Ht Hs]. unfold Mongo.addSensor, Mongo.insertOne.
  destruct (negb _); [now split|].
  destruct (Mongo.sensors db !! _) eqn:E; [now split|].
  split; [assumption|]. simpl. intros k x.
  destruct (decide (Sensor.id s = k)) as [<-|Hne].
  - rewrite lookup_insert_eq. now intros [= <-].
  - rewrite lookup_insert_ne by assumption. apply Hs.
Qed.

Lemma idKeyed_addSensorReading r db :
  idKeyed db -> idKeyed (Mongo.addSensorReading r db).2.
Proof.
  intros H. unfold Mongo.addSensorReading, Mongo.insertReading.
  destruct (negb _); [assumption|]. now destruct (existsb _ _).
Qed.

(** Every reachable database keeps its documents under their ids and
    its timestamps finite. *)
Lemma reachable_invariant db :
  Prj3.reachable DC DI db -> idKeyed db /\ dbFiniteTimestamps db.
Proof.
  induction 1 as [up|db up _ [IHk IHf]|db _ [IHk IHf]|db req _ [IHk IHf]
                 |db req _ [IHk IHf]|db req _ [IHk IHf]].
  - split; [split; intros k x; simpl; now rewrite lookup_empty|constructor].
  - split; assumption.
  - unfold Prj3.clear. simpl. unfold Mongo.clear.
    destruct (negb _); [now split|].
    split; [split; intros k x; simpl; now rewrite lookup_empty|constructor].
  - destruct (addSensorType_state req db) as [->|[t ->]]; [now split|].
    split; [now apply idKeyed_addSensorType|].
    unfold Mongo.addSensorType, Mongo.insertOne. destruct (negb _); [assumption|].
    now destruct (Mongo.sensorTypes db !! _).
  - destruct (addSensor_state req db) as [->|[s ->]]; [now split|].
    split; [now apply idKeyed_addSensor|].
    unfold Mongo.addSensor, Mongo.insertOne. destruct (negb _); [assumption|].
    now destruct (Mongo.sensors db !! _).
  - destruct (addSensorReading_state req db) as [->|[r [Hmk ->]]]; [now split|].
    split; [now apply idKeyed_addSensorReading|].
    now apply (dbFiniteTimestamps_addSensorReading db req).
Qed.
(** A sensor the DAO finds by id is stored under that id. *)
Lemma findSensors_ofId_stored db sid s l :
  idKeyed db ->
  Mongo.findSensors DC DI (SensorSearch.ofId sid) db = (okResult (s :: l), db) ->
  is_Some (Mongo.sensors db !! sid).
Proof.
  intros Hk. unfold Mongo.findSensors. destruct (negb _); [discriminate|].
  unfold Mongo.sortedSensors. rewrite (matchSensor_ofId _ _ Hk).
  destruct (Mongo.sensors db !! sid) as [x|]; [eauto|]. simpl.
  unfold Mongo.page.
  destruct (Mongo.as_nat _) as [i|]; [|discriminate].
  destruct (Mongo.as_nat _) as [[|c]|]; try discriminate;
    rewrite ?drop_nil, ?take_nil; discriminate.
Qed.

Lemma readingsHaveSensor_addSensor s db :
  dbReadingsHaveSensor db -> dbReadingsHaveSensor (Mongo.addSensor s db).2.
Proof.
  intros H. unfold Mongo.addSensor, Mongo.insertOne.
  destruct (negb _); [assumption|].
  destruct (Mongo.sensors db !! Sensor.id s) eqn:E; [assumption|].
  unfold dbReadingsHaveSensor in *. simpl.
  eapply Forall_impl; [exact H|]. intros r [x Hx].
  destruct (decide (Sensor.id s = SensorReading.sensorId r)) as [Heq|Hne].
  - rewrite <- Heq, lookup_insert_eq. eauto.
  - rewrite lookup_insert_ne by assumption. eauto.
Qed.

Lemma readingsHaveSensor_addSensorReading r db :
  is_Some (Mongo.sensors db !! SensorReading.sensorId r) ->
  dbReadingsHaveSensor db ->
  dbReadingsHaveSensor (Mongo.addSensorReading r db).2.
Proof.
  intros Hs H. unfold Mongo.addSensorReading, Mongo.insertReading.
  destruct (negb _); [assumption|]. destruct (existsb _ _); [assumption|].
  unfold dbReadingsHaveSensor in *. simpl.
  apply Forall_app. split; [assumption|]. now repeat constructor.
Qed.

(** Every reachable database keeps readings for stored sensors only. *)
Lemma reachable_dbReadingsHaveSensor db :
  Prj3.reachable DC DI db -> dbReadingsHaveSensor db.
Proof.
  induction 1 as [up|db up _ IH|db _ IH|db req _ IH|db req Hr IH|db req Hr IH].
  - constructor.
  - exact IH.
  - unfold Prj3.clear. simpl. unfold Mongo.clear.
    destruct (negb _); [assumption|constructor].
  - destruct (addSensorType_state req db) as [->|[t ->]]; [assumption|].
    unfold Mongo.addSensorType, Mongo.insertOne. destruct (negb _); [assumption|].
    now destruct (Mongo.sensorTypes db !! _).
  - destruct (addSensor_state req db) as [->|[s ->]]; [assumption|].
    now apply readingsHaveSensor_addSensor.
  - destruct (reachable_invariant db Hr) as [Hk _].
    unfold Prj3.addSensorReading.
    destruct (makeSensorReading req) as [r|]; [|assumption]. simpl.
    pose proof (find_keeps_db_sensors
                  (SensorSearch.ofId (SensorReading.sensorId r)) db) as Hdb.
    destruct (Mongo.findSensors DC DI _ db) as [[l|es] db'] eqn:E;
      simpl in Hdb; subst db'; [|assumption].
    destruct l as [|s [|? ?]]; [assumption| |assumption].
    apply readingsHaveSensor_addSensorReading; [|assumption].
    now apply (findSensors_ofId_stored db _ s []).
Qed.
End Params.

End Prj3Inv.

(** ** Requests the checker accepts, and requests it rejects *)

Module AcceptFacts.
Import Errors Checkers Validators Search Spec JSFacts CheckerFacts.

Lemma checkField_accepts req id info v :
  req !! id = Some v ->
  (forall c, chk info = Some c -> regex c v = true) ->
  checkField req id info = Resolved (Some v).
Proof.
  intros Hv Hc. unfold checkField. rewrite Hv.
  destruct (chk info) as [c|]; [|reflexivity]. now rewrite (Hc c eq_refl).
Qed.

Lemma resolved_In req fs id info x :
  In (id, info) fs -> checkField req id info = Resolved x ->
  resolved (outcomes req fs) id = true.
Proof.
  intros Hin Hx. unfold resolved. apply existsb_exists.
  exists (id, checkField req id info). split; [now apply In_outcomes|].
  rewrite Hx, String.eqb_refl. reflexivity.
Qed.

Lemma fieldErrors_nil req fs :
  (forall id info, In (id, info) fs ->
                   exists x, checkField req id info = Resolved x) ->
  fieldErrors (outcomes req fs) = [].
Proof.
  induction fs as [|[id info] fs IH]; intros H; [reflexivity|].
  change (outcomes req ((id, info) :: fs))
    with ((id, checkField req id info) :: outcomes req fs).
  destruct (H id info (or_introl eq_refl)) as [x ->]. simpl.
  apply IH. intros i f Hi. apply H. now right.
Qed.

Lemma crossErrors_nil req os cs :
  (forall c, In c cs -> xchk c req = None) -> crossErrors req os cs = [].
Proof.
  induction cs as [|c cs IH]; intros H; [reflexivity|]. simpl.
  rewrite (H c (or_introl eq_refl)).
  destruct (forallb _ _); simpl; apply IH; intros c' Hc'; apply H; now right.
Qed.

(** The checker accepts a request all of whose fields resolve and none
    of whose cross-field checks objects. *)
Lemma checkFlatReq_accepts req fs cs :
  (forall id info, In (id, info) fs ->
                   exists x, checkField req id info = Resolved x) ->
  (forall c, In c cs -> xchk c req = None) ->
  checkFlatReq req (mkChecks fs cs) = okResult (checkedVal (outcomes req fs)).
Proof.
  intros Hf Hc. unfold checkFlatReq. simpl.
  now rewrite (fieldErrors_nil _ _ Hf), (crossErrors_nil _ _ _ Hc).
Qed.

Lemma rangeChk_accepts_equal req minId maxId :
  equalPair req minId maxId -> xchk (rangeChk minId maxId) req = None.
Proof.
  intros (lo & hi & Hlo & Hhi & _ & _ & Heq). simpl. rewrite Hlo, Hhi. simpl.
  now rewrite (eqb_le _ _ Heq).
Qed.

Lemma rangeChk_rejects req minId maxId format :
  badPair req minId maxId format ->
  xchk (rangeChk minId maxId) req = Some (rangeChk_msg, "BAD_RANGE").
Proof.
  intros (lo & hi & Hlo & Hhi & _ & _ & Hgt). simpl. rewrite Hlo, Hhi. simpl.
  unfold JS.gt in Hgt. now rewrite (lt_le_false _ _ Hgt).
Qed.

(** A pair in the wrong order makes its range check run and object. *)
Lemma checkFlatReq_badPair req checks minId maxId c :
  badPair req minId maxId (regex c) ->
  In (minId, optional_checked c) (fields checks) ->
  In (maxId, optional_checked c) (fields checks) ->
  In (rangeChk minId maxId) (chks checks) ->
  failsWithSome (checkFlatReq req checks) "BAD_RANGE".
Proof.
  intros Hbad Hmin Hmax Hchk.
  pose proof (rangeChk_rejects _ _ _ _ Hbad) as Hx.
  destruct Hbad as (lo & hi & Hlo & Hhi & Hflo & Hfhi & _).
  assert (Hres : forallb (resolved (outcomes req (fields checks)))
                   (fieldIds (rangeChk minId maxId)) = true).
  { simpl. rewrite andb_true_r. apply andb_true_iff. split.
    - apply (resolved_In _ _ _ _ (Some lo) Hmin).
      apply checkField_accepts; [exact Hlo|]. now intros c' [= <-].
    - apply (resolved_In _ _ _ _ (Some hi) Hmax).
      apply checkField_accepts; [exact Hhi|]. now intros c' [= <-]. }
  destruct (checkFlatReq_cross req checks _ _ _ Hchk Hres Hx)
    as (es & -> & Hin).
  exact Hin.
Qed.

End AcceptFacts.

(** * The claims *)

Module Claims.
Import Errors Checkers Validators Search Dyn Spec Data.
Import JSFacts ParseFacts CheckerFacts ValidatorFacts FilterFacts.
Import MongoFacts Prj3Facts Prj3Inv AcceptFacts.

(** ** Cross-entity checks of [addSensor] *)

Lemma Prj3_addSensor_unfold DC db req sensor :
  Mongo.connected db = true -> idKeyed db ->
  makeSensor req = okResult sensor ->
  Prj3.addSensor (DAO := Mongo.dao DC 0) req db =
    match Mongo.sensorTypes db !! Sensor.sensorTypeId sensor with
    | Some sensorType =>
        if Range.isSubrange (Sensor.expected sensor) (SensorType.limits sensorType)
        then Mongo.addSensor sensor db
        else ((Prj3.addSensor (DAO := Mongo.dao DC 0) req db).1, db)
    | None => ((Prj3.addSensor (DAO := Mongo.dao DC 0) req db).1, db)
    end.
Proof.
  intros Hup Hk Hmk. unfold Prj3.addSensor. rewrite Hmk. simpl.
  rewrite (findSensorTypes_ofId DC db _ Hup Hk).
  destruct (Mongo.sensorTypes db !! _) as [ty|]; [|reflexivity].
  now destruct (Range.isSubrange _ _).
Qed.

Lemma Prj3_addSensor_code DC db req sensor :
  Mongo.connected db = true -> idKeyed db ->
  makeSensor req = okResult sensor ->
  match Mongo.sensorTypes db !! Sensor.sensorTypeId sensor with
  | Some sensorType =>
      Range.isSubrange (Sensor.expected sensor) (SensorType.limits sensorType)
        = false ->
      failsWith (Prj3.addSensor (DAO := Mongo.dao DC 0) req db).1 "BAD_RANGE"
  | None => failsWith (Prj3.addSensor (DAO := Mongo.dao DC 0) req db).1 "BAD_ID"
  end.
Proof.
  intros Hup Hk Hmk. unfold Prj3.addSensor. rewrite Hmk. simpl.
  rewrite (findSensorTypes_ofId DC db _ Hup Hk).
  destruct (Mongo.sensorTypes db !! _) as [ty|]; [|now split].
  intros ->. now split.
Qed.


Lemma db1_reachable DC DI : Prj3.reachable DC DI (db1 DC DI).
Proof.
  unfold db1. apply Prj3.reach_addSensorReading, Prj3.reach_addSensor,
    Prj3.reach_addSensorType, Prj3.reach_empty.
Qed.



(** ** Bounds of [findSensorReadings] *)

(** C2, the failing input.  The in-memory store holds the sample reading
    with value 12.4; a search with [minValue] 12.5 returns it, though
    12.5 <= 12.4 does not hold: the bound was cut to 12 by [parseInt].
    The DAO-backed search, whose bounds go through [Number], returns
    nothing on the same data. *)
Theorem findSensorReadings_truncates_minValue :
  Prj1.findSensorReadings store1
    (list_to_map [("sensorId", "ln1120"); ("minValue", "12.5")])
  = Returns (okResult [SENSOR_READING1_VAL])
  /\ JS.le (JS.Number "12.5") (SensorReading.value SENSOR_READING1_VAL) = false
  /\ JS.parseInt "12.5" = JS.of_Z 12
  /\ Mongo.sensorReadings (db1 5 0) = [SENSOR_READING1_VAL]
  /\ (Prj3.findSensorReadings (DAO := Mongo.dao 5 0)
        (list_to_map [("sensorId", "ln1120"); ("minValue", "12.5")])
        (db1 5 0)).1 = okResult [].
Proof. repeat split; vm_compute; reflexivity. Qed.

(** ** Filtering of the entity searches *)

(** What the two in-memory entity searches compute.  For every valid
    request, a stored entity is in the result if and only if, for every
    search field the request specifies, the entity's field is empty or
    equals the specified value; absent fields impose no constraint.
    So [findSensorTypes({manufacturer: X})] returns the stored sensor
    types whose manufacturer is [X] or empty. *)
Theorem find_by_fields :
  (forall (this : Prj1.SensorsInfo) (req filterReq : FlatReq),
      validateFindCommand Validators.findSensorTypes req = okResult filterReq ->
      exists l,
        Prj1.findSensorTypes this req = okResult l
        /\ forall t,
             In t l <->
             In t (values (Prj1.sensorTypes this))
             /\ forall f v, In f sensorTypeFields -> req !! f = Some v ->
                            fieldOf sensorType_get t f = EmptyString
                            \/ fieldOf sensorType_get t f = v)
  /\ (forall (this : Prj1.SensorsInfo) (req filterReq : FlatReq),
         validateFindCommand Validators.findSensors req = okResult filterReq ->
         exists l,
           Prj1.findSensors this req = okResult l
           /\ forall s,
                In s l <->
                In s (values (Prj1.sensors this))
                /\ forall f v, In f sensorFields -> req !! f = Some v ->
                               fieldOf sensor_get s f = EmptyString
                               \/ fieldOf sensor_get s f = v)
  /\ (forall (this : Prj1.SensorsInfo) (X : string),
         exists l,
           Prj1.findSensorTypes this {[ "manufacturer" := X ]} = okResult l
           /\ forall t,
                In t l <->
                In t (values (Prj1.sensorTypes this))
                /\ (SensorType.manufacturer t = EmptyString
                    \/ SensorType.manufacturer t = X)).
Proof.
  split; [|split].
  - intros this req filterReq. apply findSensorTypes_filter.
  - intros this req filterReq. apply findSensors_filter.
  - intros this X.
    destruct (validate_findSensorTypes {[ "manufacturer" := X ]}) as [fr Hfr].
    destruct (findSensorTypes_filter this _ _ Hfr) as (l & Hl & Hin).
    exists l. split; [assumption|]. intros t. rewrite Hin.
    apply and_iff_compat_l. split.
    + intros H. apply (H "manufacturer" X); [simpl; tauto|].
      apply lookup_singleton_eq.
    + intros H f v Hf Hreq.
      destruct (decide (f = "manufacturer")) as [->|Hne].
      * rewrite lookup_singleton_eq in Hreq. injection Hreq as <-. exact H.
      * rewrite lookup_singleton_ne in Hreq by congruence. discriminate.
Qed.

Lemma find_by_fields_witness :
  validateFindCommand Validators.findSensorTypes {[ "manufacturer" := "honeywell" ]}
  = okResult {[ "manufacturer" := "honeywell" ]}
  /\ In SENSOR_TYPE1_VAL
        (match Prj1.findSensorTypes store1 {[ "manufacturer" := "honeywell" ]} with
         | okResult l => l
         | errResults _ => []
         end).
Proof.
  assert (Hv : validateFindCommand Validators.findSensorTypes
                 {[ "manufacturer" := "honeywell" ]}
               = okResult {[ "manufacturer" := "honeywell" ]})
    by (vm_compute; reflexivity).
  split; [exact Hv|].
  destruct (proj1 find_by_fields store1 _ _ Hv) as (l & -> & Hin).
  apply Hin. split.
  - vm_compute. now left.
  - intros f v Hf Hreq. right.
    simpl in Hf. destruct Hf as [<-|[<-|[<-|[<-|[<-|[]]]]]];
      vm_compute in Hreq; try discriminate Hreq.
    injection Hreq as <-. reflexivity.
Defined.

(** C3, the failing input.  A stored entity is to be in the result exactly
    when each specified field equals the value asked for; but a sensor
    type stored with an empty manufacturer is returned by the in-memory
    search for the manufacturer "acme", because the comparison is skipped
    when the entity's field is falsy.  The DAO-backed search, on the same
    data, returns nothing. *)
Theorem findSensorTypes_returns_empty_manufacturer :
  let t0 := SensorType.mk "hw123" "" "123" "pressure" "PSI"
              (Range.mk (JS.of_Z 10) (JS.of_Z 100)) in
  let this := (Prj1.addSensorType Prj1.new
                 (<[ "manufacturer" := "" ]> SENSOR_TYPE1)).2 in
  let db := (Prj3.addSensorType (DAO := Mongo.dao 5 0)
               (<[ "manufacturer" := "" ]> SENSOR_TYPE1)
               (Mongo.mkDb true ∅ ∅ [])).2 in
  Prj1.sensorTypes this = {[ "hw123" := t0 ]}
  /\ Prj1.findSensorTypes this {[ "manufacturer" := "acme" ]} = okResult [t0]
  /\ SensorType.manufacturer t0 <> "acme"
  /\ Mongo.sensorTypes db = {[ "hw123" := t0 ]}
  /\ (Prj3.findSensorTypes (DAO := Mongo.dao 5 0)
        {[ "manufacturer" := "acme" ]} db).1 = okResult [].
Proof.
  repeat split; try (vm_compute; reflexivity). discriminate.
Qed.

(** ** Paging of the DAO-backed searches *)

Lemma Prj3_findSensorTypes_unfold DC DI db req search :
  Mongo.connected db = true ->
  SensorTypeSearch.make req = okResult search ->
  (Prj3.findSensorTypes (DAO := Mongo.dao DC DI) req db).1 =
    match Mongo.page (Mongo.orDefault (pagingField req "index") DI)
                     (Mongo.orDefault (pagingField req "count") DC)
                     (Mongo.sortedSensorTypes search db) with
    | Some l => okResult l
    | None => Mongo.findError "sensorTypes"
    end.
Proof.
  intros Hup Hmk. destruct (SensorTypeSearch_paging _ _ Hmk) as [Hc Hi].
  unfold Prj3.findSensorTypes. rewrite Hmk. simpl.
  unfold Mongo.findSensorTypes. rewrite Hup, Hc, Hi. simpl.
  now destruct (Mongo.page _ _ _).
Qed.

Lemma Prj3_findSensors_unfold DC DI db req search :
  Mongo.connected db = true ->
  SensorSearch.make req = okResult search ->
  (Prj3.findSensors (DAO := Mongo.dao DC DI) req db).1 =
    match Mongo.page (Mongo.orDefault (pagingField req "index") DI)
                     (Mongo.orDefault (pagingField req "count") DC)
                     (Mongo.sortedSensors search db) with
    | Some l => okResult l
    | None => Mongo.findError "sensors"
    end.
Proof.
  intros Hup Hmk. destruct (SensorSearch_paging _ _ Hmk) as [Hc Hi].
  unfold Prj3.findSensors. rewrite Hmk. simpl.
  unfold Mongo.findSensors. rewrite Hup, Hc, Hi. simpl.
  now destruct (Mongo.page _ _ _).
Qed.

Lemma Prj3_findSensorReadings_unfold DC DI db req search :
  Mongo.connected db = true ->
  SensorReadingSearch.make req = okResult search ->
  (Prj3.findSensorReadings (DAO := Mongo.dao DC DI) req db).1 =
    match Mongo.page (Mongo.orDefault (pagingField req "index") DI)
                     (Mongo.orDefault (pagingField req "count") DC)
                     (Mongo.sortedReadings search db) with
    | Some l => okResult l
    | None => Mongo.findError "sensorTypes"
    end.
Proof.
  intros Hup Hmk. destruct (SensorReadingSearch_paging _ _ Hmk) as [Hc Hi].
  unfold Prj3.findSensorReadings. rewrite Hmk. simpl.
  unfold Mongo.findSensorReadings. rewrite Hup, Hc, Hi. simpl.
  now destruct (Mongo.page _ _ _).
Qed.

Lemma page_supplied {A : Type} DC DI req i c (l : list A) :
  pageSupplied req i c -> 1 <= c ->
  Mongo.page (Mongo.orDefault (pagingField req "index") DI)
             (Mongo.orDefault (pagingField req "count") DC) l
  = Some (window i c l).
Proof.
  intros (cs & ixs & Hc & Hi & Hcn & Hin) Hpos.
  rewrite (pagingField_supplied _ _ _ _ Hc Hcn),
          (pagingField_supplied _ _ _ _ Hi Hin).
  simpl. now apply page_window.
Qed.

Lemma page_absent {A : Type} DC DI req (l : list A) :
  pageAbsent req -> 1 <= DC ->
  Mongo.page (Mongo.orDefault (pagingField req "index") DI)
             (Mongo.orDefault (pagingField req "count") DC) l
  = Some (window DI DC l).
Proof.
  intros [Hc Hi] Hpos.
  rewrite (pagingField_absent _ _ Hc), (pagingField_absent _ _ Hi).
  simpl. now apply page_window.
Qed.

(** C4, amended.  In the paginated revision, with the database
    reachable, for every valid find request: when [count] and [index]
    are supplied as natural numbers, [count] at least one, the returned
    array is the window [[index, index + count)] of the full sorted
    match set; when both are absent the defaults of [params.js] apply,
    and with [DEFAULT_COUNT] at least one the returned array is the
    window [[DEFAULT_INDEX, DEFAULT_INDEX + DEFAULT_COUNT)]. *)
Theorem find_page (DEFAULT_COUNT DEFAULT_INDEX : nat) (db : Mongo.Db)
    (req : FlatReq) :
  Mongo.connected db = true ->
  (forall search,
      SensorTypeSearch.make req = okResult search ->
      let result :=
        (Prj3.findSensorTypes (DAO := Mongo.dao DEFAULT_COUNT DEFAULT_INDEX)
           req db).1 in
      let matches := Mongo.sortedSensorTypes search db in
      (forall index count,
          pageSupplied req index count -> 1 <= count ->
          result = okResult (window index count matches))
      /\ (pageAbsent req -> 1 <= DEFAULT_COUNT ->
          result = okResult (window DEFAULT_INDEX DEFAULT_COUNT matches)))
  /\ (forall search,
         SensorSearch.make req = okResult search ->
         let result :=
           (Prj3.findSensors (DAO := Mongo.dao DEFAULT_COUNT DEFAULT_INDEX)
              req db).1 in
         let matches := Mongo.sortedSensors search db in
         (forall index count,
             pageSupplied req index count -> 1 <= count ->
             result = okResult (window index count matches))
         /\ (pageAbsent req -> 1 <= DEFAULT_COUNT ->
             result = okResult (window DEFAULT_INDEX DEFAULT_COUNT matches)))
  /\ (forall search,
         SensorReadingSearch.make req = okResult search ->
         let result :=
           (Prj3.findSensorReadings (DAO := Mongo.dao DEFAULT_COUNT DEFAULT_INDEX)
              req db).1 in
         let matches := Mongo.sortedReadings search db in
         (forall index count,
             pageSupplied req index count -> 1 <= count ->
             result = okResult (window index count matches))
         /\ (pageAbsent req -> 1 <= DEFAULT_COUNT ->
             result = okResult (window DEFAULT_INDEX DEFAULT_COUNT matches))).
Proof.
  intros Hup. split; [|split]; intros search Hmk result matches; subst result.
  - rewrite (Prj3_findSensorTypes_unfold _ _ _ _ _ Hup Hmk). fold matches.
    split.
    + intros i c Hs Hpos. now rewrite (page_supplied _ _ _ i c).
    + intros Ha Hpos. now rewrite page_absent.
  - rewrite (Prj3_findSensors_unfold _ _ _ _ _ Hup Hmk). fold matches.
    split.
    + intros i c Hs Hpos. now rewrite (page_supplied _ _ _ i c).
    + intros Ha Hpos. now rewrite page_absent.
  - rewrite (Prj3_findSensorReadings_unfold _ _ _ _ _ Hup Hmk). fold matches.
    split.
    + intros i c Hs Hpos. now rewrite (page_supplied _ _ _ i c).
    + intros Ha Hpos. now rewrite page_absent.
Qed.

Lemma find_page_witness :
  Mongo.connected (db6 5 0) = true
  /\ pageSupplied (list_to_map [("index", "5"); ("count", "3")]) 5 3
  /\ map SensorType.id
       (match (Prj3.findSensorTypes (DAO := Mongo.dao 5 0)
                 (list_to_map [("index", "5"); ("count", "3")]) (db6 5 0)).1 with
        | okResult l => l
        | errResults _ => []
        end) = ["t6"]
  /\ map SensorType.id
       (match (Prj3.findSensorTypes (DAO := Mongo.dao 5 0) ∅ (db6 5 0)).1 with
        | okResult l => l
        | errResults _ => []
        end) = ["t1"; "t2"; "t3"; "t4"; "t5"].
Proof.
  assert (Hup : Mongo.connected (db6 5 0) = true) by reflexivity.
  assert (Hs : pageSupplied (list_to_map [("index", "5"); ("count", "3")]) 5 3).
  { exists "3", "5". repeat split; vm_compute; reflexivity. }
  split; [exact Hup|]. split; [exact Hs|]. split.
  - destruct (find_page 5 0 (db6 5 0)
                (list_to_map [("index", "5"); ("count", "3")]) Hup)
      as [H _].
    destruct (H (SensorTypeSearch.mk None None None None None
                   (Some (ofNat 3)) (Some (ofNat 5))))
      as [Hwin _]; [vm_compute; reflexivity|].
    rewrite (Hwin 5 3 Hs); [vm_compute; reflexivity|lia].
  - destruct (find_page 5 0 (db6 5 0) ∅ Hup) as [H _].
    destruct (H (SensorTypeSearch.mk None None None None None None None))
      as [_ Hdef]; [vm_compute; reflexivity|].
    rewrite Hdef; [vm_compute; reflexivity|split; reflexivity|lia].
Defined.

(** C4 as stated fails: six sensor types are stored, the request has no
    paging field, and with the defaults 5 and 0 the answer holds five of
    the six matches. *)
Lemma findSensorTypes_without_paging_is_one_page :
  pageAbsent ∅
  /\ SensorTypeSearch.make ∅
     = okResult (SensorTypeSearch.mk None None None None None None None)
  /\ map SensorType.id
       (Mongo.sortedSensorTypes
          (SensorTypeSearch.mk None None None None None None None) (db6 5 0))
     = ["t1"; "t2"; "t3"; "t4"; "t5"; "t6"]
  /\ map SensorType.id
       (match (Prj3.findSensorTypes (DAO := Mongo.dao 5 0) ∅ (db6 5 0)).1 with
        | okResult l => l
        | errResults _ => []
        end) = ["t1"; "t2"; "t3"; "t4"; "t5"].
Proof. repeat split; vm_compute; reflexivity. Qed.

(** Whatever the defaults are, as long as [DEFAULT_COUNT] is at least
    one: a request without paging fields that has more than
    [DEFAULT_COUNT] matches is not answered with all of them. *)
Lemma default_page_truncates DC DI db req search :
  Mongo.connected db = true ->
  SensorTypeSearch.make req = okResult search ->
  pageAbsent req -> 1 <= DC ->
  DC < length (Mongo.sortedSensorTypes search db) ->
  (Prj3.findSensorTypes (DAO := Mongo.dao DC DI) req db).1
  <> okResult (Mongo.sortedSensorTypes search db).
Proof.
  intros Hup Hmk Ha Hpos Hlen.
  rewrite (Prj3_findSensorTypes_unfold _ _ _ _ _ Hup Hmk).
  rewrite page_absent by assumption. intros [= H].
  apply (f_equal length) in H. unfold window in H.
  rewrite length_take in H. lia.
Qed.

(** A supplied [count] of zero is no window at all: MongoDB reads a limit
    of [0] as no limit, and all six sensor types come back. *)
Lemma findSensorTypes_count_zero :
  map SensorType.id
    (match (Prj3.findSensorTypes (DAO := Mongo.dao 5 0)
              (list_to_map [("index", "0"); ("count", "0")]) (db6 5 0)).1 with
     | okResult l => l
     | errResults _ => []
     end) = ["t1"; "t2"; "t3"; "t4"; "t5"; "t6"].
Proof. vm_compute. reflexivity. Qed.

(** ** Order of the answers *)

(** C5.  Every successful [findSensorTypes] and [findSensors] answer is
    sorted ascending by id under the lexicographic order of strings, and
    every successful [findSensorReadings] answer is sorted ascending by
    timestamp; in the in-memory store and in the DAO-backed one, in
    every state they reach and for every request. *)
Theorem find_sorted :
  (forall this req l,
      Prj1.findSensorTypes this req = okResult l -> sensorTypesById l)
  /\ (forall this req l,
         Prj1.findSensors this req = okResult l -> sensorsById l)
  /\ (forall this req l,
         Prj1.reachable this ->
         Prj1.findSensorReadings this req = Returns (okResult l) ->
         readingsByTimestamp l)
  /\ (forall DC DI db req l,
         (Prj3.findSensorTypes (DAO := Mongo.dao DC DI) req db).1 = okResult l ->
         sensorTypesById l)
  /\ (forall DC DI db req l,
         (Prj3.findSensors (DAO := Mongo.dao DC DI) req db).1 = okResult l ->
         sensorsById l)
  /\ (forall DC DI db req l,
         Prj3.reachable DC DI db ->
         (Prj3.findSensorReadings (DAO := Mongo.dao DC DI) req db).1 = okResult l ->
         readingsByTimestamp l).
Proof.
  repeat split.
  - apply Prj1Order.mem_findSensorTypes_sorted.
  - apply Prj1Order.mem_findSensors_sorted.
  - intros this req l Hreach.
    apply Prj1Order.mem_findSensorReadings_sorted.
    now apply Prj1Order.reachable_finiteTimestamps.
  - intros DC DI db req l. unfold Prj3.findSensorTypes.
    destruct (SensorTypeSearch.make req); [|discriminate].
    apply MongoFacts.mongo_findSensorTypes_sorted.
  - intros DC DI db req l. unfold Prj3.findSensors.
    destruct (SensorSearch.make req); [|discriminate].
    apply MongoFacts.mongo_findSensors_sorted.
  - intros DC DI db req l Hreach. unfold Prj3.findSensorReadings.
    destruct (SensorReadingSearch.make req); [|discriminate].
    apply MongoFacts.mongo_findSensorReadings_sorted.
    now apply (reachable_invariant DC DI).
Qed.

Lemma store1_reachable : Prj1.reachable store1.
Proof.
  unfold store1. apply Prj1.reach_addSensorReading, Prj1.reach_addSensor,
    Prj1.reach_addSensorType, Prj1.reach_new.
Qed.

Lemma store2_reachable : Prj1.reachable store2.
Proof. unfold store2. apply Prj1.reach_addSensorReading, store1_reachable. Qed.

Lemma find_sorted_witness :
  Prj1.reachable store2
  /\ Prj1.findSensorReadings store2 {[ "sensorId" := "ln1120" ]}
     = Returns (okResult [SENSOR_READING0_VAL; SENSOR_READING1_VAL])
  /\ readingsByTimestamp [SENSOR_READING0_VAL; SENSOR_READING1_VAL]
  /\ sensorTypesById
       (match (Prj3.findSensorTypes (DAO := Mongo.dao 5 0) ∅ (db6 5 0)).1 with
        | okResult l => l
        | errResults _ => []
        end).
Proof.
  assert (Hfind : Prj1.findSensorReadings store2 {[ "sensorId" := "ln1120" ]}
                  = Returns (okResult [SENSOR_READING0_VAL; SENSOR_READING1_VAL]))
    by (vm_compute; reflexivity).
  destruct find_sorted as (_ & _ & Hr & Ht & _ & _).
  split; [exact store2_reachable|]. split; [exact Hfind|]. split.
  - exact (Hr store2 _ _ store2_reachable Hfind).
  - destruct (Prj3.findSensorTypes (DAO := Mongo.dao 5 0) ∅ (db6 5 0)).1
      as [l|es] eqn:E.
    + exact (Ht 5 0 (db6 5 0) ∅ l E).
    + constructor.
Defined.

(** ** Duplicate keys *)




(** ** Validation short-circuits *)

(** C8.  An add or find request that fails field validation returns the
    validation errors at once: the in-memory store is left as it was, and
    the DAO-backed store hands the DAO back untouched, whatever DAO it
    runs on, so that no call reached it. *)
Theorem invalid_request_stops :
  (forall this req es,
      makeSensorType req = errResults es ->
      Prj1.addSensorType this req = (errResults es, this))
  /\ (forall this req es,
         makeSensor req = errResults es ->
         Prj1.addSensor this req = (Returns (errResults es), this))
  /\ (forall this req es,
         makeSensorReading req = errResults es ->
         Prj1.addSensorReading this req = (Returns (errResults es), this))
  /\ (forall this req es,
         validateFindCommand Validators.findSensorTypes req = errResults es ->
         Prj1.findSensorTypes this req = errResults es)
  /\ (forall this req es,
         validateFindCommand Validators.findSensors req = errResults es ->
         Prj1.findSensors this req = errResults es)
  /\ (forall this req es,
         validateFindCommand Validators.findSensorReadings req = errResults es ->
         Prj1.findSensorReadings this req = Returns (errResults es))
  /\ (forall (D : Type) (DAO : Dao.SensorsDao D) (dao : D) req es,
         (makeSensorType req = errResults es ->
          Prj3.addSensorType req dao = (errResults es, dao))
         /\ (makeSensor req = errResults es ->
             Prj3.addSensor req dao = (errResults es, dao))
         /\ (makeSensorReading req = errResults es ->
             Prj3.addSensorReading req dao = (errResults es, dao))
         /\ (SensorTypeSearch.make req = errResults es ->
             Prj3.findSensorTypes req dao = (errResults es, dao))
         /\ (SensorSearch.make req = errResults es ->
             Prj3.findSensors req dao = (errResults es, dao))
         /\ (SensorReadingSearch.make req = errResults es ->
             Prj3.findSensorReadings req dao = (errResults es, dao))).
Proof.
  split; [exact Prj1Facts.mem_addSensorType_invalid|].
  split; [exact Prj1Facts.mem_addSensor_invalid|].
  split; [exact Prj1Facts.mem_addSensorReading_invalid|].
  split; [exact Prj1Facts.mem_findSensorTypes_invalid|].
  split; [exact Prj1Facts.mem_findSensors_invalid|].
  split; [exact Prj1Facts.mem_findSensorReadings_invalid|].
  intros D DAO dao req es. repeat split.
  - apply dao_addSensorType_invalid.
  - apply dao_addSensor_invalid.
  - apply dao_addSensorReading_invalid.
  - apply dao_findSensorTypes_invalid.
  - apply dao_findSensors_invalid.
  - apply dao_findSensorReadings_invalid.
Qed.

Lemma invalid_request_stops_witness :
  codes (makeSensor (delete "period" SENSOR1)) = ["REQUIRED"]
  /\ (Prj1.addSensor store1 (delete "period" SENSOR1)).2 = store1
  /\ (Prj3.addSensor (DAO := Mongo.dao 5 0) (delete "period" SENSOR1)
        (db1 5 0)).2 = db1 5 0.
Proof.
  destruct (makeSensor (delete "period" SENSOR1)) as [s|es] eqn:E;
    [vm_compute in E; discriminate E|].
  destruct invalid_request_stops as (_ & Hmem & _ & _ & _ & _ & Hdao).
  split; [vm_compute in E; injection E as <-; reflexivity|]. split.
  - now rewrite (Hmem store1 (delete "period" SENSOR1) es E).
  - destruct (Hdao Mongo.Db (Mongo.dao 5 0) (db1 5 0)
                (delete "period" SENSOR1) es) as (_ & H & _).
    now rewrite (H E).
Defined.

(** ** Frame of [addSensorReading] *)

(** C10.  A successful in-memory [addSensorReading] leaves the sensor
    types and the sensors as they were, leaves the readings of every
    other sensor as they were, and in the readings of its own sensor
    keeps every reading with a different timestamp at its place: the
    list changes at one position or grows by the new reading.  The
    prototypes of the dictionaries stay as they were too. *)
Theorem addSensorReading_frame (this this' : Prj1.SensorsInfo) (req : FlatReq)
    (l : list SensorReading.t) :
  Prj1.addSensorReading this req = (Returns (okResult l), this') ->
  exists r,
    l = [r]
    /\ Prj1.sensorTypes this' = Prj1.sensorTypes this
    /\ Prj1.sensors this' = Prj1.sensors this
    /\ (forall k, k <> SensorReading.sensorId r ->
                  Prj1.sensorReadings this' !! k = Prj1.sensorReadings this !! k)
    /\ (forall rs i x,
           Prj1.sensorReadings this !! SensorReading.sensorId r = Some rs ->
           rs !! i = Some x ->
           JS.eqb (SensorReading.timestamp x) (SensorReading.timestamp r) = false ->
           exists rs',
             Prj1.sensorReadings this' !! SensorReading.sensorId r = Some rs'
             /\ rs' !! i = Some x)
    /\ (exists rs',
           Prj1.sensorReadings this' !! SensorReading.sensorId r = Some rs'
           /\ match Prj1.sensorReadings this !! SensorReading.sensorId r with
              | Some rs => rs' = (rs ++ [r])%list \/ exists j, rs' = <[j := r]> rs
              | None => rs' = [r]
              end)
    /\ Prj1.sensorTypesProto this' = Prj1.sensorTypesProto this
    /\ Prj1.sensorsProto this' = Prj1.sensorsProto this.
Proof.
  intros H. apply Prj1Facts.addSensorReading_ok in H as (r & _ & -> & _ & ->).
  exists r. simpl.
  split; [reflexivity|]. split; [reflexivity|]. split; [reflexivity|].
  split; [|split; [|split; [|split; reflexivity]]].
  - intros k Hne. now rewrite lookup_insert_ne.
  - intros rs i x Hrs Hx Hts. eexists. split; [apply lookup_insert_eq|].
    apply Prj1Facts.updated_keeps; [|assumption]. now rewrite Hrs.
  - eexists. split; [apply lookup_insert_eq|].
    destruct (Prj1.sensorReadings this !! _) as [rs|]; simpl; [|reflexivity].
    destruct (JS.findIndex _ rs) as [j|]; eauto.
Qed.

Lemma addSensorReading_frame_witness :
  Prj1.addSensorReading store1 SENSOR_READING0
  = (Returns (okResult [SENSOR_READING0_VAL]),
     Prj1.mkInfo (Prj1.sensorTypes store1) (Prj1.sensors store1)
       {[ "ln1120" := [SENSOR_READING1_VAL; SENSOR_READING0_VAL] ]}
       None None)
  /\ exists rs',
       Prj1.sensorReadings (Prj1.addSensorReading store1 SENSOR_READING0).2
         !! "ln1120" = Some rs'
       /\ rs' !! 0%nat = Some SENSOR_READING1_VAL.
Proof.
  assert (H : Prj1.addSensorReading store1 SENSOR_READING0
              = (Returns (okResult [SENSOR_READING0_VAL]),
                 Prj1.mkInfo (Prj1.sensorTypes store1) (Prj1.sensors store1)
                   {[ "ln1120" := [SENSOR_READING1_VAL; SENSOR_READING0_VAL] ]}
                   None None))
    by (vm_compute; reflexivity).
  split; [exact H|].
  destruct (addSensorReading_frame _ _ _ _ H) as (r & Hr & _ & _ & _ & Hkeep & _).
  injection Hr as <-. rewrite H.
  apply (Hkeep [SENSOR_READING1_VAL] 0%nat SENSOR_READING1_VAL);
    vm_compute; reflexivity.
Defined.

(** ** What the search validation rejects *)

(** C7, amended.  [findSensorReadings] fails with REQUIRED, reported
    first, for every request without [sensorId]; and it fails with
    BAD_RANGE for every request in which both bounds of a pair are
    supplied in the format of their field (non-negative integers for the
    timestamps, number literals for the values) with the minimum above
    the maximum.  Both hold in the in-memory store and, before any DAO
    call, in the DAO-backed one. *)
Theorem findSensorReadings_rejects :
  (forall this req,
      req !! "sensorId" = None ->
      exists e es,
        Prj1.findSensorReadings this req = Returns (errResults (e :: es))
        /\ code e = "REQUIRED")
  /\ (forall this req,
         badPair req "minTimestamp" "maxTimestamp" INTEGER_RE
         \/ badPair req "minValue" "maxValue" NUMBER_RE ->
         returnsWithSome (Prj1.findSensorReadings this req) "BAD_RANGE")
  /\ (forall (D : Type) (DAO : Dao.SensorsDao D) (dao : D) req,
         req !! "sensorId" = None ->
         exists e es,
           Prj3.findSensorReadings req dao = (errResults (e :: es), dao)
           /\ code e = "REQUIRED")
  /\ (forall (D : Type) (DAO : Dao.SensorsDao D) (dao : D) req,
         badPair req "minTimestamp" "maxTimestamp" INTEGER_RE
         \/ badPair req "minValue" "maxValue" NUMBER_RE ->
         failsWithSome (Prj3.findSensorReadings req dao).1 "BAD_RANGE"
         /\ (Prj3.findSensorReadings req dao).2 = dao).
Proof.
  split; [|split; [|split]].
  - intros this req Hnone.
    unfold Prj1.findSensorReadings, validateFindCommand, FIND_VALIDATION_INFO.
    match goal with
    | |- context [checkFlatReq req (mkChecks (_ :: ?fs) ?cs)] =>
        destruct (checkFlatReq_required_first req "sensorId" required fs cs
                    Hnone eq_refl) as (e & es & He & Hc)
    end.
    rewrite He. eauto.
  - intros this req Hbad.
    assert (H : failsWithSome
                  (validateFindCommand Validators.findSensorReadings req)
                  "BAD_RANGE").
    { destruct Hbad as [Hbad|Hbad].
      - apply (checkFlatReq_badPair req _ "minTimestamp" "maxTimestamp"
                 INTEGER_CHK Hbad); simpl; tauto.
      - apply (checkFlatReq_badPair req _ "minValue" "maxValue"
                 NUMBER_CHK Hbad); simpl; tauto. }
    unfold Prj1.findSensorReadings.
    destruct (validateFindCommand _ req) as [v|es]; [destruct H|].
    eexists. split; [reflexivity|exact H].
  - intros D DAO dao req Hnone.
    unfold Prj3.findSensorReadings, SensorReadingSearch.make,
      SensorReadingSearch.CHECKS.
    cbn [app PAGING_FIELDS].
    match goal with
    | |- context [checkFlatReq req (mkChecks (_ :: ?fs) ?cs)] =>
        destruct (checkFlatReq_required_first req "sensorId" required fs cs
                    Hnone eq_refl) as (e & es & He & Hc)
    end.
    rewrite He. eauto.
  - intros D DAO dao req Hbad.
    assert (H : failsWithSome (SensorReadingSearch.make req) "BAD_RANGE").
    { unfold SensorReadingSearch.make.
      assert (H : failsWithSome (checkFlatReq req SensorReadingSearch.CHECKS)
                    "BAD_RANGE").
      { destruct Hbad as [Hbad|Hbad].
        - apply (checkFlatReq_badPair req _ "minTimestamp" "maxTimestamp"
                   INTEGER_CHK Hbad); simpl; tauto.
        - apply (checkFlatReq_badPair req _ "minValue" "maxValue"
                   NUMBER_CHK Hbad); simpl; tauto. }
      destruct (checkFlatReq req SensorReadingSearch.CHECKS); [destruct H|exact H]. }
    unfold Prj3.findSensorReadings.
    destruct (SensorReadingSearch.make req) as [v|es]; [destruct H|].
    split; [exact H|reflexivity].
Qed.

Lemma findSensorReadings_rejects_witness :
  badPair (list_to_map [("sensorId", "ln1120"); ("minTimestamp", "2");
                        ("maxTimestamp", "1")])
          "minTimestamp" "maxTimestamp" INTEGER_RE
  /\ returnsWithSome
       (Prj1.findSensorReadings store1
          (list_to_map [("sensorId", "ln1120"); ("minTimestamp", "2");
                        ("maxTimestamp", "1")])) "BAD_RANGE"
  /\ exists e es,
       Prj1.findSensorReadings store1 {[ "value" := "2" ]}
       = Returns (errResults (e :: es))
       /\ code e = "REQUIRED".
Proof.
  assert (Hbad : badPair (list_to_map [("sensorId", "ln1120");
                                       ("minTimestamp", "2");
                                       ("maxTimestamp", "1")])
                   "minTimestamp" "maxTimestamp" INTEGER_RE).
  { exists "2", "1". repeat split; vm_compute; reflexivity. }
  destruct findSensorReadings_rejects as (Hreq & Hrange & _ & _).
  split; [exact Hbad|]. split.
  - apply Hrange. now left.
  - apply Hreq. vm_compute. reflexivity.
Defined.

(** C7 as stated fails: both timestamp bounds are supplied and 2.5
    exceeds 1, but the minimum is not in the format of a timestamp; the
    request fails with BAD_VAL alone, the range check does not run. *)
Lemma findSensorReadings_bad_format_no_BAD_RANGE :
  let req : FlatReq :=
    list_to_map [("sensorId", "ln1120"); ("minTimestamp", "2.5");
                 ("maxTimestamp", "1")] in
  req !! "minTimestamp" = Some "2.5"
  /\ req !! "maxTimestamp" = Some "1"
  /\ JS.gt (JS.Number "2.5") (JS.Number "1") = true
  /\ (exists r, Prj1.findSensorReadings store1 req = Returns r
                /\ codes r = ["BAD_VAL"])
  /\ ~ returnsWithSome (Prj1.findSensorReadings store1 req) "BAD_RANGE".
Proof.
  intros req.
  split; [vm_compute; reflexivity|]. split; [vm_compute; reflexivity|].
  split; [vm_compute; reflexivity|]. split.
  - eexists. split; vm_compute; reflexivity.
  - intros (r & Hr & Hin).
    assert (H : exists es, Prj1.findSensorReadings store1 req
                           = Returns (errResults es)
                           /\ map code es = ["BAD_VAL"])
      by (eexists; split; vm_compute; reflexivity).
    destruct H as (es & Hes & Hc). rewrite Hes in Hr. injection Hr as <-.
    unfold failsWithSome in Hin. simpl in Hin. rewrite Hc in Hin.
    destruct Hin as [H|[]]. discriminate H.
Qed.

(** ** The range check accepts equal bounds *)

Lemma present_lookup req ids id :
  present req ids -> In id ids -> exists v, req !! id = Some v.
Proof.
  unfold present. rewrite Forall_forall. intros H Hin.
  apply list_elem_of_In in Hin. destruct (H id Hin) as [v Hv]. eauto.
Qed.

Ltac resolve_field Hpresent :=
  match goal with
  | |- exists x, checkField ?req ?id ?info = Resolved x =>
      first
        [ let v := fresh "v" in
          let Hv := fresh "Hv" in
          destruct (present_lookup req _ id Hpresent) as [v Hv];
          [simpl; tauto|];
          exists (Some v); apply checkField_accepts;
          [exact Hv | intros c; discriminate]
        | eexists; apply checkField_accepts;
          [eassumption | intros c [= <-]; assumption] ]
  end.

Lemma makeSensorType_equal_bounds req :
  present req ["id"; "manufacturer"; "modelNumber"; "quantity"; "unit"] ->
  equalPair req "min" "max" ->
  exists t,
    makeSensorType req = okResult t
    /\ JS.eqb (Range.min (SensorType.limits t)) (Range.max (SensorType.limits t))
       = true.
Proof.
  intros Hp Heq. pose proof (rangeChk_accepts_equal _ _ _ Heq) as Hx.
  destruct Heq as (lo & hi & Hlo & Hhi & Hrlo & Hrhi & Heq).
  unfold makeSensorType, ADD_SENSOR_TYPE_CHECKS.
  rewrite checkFlatReq_accepts.
  - eexists. split; [reflexivity|]. simpl.
    now rewrite (lookup_total_Some _ _ _ Hlo), (lookup_total_Some _ _ _ Hhi).
  - intros id info Hin. simpl in Hin.
    repeat (destruct Hin as [[= <- <-]|Hin]; [resolve_field Hp|]).
    destruct Hin.
  - intros c [<-|[]]. exact Hx.
Qed.

Lemma makeSensor_equal_bounds req period :
  present req ["id"; "sensorTypeId"] ->
  req !! "period" = Some period -> INTEGER_RE period = true ->
  equalPair req "min" "max" ->
  exists s,
    makeSensor req = okResult s
    /\ JS.eqb (Range.min (Sensor.expected s)) (Range.max (Sensor.expected s))
       = true.
Proof.
  intros Hp Hper Hrper Heq. pose proof (rangeChk_accepts_equal _ _ _ Heq) as Hx.
  destruct Heq as (lo & hi & Hlo & Hhi & Hrlo & Hrhi & Heq).
  unfold makeSensor, ADD_SENSOR_CHECKS.
  rewrite checkFlatReq_accepts.
  - eexists. split; [reflexivity|]. simpl.
    now rewrite (lookup_total_Some _ _ _ Hlo), (lookup_total_Some _ _ _ Hhi).
  - intros id info Hin. simpl in Hin.
    repeat (destruct Hin as [[= <- <-]|Hin]; [resolve_field Hp|]).
    destruct Hin.
  - intros c [<-|[]]. exact Hx.
Qed.

(** C9.  The cross-field range check accepts equality: when the other
    fields of an add request are valid and [min] and [max] are number
    literals of the same value, the check raises no error, validation
    succeeds, and [addSensorType] succeeds with limits whose [min]
    equals their [max]; the same holds for the expected range built by
    the sensor constructor.  The message of the check nevertheless
    reads "must be less than". *)
Theorem rangeChk_accepts_equality :
  (forall req,
      present req ["id"; "manufacturer"; "modelNumber"; "quantity"; "unit"] ->
      equalPair req "min" "max" ->
      xchk (rangeChk "min" "max") req = None
      /\ exists t,
           makeSensorType req = okResult t
           /\ JS.eqb (Range.min (SensorType.limits t))
                     (Range.max (SensorType.limits t)) = true
           /\ forall this, (Prj1.addSensorType this req).1 = okResult [t])
  /\ (forall req period,
         present req ["id"; "sensorTypeId"] ->
         req !! "period" = Some period -> INTEGER_RE period = true ->
         equalPair req "min" "max" ->
         exists s,
           makeSensor req = okResult s
           /\ JS.eqb (Range.min (Sensor.expected s))
                     (Range.max (Sensor.expected s)) = true)
  /\ (exists before after,
         rangeChk_msg = before ++ "must be less than" ++ after).
Proof.
  split; [|split].
  - intros req Hp Heq. split; [now apply rangeChk_accepts_equal|].
    destruct (makeSensorType_equal_bounds req Hp Heq) as (t & Hmk & Hlim).
    exists t. split; [assumption|]. split; [assumption|].
    intros this. unfold Prj1.addSensorType. now rewrite Hmk.
  - intros req period. apply makeSensor_equal_bounds.
  - exists ("The value of " ++ dq ++ "$[0]" ++ dq ++ " "),
           (" that of " ++ dq ++ "$[1]" ++ dq).
    reflexivity.
Qed.

Lemma rangeChk_accepts_equality_witness :
  equalPair (<[ "min" := "100.0" ]> SENSOR_TYPE1) "min" "max"
  /\ (Prj1.addSensorType Prj1.new (<[ "min" := "100.0" ]> SENSOR_TYPE1)).1
     = okResult [SensorType.mk "hw123" "honeywell" "123" "pressure" "PSI"
                   (Range.mk (JS.of_Z 100) (JS.of_Z 100))].
Proof.
  assert (Hp : present (<[ "min" := "100.0" ]> SENSOR_TYPE1)
                 ["id"; "manufacturer"; "modelNumber"; "quantity"; "unit"]).
  { repeat (apply List.Forall_cons; [eexists; vm_compute; reflexivity|]).
    apply List.Forall_nil. }
  assert (Heq : equalPair (<[ "min" := "100.0" ]> SENSOR_TYPE1) "min" "max").
  { exists "100.0", "100". repeat split; vm_compute; reflexivity. }
  split; [exact Heq|].
  destruct (proj1 rangeChk_accepts_equality _ Hp Heq) as (_ & t & Hmk & _ & Hadd).
  rewrite Hadd. vm_compute in Hmk. injection Hmk as <-. reflexivity.
Defined.

End Claims.

(** * Further properties of the code *)

(** ** Numbers and literals, continued *)

Module NumFacts.
Import Validators ParseFacts.

Lemma le_trans a b c :
  JS.le a b = true -> JS.le b c = true -> JS.le a c = true.
Proof.
  destruct a, b, c; simpl; try discriminate; try reflexivity.
  intros H1 H2. apply Qle_bool_iff in H1, H2. apply Qle_bool_iff.
  eapply Qle_trans; eassumption.
Qed.

Lemma eqb_trans a b c :
  JS.eqb a b = true -> JS.eqb b c = true -> JS.eqb a c = true.
Proof.
  destruct a, b, c; simpl; try discriminate; try reflexivity.
  intros H1 H2. apply Qeq_bool_iff in H1, H2. apply Qeq_bool_iff.
  now rewrite H1.
Qed.

Lemma eqb_refl_finite a : Spec.finite a -> JS.eqb a a = true.
Proof. intros [q ->]. simpl. apply Qeq_bool_iff. reflexivity. Qed.

(** On finite numbers [<] and [<=] are each other's negation. *)
Lemma lt_false_le a b :
  Spec.finite a -> Spec.finite b ->
  negb (JS.lt a b) = JS.le b a.
Proof. intros [x ->] [y ->]. simpl. apply negb_involutive. Qed.

Lemma le_NegInf a : Spec.finite a -> JS.le JS.NegInf a = true.
Proof. now intros [x ->]. Qed.

Lemma le_PosInf a : Spec.finite a -> JS.le a JS.PosInf = true.
Proof. now intros [x ->]. Qed.

Lemma digit_val_nonneg c : JS.is_digit c = true -> (0 <= JS.digit_val c)%Z.
Proof.
  unfold JS.is_digit, JS.digit_val. intros H.
  apply andb_true_iff in H as [H _]. apply N.leb_le in H. lia.
Qed.

Lemma digits_val_nonneg s acc :
  JS.all_digits s = true -> (0 <= acc)%Z -> (0 <= JS.digits_val acc s)%Z.
Proof.
  revert acc. induction s as [|c r IH]; simpl; intros acc H Hacc; [assumption|].
  apply andb_true_iff in H as [Hc Hr]. apply IH; [assumption|].
  pose proof (digit_val_nonneg c Hc). lia.
Qed.

(** A string accepted by [INTEGER_CHK] denotes a natural number, and
    [parseInt] reads the same number off it. *)
Lemma INTEGER_RE_nat s :
  INTEGER_RE s = true ->
  exists n : nat, JS.Number s = Spec.ofNat n /\ JS.parseInt s = Spec.ofNat n.
Proof.
  destruct s as [|c r]; [discriminate|]. unfold INTEGER_RE.
  intros H. pose proof H as H'. simpl in H'.
  apply andb_true_iff in H' as [Hc _].
  exists (Z.to_nat (JS.digits_val 0 (String c r))).
  unfold JS.Number, JS.parse_decimal, JS.parseInt.
  rewrite (strip_sign_digit _ _ Hc), (span_digits_all _ H).
  unfold Spec.ofNat, JS.of_Z, JS.signed.
  rewrite Z2Nat.id by (apply digits_val_nonneg; [assumption|lia]).
  split; reflexivity.
Qed.

Lemma NUMBER_RE_parseInt s :
  NUMBER_RE s = true -> Spec.finite (JS.parseInt s).
Proof.
  unfold NUMBER_RE, JS.parseInt.
  destruct (JS.strip_sign s) as [neg body].
  destruct (JS.span_digits body) as [ip rest].
  destruct ip as [|c ip]; [discriminate|]. intros _. eexists. reflexivity.
Qed.

Lemma NUMBER_RE_truthy s : NUMBER_RE s = true -> Dyn.str_truthy s = true.
Proof. destruct s; [discriminate|reflexivity]. Qed.

Lemma INTEGER_RE_NUMBER_RE s : INTEGER_RE s = true -> NUMBER_RE s = true.
Proof.
  destruct s as [|c r]; [discriminate|]. unfold INTEGER_RE, NUMBER_RE.
  intros H. pose proof H as H'. simpl in H'.
  apply andb_true_iff in H' as [Hc _].
  rewrite (strip_sign_digit _ _ Hc), (span_digits_all _ H). reflexivity.
Qed.

Lemma In_sort {A : Type} (cmp : A -> A -> JS.number) x l :
  In x (JS.sort cmp l) <-> In x l.
Proof.
  split; intros H.
  - eapply Permutation_in; [apply JSFacts.sort_Permutation|exact H].
  - eapply Permutation_in;
      [apply Permutation_sym, JSFacts.sort_Permutation|exact H].
Qed.

End NumFacts.

(** ** Entities that passed validation *)

Module ValidFacts.
Import Errors Checkers Validators Spec CheckerFacts ParseFacts ValidatorFacts
       AcceptFacts NumFacts.

(** After a successful check no cross-field check over declared fields
    objects. *)
Lemma checkFlatReq_ok_cross req checks val c :
  checkFlatReq req checks = okResult val ->
  In c (chks checks) ->
  (forall id, In id (fieldIds c) -> exists info, In (id, info) (fields checks)) ->
  xchk c req = None.
Proof.
  intros Hok Hin Hdecl. apply checkFlatReq_ok in Hok as (Hf & Hc & _).
  destruct (xchk c req) as [[msg cd]|] eqn:Hx; [exfalso|reflexivity].
  assert (Hres : forallb (resolved (outcomes req (fields checks))) (fieldIds c)
                 = true).
  { apply forallb_forall. intros id Hid. destruct (Hdecl id Hid) as [info Hinfo].
    destruct (fieldErrors_nil_resolved _ _ _ Hf (In_outcomes req _ _ _ Hinfo))
      as [v Hv].
    exact (resolved_In req _ id info v Hinfo Hv). }
  pose proof (In_crossErrors req _ _ c msg cd Hin Hres Hx) as H.
  rewrite Hc in H. destruct H.
Qed.

Lemma rangeChk_passed req minId maxId lo hi :
  xchk (rangeChk minId maxId) req = None ->
  req !! minId = Some lo -> req !! maxId = Some hi ->
  JS.le (JS.Number lo) (JS.Number hi) = true.
Proof.
  simpl. intros H Hlo Hhi. rewrite Hlo, Hhi in H. simpl in H.
  destruct (JS.le (JS.Number lo) (JS.Number hi)); [reflexivity|discriminate].
Qed.

Lemma makeSensorType_ok req t :
  makeSensorType req = okResult t ->
  exists lo hi,
    req !! "min" = Some lo /\ req !! "max" = Some hi
    /\ NUMBER_RE lo = true /\ NUMBER_RE hi = true
    /\ JS.le (JS.Number lo) (JS.Number hi) = true
    /\ t = SensorType.mk (req !!! "id") (req !!! "manufacturer")
             (req !!! "modelNumber") (req !!! "quantity") (req !!! "unit")
             (Range.mk (JS.Number lo) (JS.Number hi)).
Proof.
  unfold makeSensorType.
  destruct (checkFlatReq req ADD_SENSOR_TYPE_CHECKS) as [val|] eqn:E;
    [|discriminate].
  intros [= <-].
  destruct (checkFlatReq_ok_field _ _ _ "min" (checked NUMBER_CHK) E)
    as (lo & Hlo & Hrlo); [simpl; tauto|reflexivity|].
  destruct (checkFlatReq_ok_field _ _ _ "max" (checked NUMBER_CHK) E)
    as (hi & Hhi & Hrhi); [simpl; tauto|reflexivity|].
  assert (Hx : xchk (rangeChk "min" "max") req = None).
  { apply (checkFlatReq_ok_cross _ _ _ _ E); [simpl; tauto|].
    intros id [<-|[<-|[]]]; eexists; simpl; eauto 10. }
  exists lo, hi.
  rewrite (lookup_total_Some _ _ _ Hlo), (lookup_total_Some _ _ _ Hhi).
  repeat split; try assumption.
  - now apply (Hrlo NUMBER_CHK).
  - now apply (Hrhi NUMBER_CHK).
  - exact (rangeChk_passed _ _ _ _ _ Hx Hlo Hhi).
Qed.

Lemma makeSensor_ok req s :
  makeSensor req = okResult s ->
  exists period lo hi,
    req !! "period" = Some period
    /\ req !! "min" = Some lo /\ req !! "max" = Some hi
    /\ INTEGER_RE period = true
    /\ NUMBER_RE lo = true /\ NUMBER_RE hi = true
    /\ JS.le (JS.Number lo) (JS.Number hi) = true
    /\ s = Sensor.mk (req !!! "id") (req !!! "sensorTypeId")
             (JS.Number period) (Range.mk (JS.Number lo) (JS.Number hi)).
Proof.
  unfold makeSensor.
  destruct (checkFlatReq req ADD_SENSOR_CHECKS) as [val|] eqn:E;
    [|discriminate].
  intros [= <-].
  destruct (checkFlatReq_ok_field _ _ _ "period" (checked INTEGER_CHK) E)
    as (p & Hp & Hrp); [simpl; tauto|reflexivity|].
  destruct (checkFlatReq_ok_field _ _ _ "min" (named "min expected" NUMBER_CHK) E)
    as (lo & Hlo & Hrlo); [simpl; tauto|reflexivity|].
  destruct (checkFlatReq_ok_field _ _ _ "max" (named "max expected" NUMBER_CHK) E)
    as (hi & Hhi & Hrhi); [simpl; tauto|reflexivity|].
  assert (Hx : xchk (rangeChk "min" "max") req = None).
  { apply (checkFlatReq_ok_cross _ _ _ _ E); [simpl; tauto|].
    intros id [<-|[<-|[]]]; eexists; simpl; eauto 10. }
  exists p, lo, hi.
  rewrite (lookup_total_Some _ _ _ Hp), (lookup_total_Some _ _ _ Hlo),
    (lookup_total_Some _ _ _ Hhi).
  repeat split; try assumption.
  - now apply (Hrp INTEGER_CHK).
  - now apply (Hrlo NUMBER_CHK).
  - now apply (Hrhi NUMBER_CHK).
  - exact (rangeChk_passed _ _ _ _ _ Hx Hlo Hhi).
Qed.

Lemma makeSensorReading_value_finite req r :
  makeSensorReading req = okResult r -> finite (SensorReading.value r).
Proof.
  intros H. apply makeSensorReading_ok in H as (ts & v & _ & _ & _ & Hre & ->).
  simpl. now apply NUMBER_RE_Number.
Qed.

End ValidFacts.

(** ** Ranges and validated entities *)

Module Entities.
Import Errors Checkers Validators Spec Data NumFacts ValidFacts ValidatorFacts
       ParseFacts.

(** X1.  A range inside another ([isSubrange]) holds only values the
    other holds too ([isWithin]), and being inside is transitive. *)
Theorem range_subrange_within (r s : Range.t) :
  Range.isSubrange r s = true ->
  (forall val, Range.isWithin r val = true -> Range.isWithin s val = true)
  /\ (forall u, Range.isSubrange s u = true -> Range.isSubrange r u = true).
Proof.
  unfold Range.isSubrange, Range.isWithin. intros H.
  apply andb_true_iff in H as [H1 H2]. split.
  - intros val Hv. apply andb_true_iff in Hv as [Hv1 Hv2].
    apply andb_true_iff. split; eauto using le_trans.
  - intros u Hu. apply andb_true_iff in Hu as [Hu1 Hu2].
    apply andb_true_iff. split; eauto using le_trans.
Qed.

Lemma range_subrange_within_witness :
  Range.isSubrange (Sensor.expected SENSOR1_VAL)
                   (SensorType.limits SENSOR_TYPE1_VAL) = true
  /\ Range.isWithin (SensorType.limits SENSOR_TYPE1_VAL) (JS.of_Z 20) = true.
Proof.
  assert (H : Range.isSubrange (Sensor.expected SENSOR1_VAL)
                               (SensorType.limits SENSOR_TYPE1_VAL) = true)
    by reflexivity.
  split; [exact H|].
  apply (proj1 (range_subrange_within _ _ H)). reflexivity.
Defined.



End Entities.

(** ** Invariants of the in-memory store *)

Module Prj1Inv.
Import Errors Checkers Validators Dyn Prj1 Spec Inv ValidatorFacts Prj1Facts
       NumFacts ValidFacts.

(** *** Entities found in a dictionary *)

Lemma get_Entity {V : Type} (field : V -> string -> value) own proto k v :
  Obj.get field own proto k = Obj.Entity v <->
  own !! k = Some v \/ (own !! k = None /\ k = "__proto__" /\ proto = Some v).
Proof.
  unfold Obj.get. destruct (own !! k) as [x|].
  - split; [intros [= ->]; now left|].
    intros [[= ->]|[[=] _]]. reflexivity.
  - destruct proto as [p|].
    + destruct (String.eqb_spec k "__proto__") as [->|Hne].
      * split; [intros [= ->]; right; auto|].
        intros [[=]|(_ & _ & [= ->])]. reflexivity.
      * split; [discriminate|]. intros [[=]|(_ & Hk & _)]. contradiction.
    + split; [discriminate|]. intros [[=]|(_ & _ & [=])].
Qed.

Lemma set_cases {V : Type} (own : gmap string V) proto k v :
  Obj.set own proto k v = (<[k := v]> own, proto)
  \/ (k = "__proto__" /\ own !! k = None /\ Obj.set own proto k v = (own, Some v)).
Proof.
  unfold Obj.set. destruct (own !! k); [now left|].
  destruct (String.eqb_spec k "__proto__") as [->|Hne]; [right; auto|now left].
Qed.

(** An assignment leaves an entity wherever one was found. *)
Lemma set_keeps_Entity {V : Type} (field : V -> string -> value) own proto k v
    k' x :
  Obj.get field own proto k' = Obj.Entity x ->
  exists x', Obj.get field (Obj.set own proto k v).1 (Obj.set own proto k v).2 k'
             = Obj.Entity x'.
Proof.
  intros H. apply get_Entity in H.
  destruct (set_cases own proto k v) as [->|(-> & Hnone & ->)]; simpl.
  - destruct (decide (k = k')) as [<-|Hne].
    + exists v. apply get_Entity. left. apply lookup_insert_eq.
    + exists x. apply get_Entity. rewrite lookup_insert_ne by assumption.
      exact H.
  - destruct H as [H|(H1 & -> & H2)].
    + exists x. apply get_Entity. now left.
    + exists v. apply get_Entity. right. auto.
Qed.

(** After the assignment the key finds the value assigned. *)
Lemma set_get {V : Type} (field : V -> string -> value) own proto k v :
  Obj.get field (Obj.set own proto k v).1 (Obj.set own proto k v).2 k
  = Obj.Entity v.
Proof.
  apply get_Entity.
  destruct (set_cases own proto k v) as [->|(-> & Hnone & ->)]; simpl.
  - left. apply lookup_insert_eq.
  - right. auto.
Qed.

(** *** What an add leaves behind *)

Lemma addSensorType_cases this req :
  (addSensorType this req).2 = this
  \/ exists t,
       makeSensorType req = okResult t
       /\ (addSensorType this req).2 = setSensorType this t.
Proof.
  unfold addSensorType. destruct (makeSensorType req) as [t|es]; simpl; eauto.
Qed.

Lemma addSensor_written this req :
  (addSensor this req).2 = this
  \/ exists s sensorType,
       makeSensor req = okResult s
       /\ sensorTypeAt this (Sensor.sensorTypeId s) = Obj.Entity sensorType
       /\ (addSensor this req).2 = setSensor this s.
Proof.
  destruct (makeSensor req) as [s|es] eqn:E.
  - destruct (addSensor_cases this req s E) as [H|(ty & Hty & _ & H)];
      [now left|].
    right. exists s, ty. rewrite H. auto.
  - left. unfold addSensor. now rewrite E.
Qed.

(** A reading is written to a list found as an own property, or under a
    name that [Object.prototype] does not have. *)
Lemma addSensorReading_cases this req :
  (addSensorReading this req).2 = this
  \/ exists r,
       makeSensorReading req = okResult r
       /\ Obj.truthy (sensorAt this (SensorReading.sensorId r)) = true
       /\ (is_Some (sensorReadings this !! SensorReading.sensorId r)
           \/ Obj.inherited (SensorReading.sensorId r) = false)
       /\ (addSensorReading this req).2
          = mkInfo (sensorTypes this) (sensors this)
              (<[SensorReading.sensorId r :=
                   updated r (sensorReadings this !! SensorReading.sensorId r)]>
                 (sensorReadings this))
              (sensorTypesProto this) (sensorsProto this).
Proof.
  unfold addSensorReading. destruct (makeSensorReading req) as [r|es]; simpl;
    [|eauto].
  destruct (Obj.truthy (sensorAt this (SensorReading.sensorId r))) eqn:Et;
    simpl; [|eauto].
  unfold sensorReadingsAt, Obj.get.
  destruct (sensorReadings this !! SensorReading.sensorId r) as [rs|] eqn:Ers.
  - right. exists r. simpl. split; [reflexivity|]. split; [assumption|].
    split; [eauto|]. now rewrite Ers.
  - rewrite truthy_fromObjectPrototype.
    destruct (Obj.inherited (SensorReading.sensorId r)) eqn:Ei; simpl; [eauto|].
    right. exists r. simpl. split; [reflexivity|]. split; [assumption|].
    split; [eauto|]. now rewrite Ers.
Qed.

Lemma updated_Forall (P : SensorReading.t -> Prop) r old :
  P r -> from_option (Forall P) True old -> Forall P (updated r old).
Proof.
  intros Hr Hold. unfold updated. destruct old as [rs|]; simpl in *.
  - destruct (JS.findIndex _ rs) as [j|].
    + now apply Forall_insert.
    + apply Forall_app. split; [assumption|]. now apply List.Forall_cons.
  - now apply List.Forall_cons.
Qed.

Lemma updated_distinct r old :
  from_option distinctTimestamps True old -> distinctTimestamps (updated r old).
Proof.
  unfold updated. destruct old as [rs|]; simpl.
  - intros Hrs. destruct (JS.findIndex (sameTimestamp r) rs) as [k|] eqn:Ek.
    + destruct (findIndex_Some _ _ _ Ek) as (z & Hz & Hzr).
      unfold sameTimestamp in Hzr.
      assert (Hk : (k < length rs)%nat) by (eapply lookup_lt_Some; eauto).
      intros i j x y Hx Hy Hij.
      destruct (decide (i = k)) as [->|Hik].
      * rewrite list_lookup_insert_eq in Hx by assumption.
        injection Hx as <-.
        rewrite list_lookup_insert_ne in Hy by congruence.
        destruct (JS.eqb (SensorReading.timestamp r) (SensorReading.timestamp y))
          eqn:E; [|reflexivity].
        rewrite <- (Hrs k j z y Hz Hy Hij). symmetry.
        exact (eqb_trans _ _ _ Hzr E).
      * rewrite list_lookup_insert_ne in Hx by congruence.
        destruct (decide (j = k)) as [->|Hjk].
        -- rewrite list_lookup_insert_eq in Hy by assumption.
           injection Hy as <-.
           destruct (JS.eqb (SensorReading.timestamp x) (SensorReading.timestamp r))
             eqn:E; [|reflexivity].
           rewrite <- (Hrs i k x z Hx Hz Hij). symmetry.
           rewrite JSFacts.eqb_sym in Hzr.
           exact (eqb_trans _ _ _ E Hzr).
        -- rewrite list_lookup_insert_ne in Hy by congruence.
           exact (Hrs i j x y Hx Hy Hij).
    + pose proof (findIndex_None _ _ Ek) as Hnone. unfold sameTimestamp in Hnone.
      intros i j x y Hx Hy Hij.
      apply lookup_app_Some in Hx as [Hx|[Hi Hx]];
        apply lookup_app_Some in Hy as [Hy|[Hj Hy]].
      * exact (Hrs i j x y Hx Hy Hij).
      * apply list_lookup_singleton_Some in Hy as [_ <-].
        apply Hnone. eapply list_elem_of_lookup_2; eauto.
      * apply list_lookup_singleton_Some in Hx as [_ <-].
        rewrite JSFacts.eqb_sym.
        apply Hnone. eapply list_elem_of_lookup_2; eauto.
      * apply list_lookup_singleton_Some in Hx as [Hx _].
        apply list_lookup_singleton_Some in Hy as [Hy _]. lia.
  - intros _ i j x y Hx Hy Hij.
    apply list_lookup_singleton_Some in Hx as [-> _].
    apply list_lookup_singleton_Some in Hy as [-> _]. congruence.
Qed.

(** *** A property of the readings alone holds in every state reached
        once every write to them keeps it *)

Lemma reachable_readings (P : gmap string (list SensorReading.t) -> Prop) :
  P ∅ ->
  (forall this req r,
      P (sensorReadings this) ->
      makeSensorReading req = okResult r ->
      is_Some (sensorReadings this !! SensorReading.sensorId r)
      \/ Obj.inherited (SensorReading.sensorId r) = false ->
      P (<[SensorReading.sensorId r :=
             updated r (sensorReadings this !! SensorReading.sensorId r)]>
           (sensorReadings this))) ->
  forall this, reachable this -> P (sensorReadings this).
Proof.
  intros Hnew Hadd this.
  induction 1 as [|this _ _|this req _ IH|this req _ IH|this req _ IH].
  - exact Hnew.
  - exact Hnew.
  - destruct (addSensorType_cases this req) as [->|(t & _ & ->)]; exact IH.
  - destruct (addSensor_written this req) as [->|(s & ty & _ & _ & ->)]; exact IH.
  - destruct (addSensorReading_cases this req)
      as [->|(r & Hmk & _ & Hk & ->)]; [exact IH|].
    simpl. now apply (Hadd this req r).
Qed.

Lemma reachable_keyedById this : reachable this -> keyedById this.
Proof.
  intros Hreach. split; [|split].
  - induction Hreach as [|this _ _|this req _ IH|this req _ IH|this req _ IH].
    + intros k x Hx. simpl in Hx. now rewrite lookup_empty in Hx.
    + intros k x Hx. simpl in Hx. now rewrite lookup_empty in Hx.
    + destruct (addSensorType_cases this req) as [->|(t & _ & ->)];
        [assumption|].
      unfold setSensorType.
      destruct (set_cases (sensorTypes this) (sensorTypesProto this)
                  (SensorType.id t) t) as [->|(_ & _ & ->)]; simpl;
        [|assumption].
      intros k x Hx. destruct (decide (SensorType.id t = k)) as [<-|Hne].
      * rewrite lookup_insert_eq in Hx. now injection Hx as <-.
      * rewrite lookup_insert_ne in Hx by assumption. eauto.
    + destruct (addSensor_written this req) as [->|(s & ty & _ & _ & ->)];
        assumption.
    + destruct (addSensorReading_cases this req) as [->|(r & _ & _ & _ & ->)];
        assumption.
  - induction Hreach as [|this _ _|this req _ IH|this req _ IH|this req _ IH].
    + intros k x Hx. simpl in Hx. now rewrite lookup_empty in Hx.
    + intros k x Hx. simpl in Hx. now rewrite lookup_empty in Hx.
    + destruct (addSensorType_cases this req) as [->|(t & _ & ->)];
        assumption.
    + destruct (addSensor_written this req) as [->|(s & ty & _ & _ & ->)];
        [assumption|].
      unfold setSensor.
      destruct (set_cases (sensors this) (sensorsProto this) (Sensor.id s) s)
        as [->|(_ & _ & ->)]; simpl; [|assumption].
      intros k x Hx. destruct (decide (Sensor.id s = k)) as [<-|Hne].
      * rewrite lookup_insert_eq in Hx. now injection Hx as <-.
      * rewrite lookup_insert_ne in Hx by assumption. eauto.
    + destruct (addSensorReading_cases this req) as [->|(r & _ & _ & _ & ->)];
        assumption.
  - apply (reachable_readings
             (fun m => forall k rs, m !! k = Some rs ->
                         Forall (fun r => SensorReading.sensorId r = k) rs));
      [| |exact Hreach].
    + intros k rs Hrs. now rewrite lookup_empty in Hrs.
    + intros st req r IH _ _ k rs Hrs.
      destruct (decide (SensorReading.sensorId r = k)) as [<-|Hne].
      * rewrite lookup_insert_eq in Hrs. injection Hrs as <-.
        apply updated_Forall; [reflexivity|].
        destruct (sensorReadings st !! SensorReading.sensorId r) eqn:E; simpl;
          eauto.
      * rewrite lookup_insert_ne in Hrs by assumption. eauto.
Qed.

Lemma reachable_protoKeyed this : reachable this -> protoKeyed this.
Proof.
  intros Hreach. unfold protoKeyed.
  assert (Hr : forall k, Obj.inherited k = true -> sensorReadings this !! k = None).
  { apply (reachable_readings
             (fun m => forall k, Obj.inherited k = true -> m !! k = None));
      [| |exact Hreach].
    - intros k _. apply lookup_empty.
    - intros st req r IH _ Hk k Hin.
      destruct (decide (SensorReading.sensorId r = k)) as [<-|Hne].
      + destruct Hk as [[rs Hrs]|Hk]; [|congruence].
        rewrite (IH _ Hin) in Hrs. discriminate.
      + rewrite lookup_insert_ne by assumption. now apply IH. }
  assert (Ht : sensorTypes this !! "__proto__" = None
               /\ forall t, sensorTypesProto this = Some t ->
                            SensorType.id t = "__proto__").
  { clear Hr.
    induction Hreach as [|this _ _|this req _ IH|this req _ IH|this req _ IH].
    - split; [apply lookup_empty|discriminate].
    - split; [apply lookup_empty|discriminate].
    - destruct (addSensorType_cases this req) as [->|(t & _ & ->)];
        [assumption|].
      destruct IH as [IH1 IH2]. unfold setSensorType.
      destruct (set_cases (sensorTypes this) (sensorTypesProto this)
                  (SensorType.id t) t) as [E|(Hid & Hnone & E)].
      + rewrite E. simpl. split; [|assumption].
        destruct (decide (SensorType.id t = "__proto__")) as [Heq|Hne].
        * exfalso. revert E. unfold Obj.set. rewrite Heq, IH1. simpl.
          intros [= E _]. apply (f_equal (fun m => m !! "__proto__")) in E.
          rewrite lookup_insert_eq, IH1 in E. discriminate.
        * now rewrite lookup_insert_ne.
      + rewrite E. simpl. split; [assumption|]. now intros x [= <-].
    - destruct (addSensor_written this req) as [->|(s & ty & _ & _ & ->)];
        assumption.
    - destruct (addSensorReading_cases this req) as [->|(r & _ & _ & _ & ->)];
        assumption. }
  assert (Hs : sensors this !! "__proto__" = None
               /\ forall s, sensorsProto this = Some s ->
                            Sensor.id s = "__proto__").
  { clear Hr Ht.
    induction Hreach as [|this _ _|this req _ IH|this req _ IH|this req _ IH].
    - split; [apply lookup_empty|discriminate].
    - split; [apply lookup_empty|discriminate].
    - destruct (addSensorType_cases this req) as [->|(t & _ & ->)];
        assumption.
    - destruct (addSensor_written this req) as [->|(s & ty & _ & _ & ->)];
        [assumption|].
      destruct IH as [IH1 IH2]. unfold setSensor.
      destruct (set_cases (sensors this) (sensorsProto this) (Sensor.id s) s)
        as [E|(Hid & Hnone & E)].
      + rewrite E. simpl. split; [|assumption].
        destruct (decide (Sensor.id s = "__proto__")) as [Heq|Hne].
        * exfalso. revert E. unfold Obj.set. rewrite Heq, IH1. simpl.
          intros [= E _]. apply (f_equal (fun m => m !! "__proto__")) in E.
          rewrite lookup_insert_eq, IH1 in E. discriminate.
        * now rewrite lookup_insert_ne.
      + rewrite E. simpl. split; [assumption|]. now intros x [= <-].
    - destruct (addSensorReading_cases this req) as [->|(r & _ & _ & _ & ->)];
        assumption. }
  tauto.
Qed.

Lemma reachable_sensorsHaveType this : reachable this -> sensorsHaveType this.
Proof.
  induction 1 as [|this _ _|this req _ IH|this req _ IH|this req _ IH].
  - intros s [[k Hs]|Hs]; simpl in Hs; [now rewrite lookup_empty in Hs|].
    discriminate.
  - intros s [[k Hs]|Hs]; simpl in Hs; [now rewrite lookup_empty in Hs|].
    discriminate.
  - destruct (addSensorType_cases this req) as [->|(t & _ & ->)]; [assumption|].
    intros s Hs. destruct (IH s Hs) as [ty Hty].
    exact (set_keeps_Entity _ _ _ (SensorType.id t) t _ _ Hty).
  - destruct (addSensor_written this req) as [->|(s & ty & _ & Hty & ->)];
      [assumption|].
    intros x Hx.
    assert (Hcase : x = s \/ holdsSensor this x).
    { destruct Hx as [[k Hk]|Hp]; revert Hk || revert Hp;
        unfold setSensor;
        destruct (set_cases (sensors this) (sensorsProto this) (Sensor.id s) s)
          as [->|(_ & _ & ->)]; simpl.
      - destruct (decide (Sensor.id s = k)) as [<-|Hne].
        + rewrite lookup_insert_eq. intros [= <-]. now left.
        + rewrite lookup_insert_ne by assumption. intros Hk. right. left. eauto.
      - intros Hk. right. left. eauto.
      - intros Hp. right. now right.
      - intros [= <-]. now left. }
    destruct Hcase as [->|Hold]; [eauto|]. exact (IH x Hold).
  - destruct (addSensorReading_cases this req) as [->|(r & _ & _ & _ & ->)];
      assumption.
Qed.

Lemma reachable_distinctTimestamps this :
  reachable this ->
  forall k rs, sensorReadings this !! k = Some rs -> distinctTimestamps rs.
Proof.
  intros Hreach.
  apply (reachable_readings
           (fun m => forall k rs, m !! k = Some rs -> distinctTimestamps rs));
    [| |exact Hreach].
  - intros k rs Hrs. now rewrite lookup_empty in Hrs.
  - intros st req r IH _ _ k rs Hrs.
    destruct (decide (SensorReading.sensorId r = k)) as [<-|Hne].
    + rewrite lookup_insert_eq in Hrs. injection Hrs as <-.
      apply updated_distinct.
      destruct (sensorReadings st !! SensorReading.sensorId r) eqn:E; simpl;
        eauto.
    + rewrite lookup_insert_ne in Hrs by assumption. eauto.
Qed.

Lemma reachable_finiteValues this : reachable this -> finiteValues this.
Proof.
  intros Hreach. unfold finiteValues.
  apply (reachable_readings
           (fun m => forall k rs, m !! k = Some rs ->
                       Forall (fun r => Spec.finite (SensorReading.value r)) rs));
    [| |exact Hreach].
  - intros k rs Hrs. now rewrite lookup_empty in Hrs.
  - intros st req r IH Hmk _ k rs Hrs.
    destruct (decide (SensorReading.sensorId r = k)) as [<-|Hne].
    + rewrite lookup_insert_eq in Hrs. injection Hrs as <-.
      apply updated_Forall; [now apply (makeSensorReading_value_finite req)|].
      destruct (sensorReadings st !! SensorReading.sensorId r) eqn:E; simpl;
        eauto.
    + rewrite lookup_insert_ne in Hrs by assumption. eauto.
Qed.

End Prj1Inv.

(** ** Searches and bulk adds of the in-memory store *)

Module Prj1Search.
Import Errors Checkers Validators Dyn Prj1 Spec Inv CheckerFacts ValidatorFacts
       Prj1Facts FilterFacts Prj3Facts NumFacts ValidFacts Prj1Inv.

Lemma values_empty {V : Type} : values (∅ : gmap string V) = [].
Proof. unfold values. now rewrite map_to_list_empty. Qed.

Lemma belowBound_le bound x :
  finite x -> (forall s, bound = Some s -> NUMBER_RE s = true) ->
  negb (belowBound bound x) = JS.le (lowerBound bound) x.
Proof.
  intros Hx Hb. destruct bound as [s|]; simpl.
  - rewrite (NUMBER_RE_truthy s) by auto. simpl.
    apply lt_false_le; [assumption|]. apply NUMBER_RE_parseInt. auto.
  - symmetry. now apply le_NegInf.
Qed.

Lemma aboveBound_le bound x :
  finite x -> (forall s, bound = Some s -> NUMBER_RE s = true) ->
  negb (aboveBound bound x) = JS.le x (upperBound bound).
Proof.
  intros Hx Hb. destruct bound as [s|]; simpl.
  - rewrite (NUMBER_RE_truthy s) by auto. simpl. unfold JS.gt.
    apply lt_false_le; [|assumption]. apply NUMBER_RE_parseInt. auto.
  - symmetry. now apply le_PosInf.
Qed.

Lemma lowerBound_integer bound :
  (forall s, bound = Some s -> INTEGER_RE s = true) ->
  lowerBound bound = JS.NumberOr bound JS.NegInf.
Proof.
  intros Hb. destruct bound as [s|]; [|reflexivity]. simpl.
  destruct (INTEGER_RE_nat s) as (n & -> & ->); auto.
Qed.

Lemma upperBound_integer bound :
  (forall s, bound = Some s -> INTEGER_RE s = true) ->
  upperBound bound = JS.NumberOr bound JS.PosInf.
Proof.
  intros Hb. destruct bound as [s|]; [|reflexivity]. simpl.
  destruct (INTEGER_RE_nat s) as (n & -> & ->); auto.
Qed.

(** What the validation of a readings search establishes. *)
Lemma validate_findSensorReadings req filterReq :
  validateFindCommand Validators.findSensorReadings req = okResult filterReq ->
  (forall f, In f ["sensorId"; "minTimestamp"; "maxTimestamp"; "minValue";
                   "maxValue"] -> filterReq !! f = req !! f)
  /\ (forall s, req !! "minTimestamp" = Some s -> INTEGER_RE s = true)
  /\ (forall s, req !! "maxTimestamp" = Some s -> INTEGER_RE s = true)
  /\ (forall s, req !! "minValue" = Some s -> NUMBER_RE s = true)
  /\ (forall s, req !! "maxValue" = Some s -> NUMBER_RE s = true).
Proof.
  unfold validateFindCommand. intros E. split.
  - pose proof E as E'. apply checkFlatReq_ok in E' as (Hf & _ & ->).
    intros f Hin. apply checkedVal_declared; [assumption| |exact Hin].
    apply optional_defaults.
    repeat (apply List.Forall_cons; [simpl; tauto|]). apply List.Forall_nil.
  - repeat split; intros s Hs.
    + apply (checkFlatReq_ok_present _ _ _ "minTimestamp"
               (optional_checked INTEGER_CHK) s INTEGER_CHK E);
        [simpl; tauto|assumption|reflexivity].
    + apply (checkFlatReq_ok_present _ _ _ "maxTimestamp"
               (optional_checked INTEGER_CHK) s INTEGER_CHK E);
        [simpl; tauto|assumption|reflexivity].
    + apply (checkFlatReq_ok_present _ _ _ "minValue"
               (optional_checked NUMBER_CHK) s NUMBER_CHK E);
        [simpl; tauto|assumption|reflexivity].
    + apply (checkFlatReq_ok_present _ _ _ "maxValue"
               (optional_checked NUMBER_CHK) s NUMBER_CHK E);
        [simpl; tauto|assumption|reflexivity].
Qed.

Lemma keepReading_bounds req filterReq r :
  validateFindCommand Validators.findSensorReadings req = okResult filterReq ->
  finite (SensorReading.timestamp r) -> finite (SensorReading.value r) ->
  keepReading filterReq r =
    JS.le (JS.NumberOr (req !! "minTimestamp") JS.NegInf) (SensorReading.timestamp r)
    && JS.le (SensorReading.timestamp r) (JS.NumberOr (req !! "maxTimestamp") JS.PosInf)
    && JS.le (lowerBound (req !! "minValue")) (SensorReading.value r)
    && JS.le (SensorReading.value r) (upperBound (req !! "maxValue")).
Proof.
  intros E Hts Hv.
  destruct (validate_findSensorReadings _ _ E) as (Heq & H1 & H2 & H3 & H4).
  unfold keepReading.
  rewrite !Heq by (simpl; tauto).
  rewrite <- (lowerBound_integer _ H1), <- (upperBound_integer _ H2).
  rewrite !belowBound_le, !aboveBound_le; auto using INTEGER_RE_NUMBER_RE.
Qed.

(** The readings search, characterised. *)
Lemma findSensorReadings_char this req filterReq sid :
  reachable this ->
  validateFindCommand Validators.findSensorReadings req = okResult filterReq ->
  req !! "sensorId" = Some sid ->
  Obj.inherited sid = false ->
  exists l,
    findSensorReadings this req = Returns (okResult l)
    /\ forall r,
         In r l <->
         (exists rs, sensorReadings this !! sid = Some rs /\ In r rs)
         /\ JS.le (JS.NumberOr (req !! "minTimestamp") JS.NegInf)
                  (SensorReading.timestamp r) = true
         /\ JS.le (SensorReading.timestamp r)
                  (JS.NumberOr (req !! "maxTimestamp") JS.PosInf) = true
         /\ JS.le (lowerBound (req !! "minValue")) (SensorReading.value r) = true
         /\ JS.le (SensorReading.value r) (upperBound (req !! "maxValue")) = true.
Proof.
  intros Hreach E Hsid Hplain. unfold findSensorReadings. rewrite E.
  destruct (validate_findSensorReadings _ _ E) as (Heq & _).
  rewrite (Heq "sensorId") by (simpl; tauto). rewrite Hsid.
  unfold sensorReadingsAt, Obj.get.
  destruct (sensorReadings this !! sid) as [rs|] eqn:Ers.
  - eexists. split; [reflexivity|]. intros r. rewrite In_sort.
    rewrite filter_In. split.
    + intros [Hin Hk]. split; [eauto|].
      assert (Hts : finite (SensorReading.timestamp r)).
      { pose proof (Prj1Order.reachable_finiteTimestamps _ Hreach _ _ Ers) as HF.
        rewrite List.Forall_forall in HF. auto. }
      assert (Hv : finite (SensorReading.value r)).
      { pose proof (reachable_finiteValues _ Hreach _ _ Ers) as HF.
        rewrite List.Forall_forall in HF. auto. }
      rewrite (keepReading_bounds _ _ _ E Hts Hv) in Hk.
      repeat (apply andb_true_iff in Hk as [Hk ?]). auto.
    + intros [(rs' & [= <-] & Hin) (Ha & Hb & Hc & Hd)]. split; [assumption|].
      assert (Hts : finite (SensorReading.timestamp r)).
      { pose proof (Prj1Order.reachable_finiteTimestamps _ Hreach _ _ Ers) as HF.
        rewrite List.Forall_forall in HF. auto. }
      assert (Hv : finite (SensorReading.value r)).
      { pose proof (reachable_finiteValues _ Hreach _ _ Ers) as HF.
        rewrite List.Forall_forall in HF. auto. }
      rewrite (keepReading_bounds _ _ _ E Hts Hv), Ha, Hb, Hc, Hd. reflexivity.
  - rewrite truthy_fromObjectPrototype, Hplain.
    eexists. split; [reflexivity|]. intros r. rewrite In_sort. simpl.
    split; [tauto|]. intros [(rs & [=] & _) _].
Qed.

(** Under a name that [Object.prototype] has, the search finds an object
    that is no list, and throws. *)
Lemma findSensorReadings_throws this req filterReq sid :
  reachable this ->
  validateFindCommand Validators.findSensorReadings req = okResult filterReq ->
  req !! "sensorId" = Some sid ->
  Obj.inherited sid = true ->
  findSensorReadings this req = Throws TypeError.
Proof.
  intros Hreach E Hsid Hin. unfold findSensorReadings. rewrite E.
  destruct (validate_findSensorReadings _ _ E) as (Heq & _).
  rewrite (Heq "sensorId") by (simpl; tauto). rewrite Hsid.
  destruct (reachable_protoKeyed _ Hreach) as (_ & _ & Hr & _).
  unfold sensorReadingsAt. rewrite (get_plain _ _ _ (Hr _ Hin)).
  now rewrite truthy_fromObjectPrototype, Hin.
Qed.

(** A request with [sensorId] alone passes the validation. *)
Lemma validate_sensorId_only sid :
  exists filterReq,
    validateFindCommand Validators.findSensorReadings {[ "sensorId" := sid ]}
    = okResult filterReq.
Proof.
  eexists. unfold validateFindCommand. simpl.
  unfold checkFlatReq. simpl. unfold checkField. simpl.
  rewrite lookup_singleton_eq.
  rewrite !lookup_singleton_ne by discriminate. simpl. reflexivity.
Qed.

Lemma In_updated r old : In r (updated r old).
Proof.
  unfold updated. destruct old as [rs|]; [|now left].
  destruct (JS.findIndex (sameTimestamp r) rs) as [j|] eqn:E.
  - destruct (findIndex_Some _ _ _ E) as (y & Hy & _).
    apply list_elem_of_In. eapply list_elem_of_lookup_2.
    apply list_lookup_insert_eq. eapply lookup_lt_Some; eauto.
  - apply in_or_app. right. now left.
Qed.

(** The bulk adds. *)
Section AddAll.
Context {A : Type} (add : SensorsInfo -> FlatReq -> Completion A * SensorsInfo).

Lemma addAll_preserves (P : SensorsInfo -> Prop) :
  (forall this req, P this -> P (add this req).2) ->
  forall reqs this, P this -> P (addAll add reqs this).2.
Proof.
  intros Hstep reqs. induction reqs as [|req rest IH]; intros this HP;
    [exact HP|].
  simpl. pose proof (Hstep this req HP) as H1.
  destruct (add this req) as [[[a|es]|e] this1]; simpl in *; auto.
Qed.

Lemma addAll_ok (Q : FlatReq -> SensorsInfo -> Prop) :
  (forall this req a this',
      add this req = (Returns (okResult a), this') -> Q req this') ->
  (forall q this req, Q q this -> Q q (add this req).2) ->
  forall reqs this this',
    addAll add reqs this = (Returns (okResult tt), this') ->
    forall req, In req reqs -> Q req this'.
Proof.
  intros Hadd Hkeep reqs. induction reqs as [|q rest IH]; intros this this' H req;
    [intros []|].
  simpl in H. destruct (add this q) as [[[a|es]|e] this1] eqn:E;
    [|discriminate|discriminate].
  intros [<-|Hin].
  - pose proof (Hadd _ _ _ _ E) as HQ.
    pose proof (addAll_preserves (Q q) (Hkeep q) rest this1 HQ) as HP.
    now rewrite H in HP.
  - exact (IH _ _ H _ Hin).
Qed.

(** The loop stops at the first request that fails. *)
Lemma addAll_first_error pre bad rest this es :
  Forall (fun req => forall st, exists a, (add st req).1 = Returns (okResult a))
         pre ->
  (forall st, add st bad = (Returns (errResults es), st)) ->
  addAll add (pre ++ bad :: rest) this
  = (Returns (errResults es),
     fold_left (fun st req => (add st req).2) pre this).
Proof.
  intros Hpre Hbad. revert this.
  induction Hpre as [|req pre Hreq _ IH]; intros this; simpl.
  - now rewrite Hbad.
  - destruct (Hreq this) as [a Ha].
    destruct (add this req) as [c this1]; simpl in *. subst c. apply IH.
Qed.
End AddAll.

End Prj1Search.

(** ** Bulk adds of the in-memory store *)

Module Prj1Bulk.
Import Errors Checkers Validators Dyn Prj1 Spec Inv CheckerFacts ValidatorFacts
       Prj1Facts NumFacts ValidFacts Prj1Inv Prj1Search.

Lemma addSensorType_keeps_type this req k x :
  sensorTypeAt this k = Obj.Entity x ->
  exists x', sensorTypeAt (addSensorType this req).2 k = Obj.Entity x'.
Proof.
  intros H. destruct (addSensorType_cases this req) as [->|(t & _ & ->)];
    [eauto|].
  exact (set_keeps_Entity _ _ _ (SensorType.id t) t _ _ H).
Qed.

Lemma addSensorType_keeps_rest this req :
  sensors (addSensorType this req).2 = sensors this
  /\ sensorsProto (addSensorType this req).2 = sensorsProto this
  /\ sensorReadings (addSensorType this req).2 = sensorReadings this.
Proof.
  destruct (addSensorType_cases this req) as [->|(t & _ & ->)]; now repeat split.
Qed.

Lemma addSensor_keeps_types this req k :
  sensorTypeAt (addSensor this req).2 k = sensorTypeAt this k.
Proof.
  destruct (addSensor_written this req) as [->|(s & ty & _ & _ & ->)];
    reflexivity.
Qed.

Lemma addSensorReading_keeps_types this req k :
  sensorTypeAt (addSensorReading this req).2 k = sensorTypeAt this k.
Proof.
  destruct (addSensorReading_cases this req) as [->|(r & _ & _ & _ & ->)];
    reflexivity.
Qed.

Lemma addSensor_keeps_sensor this req k x :
  sensorAt this k = Obj.Entity x ->
  exists x', sensorAt (addSensor this req).2 k = Obj.Entity x'.
Proof.
  intros H. destruct (addSensor_written this req) as [->|(s & ty & _ & _ & ->)];
    [eauto|].
  exact (set_keeps_Entity _ _ _ (Sensor.id s) s _ _ H).
Qed.

Lemma addSensorReading_keeps_sensors this req k :
  sensorAt (addSensorReading this req).2 k = sensorAt this k.
Proof.
  destruct (addSensorReading_cases this req) as [->|(r & _ & _ & _ & ->)];
    reflexivity.
Qed.

Lemma updated_keeps_timestamp r rs x :
  In x rs ->
  exists y, In y (updated r (Some rs))
            /\ forall ts, JS.eqb (SensorReading.timestamp x) ts = true ->
                          JS.eqb (SensorReading.timestamp y) ts = true.
Proof.
  intros Hin. unfold updated.
  destruct (JS.findIndex (sameTimestamp r) rs) as [j|] eqn:E.
  - destruct (findIndex_Some _ _ _ E) as (z & Hz & Hzr).
    unfold sameTimestamp in Hzr.
    apply list_elem_of_In, list_elem_of_lookup in Hin as [i Hi].
    destruct (decide (i = j)) as [->|Hne].
    + assert (x = z) as -> by congruence.
      exists r. split.
      * apply list_elem_of_In. eapply list_elem_of_lookup_2.
        apply list_lookup_insert_eq. eapply lookup_lt_Some; eauto.
      * intros ts Hts. rewrite JSFacts.eqb_sym in Hzr.
        exact (eqb_trans _ _ _ Hzr Hts).
    + exists x. split; [|auto].
      apply list_elem_of_In. apply (list_elem_of_lookup_2 _ i).
      rewrite list_lookup_insert_ne by congruence. exact Hi.
  - exists x. split; [|auto]. apply in_or_app. now left.
Qed.

Lemma addSensorReading_keeps_reading this req k ts :
  (exists rs x, sensorReadings this !! k = Some rs /\ In x rs
                /\ JS.eqb (SensorReading.timestamp x) ts = true) ->
  exists rs x, sensorReadings (addSensorReading this req).2 !! k = Some rs
               /\ In x rs /\ JS.eqb (SensorReading.timestamp x) ts = true.
Proof.
  intros (rs & x & Hrs & Hin & Hts).
  destruct (addSensorReading_cases this req) as [->|(r & _ & _ & _ & ->)];
    [eauto|].
  simpl. destruct (decide (SensorReading.sensorId r = k)) as [<-|Hne].
  - rewrite lookup_insert_eq, Hrs.
    destruct (updated_keeps_timestamp r rs x Hin) as (y & Hy & Hyts).
    eauto 6.
  - rewrite lookup_insert_ne by assumption. eauto.
Qed.

Lemma addSensorReading_has_reading this req a this' :
  addSensorReading this req = (Returns (okResult a), this') ->
  exists r, makeSensorReading req = okResult r
    /\ exists rs x, sensorReadings this' !! SensorReading.sensorId r = Some rs
                    /\ In x rs
                    /\ JS.eqb (SensorReading.timestamp x)
                              (SensorReading.timestamp r) = true.
Proof.
  intros H. apply addSensorReading_ok in H as (r & Hmk & -> & _ & ->).
  exists r. split; [assumption|]. simpl. rewrite lookup_insert_eq.
  eexists _, r. split; [reflexivity|]. split; [apply In_updated|].
  apply eqb_refl_finite. now apply (makeSensorReading_finite req).
Qed.

Lemma addSensorType_has_type this req a this' :
  (Returns (addSensorType this req).1, (addSensorType this req).2)
  = (Returns (okResult a), this') ->
  exists t, makeSensorType req = okResult t
            /\ exists x, sensorTypeAt this' (SensorType.id t) = Obj.Entity x.
Proof.
  unfold addSensorType.
  destruct (makeSensorType req) as [t|es]; [|discriminate].
  intros [= <- <-]. exists t. split; [reflexivity|]. exists t.
  apply (set_get sensorType_get).
Qed.

Lemma addSensor_has_sensor this req a this' :
  addSensor this req = (Returns (okResult a), this') ->
  exists s, makeSensor req = okResult s
            /\ exists x, sensorAt this' (Sensor.id s) = Obj.Entity x.
Proof.
  unfold addSensor. destruct (makeSensor req) as [s|es]; [|discriminate].
  destruct (sensorTypeAt this _) as [ty|x].
  - destruct (Range.isSubrange _ _); [|discriminate].
    intros [= <- <-]. exists s. split; [reflexivity|]. exists s.
    apply (set_get sensor_get).
  - destruct (Dyn.truthy x); discriminate.
Qed.

End Prj1Bulk.

(** ** The in-memory store, as its users see it *)

Module MemStore.
Import Errors Checkers Validators Dyn Spec Inv Data CheckerFacts ValidatorFacts
       Prj1Facts FilterFacts NumFacts ValidFacts Prj1Inv Prj1Search Prj1Bulk.

Lemma sample_store_reachable : Prj1.reachable store1.
Proof.
  unfold store1. apply Prj1.reach_addSensorReading, Prj1.reach_addSensor,
    Prj1.reach_addSensorType, Prj1.reach_new.
Qed.

Lemma sample_store2_reachable : Prj1.reachable store2.
Proof.
  unfold store2. apply Prj1.reach_addSensorReading, sample_store_reachable.
Qed.

(** X3.  In every state the in-memory store reaches, a sensor type and a
    sensor are kept under their own id, and every reading is kept in the
    list of the sensor it names; no dictionary has an own property
    [__proto__], the readings have none under any name of
    [Object.prototype], and an entity that became the prototype of its
    dictionary has the id [__proto__]. *)
Theorem mem_store_keyed_by_id (this : Prj1.SensorsInfo) :
  Prj1.reachable this -> keyedById this /\ protoKeyed this.
Proof.
  intros H. split; [now apply reachable_keyedById|now apply reachable_protoKeyed].
Qed.

Lemma mem_store_keyed_by_id_witness :
  Prj1.reachable store1
  /\ forall k s, Prj1.sensors store1 !! k = Some s -> Sensor.id s = k.
Proof.
  split; [exact sample_store_reachable|].
  exact (proj1 (proj2 (proj1
           (mem_store_keyed_by_id store1 sample_store_reachable)))).
Defined.

(** X4.  In every state the in-memory store reaches, for every sensor it
    holds [this.sensorTypes[sensor.sensorTypeId]] is a sensor type. *)
Theorem mem_sensors_have_type (this : Prj1.SensorsInfo) :
  Prj1.reachable this -> sensorsHaveType this.
Proof. apply reachable_sensorsHaveType. Qed.

Lemma mem_sensors_have_type_witness :
  Prj1.reachable store1
  /\ exists sensorType,
       Prj1.sensorTypeAt store1 (Sensor.sensorTypeId SENSOR1_VAL)
       = Obj.Entity sensorType.
Proof.
  split; [exact sample_store_reachable|].
  apply (mem_sensors_have_type store1 sample_store_reachable).
  left. exists "ln1120". vm_compute. reflexivity.
Defined.

(** X5.  In every state the in-memory store reaches, no sensor has two
    readings with the same timestamp. *)
Theorem mem_distinct_timestamps (this : Prj1.SensorsInfo) k rs :
  Prj1.reachable this ->
  Prj1.sensorReadings this !! k = Some rs -> distinctTimestamps rs.
Proof. intros H. now apply reachable_distinctTimestamps. Qed.

Lemma mem_distinct_timestamps_witness :
  Prj1.reachable store2
  /\ Prj1.sensorReadings store2 !! "ln1120"
     = Some [SENSOR_READING1_VAL; SENSOR_READING0_VAL]
  /\ distinctTimestamps [SENSOR_READING1_VAL; SENSOR_READING0_VAL].
Proof.
  assert (Hrs : Prj1.sensorReadings store2 !! "ln1120"
                = Some [SENSOR_READING1_VAL; SENSOR_READING0_VAL])
    by (vm_compute; reflexivity).
  split; [exact sample_store2_reachable|]. split; [exact Hrs|].
  exact (mem_distinct_timestamps store2 _ _ sample_store2_reachable Hrs).
Defined.

(** X6.  [clear] answers with the empty list and leaves the store as a
    new one: afterwards every search for sensor types or for sensors
    answers [], and so does every search for readings that returns. *)
Theorem mem_clear_empties (this : Prj1.SensorsInfo) :
  Prj1.clear this = (okResult [], Prj1.new)
  /\ (forall req, Prj1.findSensorTypes (Prj1.clear this).2 req = okResult [])
  /\ (forall req, Prj1.findSensors (Prj1.clear this).2 req = okResult [])
  /\ (forall req l,
         Prj1.findSensorReadings (Prj1.clear this).2 req = Returns (okResult l) ->
         l = []).
Proof.
  split; [reflexivity|]. split; [|split].
  - intros req. unfold Prj1.findSensorTypes.
    destruct (validate_findSensorTypes req) as [filterReq ->]. simpl.
    now rewrite values_empty.
  - intros req. unfold Prj1.findSensors.
    destruct (validate_findSensors req) as [filterReq ->]. simpl.
    now rewrite values_empty.
  - intros req l. unfold Prj1.findSensorReadings.
    destruct (validateFindCommand _ req) as [filterReq|]; [|discriminate].
    unfold Prj1.sensorReadingsAt. simpl.
    rewrite (get_plain _ _ _ (lookup_empty _)).
    destruct (Dyn.truthy _); [discriminate|]. now intros [= <-].
Qed.

Lemma mem_clear_empties_witness :
  Prj1.findSensorReadings (Prj1.clear store1).2
    (list_to_map [("sensorId", "ln1120")])
  = Returns (okResult []).
Proof.
  assert (H : exists l,
             Prj1.findSensorReadings (Prj1.clear store1).2
               (list_to_map [("sensorId", "ln1120")]) = Returns (okResult l))
    by (eexists; vm_compute; reflexivity).
  destruct H as [l H]. rewrite H.
  destruct (mem_clear_empties store1) as (_ & _ & _ & Hr).
  now rewrite (Hr _ _ H).
Defined.

(** X7.  A reading that passes validation, with [found] what
    [this.sensors[sensorId]] evaluates to.  When [found] is falsy the
    add fails with BAD_ID and changes nothing.  When it is truthy, as it
    is when a sensor is stored under the id, the add answers the
    reading, which is among the readings of that id afterwards;
    except that under a name of [Object.prototype] with no readings of
    its own the add throws a TypeError and changes nothing. *)
Theorem mem_addSensorReading_needs_sensor (this : Prj1.SensorsInfo) req r :
  makeSensorReading req = okResult r ->
  let found := Prj1.sensorAt this (SensorReading.sensorId r) in
  (Obj.truthy found = false ->
   returnsWith (Prj1.addSensorReading this req).1 "BAD_ID"
   /\ (Prj1.addSensorReading this req).2 = this)
  /\ (is_Some (Prj1.sensors this !! SensorReading.sensorId r) ->
      Obj.truthy found = true)
  /\ (Obj.truthy found = true ->
      is_Some (Prj1.sensorReadings this !! SensorReading.sensorId r)
      \/ Obj.inherited (SensorReading.sensorId r) = false ->
      (Prj1.addSensorReading this req).1 = Returns (okResult [r])
      /\ exists rs,
           Prj1.sensorReadings (Prj1.addSensorReading this req).2
             !! SensorReading.sensorId r = Some rs
           /\ In r rs)
  /\ (Obj.truthy found = true ->
      Prj1.sensorReadings this !! SensorReading.sensorId r = None ->
      Obj.inherited (SensorReading.sensorId r) = true ->
      Prj1.addSensorReading this req = (Throws TypeError, this)).
Proof.
  intros Hmk found. subst found. unfold Prj1.addSensorReading. rewrite Hmk.
  simpl. split; [|split; [|split]].
  - intros ->. simpl. split; [|reflexivity].
    eexists. split; [reflexivity|]. now split.
  - intros [s Hs]. unfold Prj1.sensorAt.
    now rewrite (get_own _ _ _ _ _ Hs).
  - intros -> Hk. simpl. unfold Prj1.sensorReadingsAt, Obj.get.
    destruct (Prj1.sensorReadings this !! SensorReading.sensorId r)
      as [rs|] eqn:Ers.
    + simpl. split; [reflexivity|]. rewrite lookup_insert_eq.
      eexists. split; [reflexivity|]. apply (In_updated r (Some rs)).
    + destruct Hk as [[rs Hrs]|Hk]; [discriminate|].
      rewrite truthy_fromObjectPrototype, Hk. simpl. split; [reflexivity|].
      rewrite lookup_insert_eq. eexists. split; [reflexivity|]. now left.
  - intros -> Hnone Hin. simpl. unfold Prj1.sensorReadingsAt.
    rewrite (get_plain _ _ _ Hnone), truthy_fromObjectPrototype, Hin.
    reflexivity.
Qed.

Lemma mem_addSensorReading_needs_sensor_witness :
  makeSensorReading SENSOR_READING1 = okResult SENSOR_READING1_VAL
  /\ returnsWith (Prj1.addSensorReading Prj1.new SENSOR_READING1).1 "BAD_ID"
  /\ (Prj1.addSensorReading store1 SENSOR_READING0).1
     = Returns (okResult [SENSOR_READING0_VAL]).
Proof.
  assert (H1 : makeSensorReading SENSOR_READING1 = okResult SENSOR_READING1_VAL)
    by (vm_compute; reflexivity).
  assert (H0 : makeSensorReading SENSOR_READING0 = okResult SENSOR_READING0_VAL)
    by (vm_compute; reflexivity).
  split; [exact H1|]. split.
  - apply (proj1 (mem_addSensorReading_needs_sensor Prj1.new _ _ H1)).
    vm_compute. reflexivity.
  - apply (proj1 (proj2 (proj2
             (mem_addSensorReading_needs_sensor store1 _ _ H0)))).
    + vm_compute. reflexivity.
    + left. vm_compute. eauto.
Defined.

(** X8.  An add that does not answer with a success, be it that it
    fails or that it throws, leaves the in-memory store as it was. *)
Theorem mem_failed_add_unchanged (this : Prj1.SensorsInfo) req :
  ((forall l, (Prj1.addSensorType this req).1 <> okResult l) ->
   (Prj1.addSensorType this req).2 = this)
  /\ ((forall l, (Prj1.addSensor this req).1 <> Returns (okResult l)) ->
      (Prj1.addSensor this req).2 = this)
  /\ ((forall l, (Prj1.addSensorReading this req).1 <> Returns (okResult l)) ->
      (Prj1.addSensorReading this req).2 = this).
Proof.
  split; [|split].
  - unfold Prj1.addSensorType. destruct (makeSensorType req) as [t|];
      [|reflexivity].
    intros H. now elim (H [t]).
  - unfold Prj1.addSensor. destruct (makeSensor req) as [s|]; [|reflexivity].
    destruct (Prj1.sensorTypeAt this _) as [ty|x].
    + destruct (Range.isSubrange _ _); [|reflexivity].
      intros H. now elim (H [s]).
    + now destruct (Dyn.truthy x).
  - apply addSensorReading_else.
Qed.

Lemma mem_failed_add_unchanged_witness :
  (exists r, (Prj1.addSensor store1 (<[ "min" := "5" ]> SENSOR1)).1 = Returns r
             /\ codes r = ["BAD_RANGE"])
  /\ (Prj1.addSensor store1 (<[ "min" := "5" ]> SENSOR1)).2 = store1.
Proof.
  assert (H : exists r,
             (Prj1.addSensor store1 (<[ "min" := "5" ]> SENSOR1)).1 = Returns r
             /\ codes r = ["BAD_RANGE"])
    by (eexists; split; vm_compute; reflexivity).
  split; [exact H|].
  apply (proj1 (proj2 (mem_failed_add_unchanged store1 _))).
  destruct H as (r & -> & Hc). intros l [= ->]. discriminate Hc.
Defined.

(** X9.  What was added is found.  After a successful add of a sensor
    type (sensor) whose id is not [__proto__], the search by that id
    answers a list that holds it, and whose other members have that id
    or an empty one; with the id [__proto__], unless that is an own
    property, the add leaves the entries as they were.  After a
    successful add of a reading in a state the store reaches, the search
    for the readings of its sensor answers a list that holds it and no
    other reading with its timestamp. *)
Theorem mem_add_then_find :
  (forall this req t this',
      Prj1.addSensorType this req = (okResult [t], this') ->
      (SensorType.id t <> "__proto__" ->
       exists l,
         Prj1.findSensorTypes this' (list_to_map [("id", SensorType.id t)])
         = okResult l
         /\ In t l
         /\ forall x, In x l ->
                      SensorType.id x = EmptyString
                      \/ SensorType.id x = SensorType.id t)
      /\ (SensorType.id t = "__proto__" ->
          Prj1.sensorTypes this !! "__proto__" = None ->
          Prj1.sensorTypes this' = Prj1.sensorTypes this))
  /\ (forall this req s this',
         Prj1.addSensor this req = (Returns (okResult [s]), this') ->
         (Sensor.id s <> "__proto__" ->
          exists l,
            Prj1.findSensors this' (list_to_map [("id", Sensor.id s)])
            = okResult l
            /\ In s l
            /\ forall x, In x l ->
                         Sensor.id x = EmptyString \/ Sensor.id x = Sensor.id s)
         /\ (Sensor.id s = "__proto__" ->
             Prj1.sensors this !! "__proto__" = None ->
             Prj1.sensors this' = Prj1.sensors this))
  /\ (forall this req r this',
         Prj1.reachable this ->
         Prj1.addSensorReading this req = (Returns (okResult [r]), this') ->
         exists l,
           Prj1.findSensorReadings this'
             (list_to_map [("sensorId", SensorReading.sensorId r)])
           = Returns (okResult l)
           /\ In r l
           /\ forall x, In x l ->
                JS.eqb (SensorReading.timestamp x) (SensorReading.timestamp r)
                  = true -> x = r).
Proof.
  split; [|split].
  - intros this req t this' Hadd.
    assert (Hst : this' = Prj1.setSensorType this t).
    { revert Hadd. unfold Prj1.addSensorType.
      destruct (makeSensorType req) as [t'|]; [|discriminate].
      now intros [= <- <-]. }
    split.
    + intros Hid.
      destruct (validate_findSensorTypes (list_to_map [("id", SensorType.id t)]))
        as [filterReq Hv].
      destruct (findSensorTypes_filter this' _ _ Hv) as (l & Hl & Hspec).
      exists l. split; [assumption|]. split.
      * apply Hspec. split.
        -- apply In_values. exists (SensorType.id t). rewrite Hst.
           unfold Prj1.setSensorType.
           rewrite (set_stored _ _ _ _ (or_introl Hid)). simpl.
           apply lookup_insert_eq.
        -- intros f v Hf Hfv. simpl in Hfv.
           apply lookup_insert_Some in Hfv as [[<- <-]|[_ Hfv]];
             [now right|now rewrite lookup_empty in Hfv].
      * intros x Hx. apply Hspec in Hx as [_ Hx].
        apply (Hx "id" (SensorType.id t)); [now left|].
        simpl. apply lookup_insert_eq.
    + intros Hid Hnone. rewrite Hst. unfold Prj1.setSensorType.
      rewrite Hid, (set_proto _ _ _ Hnone). reflexivity.
  - intros this req s this' Hadd.
    assert (Hst : this' = Prj1.setSensor this s).
    { revert Hadd. unfold Prj1.addSensor.
      destruct (makeSensor req) as [s'|]; [|discriminate].
      destruct (Prj1.sensorTypeAt this _) as [ty|x].
      - destruct (Range.isSubrange _ _); [|discriminate]. now intros [= <- <-].
      - destruct (Dyn.truthy x); discriminate. }
    split.
    + intros Hid.
      destruct (validate_findSensors (list_to_map [("id", Sensor.id s)]))
        as [filterReq Hv].
      destruct (findSensors_filter this' _ _ Hv) as (l & Hl & Hspec).
      exists l. split; [assumption|]. split.
      * apply Hspec. split.
        -- apply In_values. exists (Sensor.id s). rewrite Hst.
           unfold Prj1.setSensor.
           rewrite (set_stored _ _ _ _ (or_introl Hid)). simpl.
           apply lookup_insert_eq.
        -- intros f v Hf Hfv. simpl in Hfv.
           apply lookup_insert_Some in Hfv as [[<- <-]|[_ Hfv]];
             [now right|now rewrite lookup_empty in Hfv].
      * intros x Hx. apply Hspec in Hx as [_ Hx].
        apply (Hx "id" (Sensor.id s)); [now left|].
        simpl. apply lookup_insert_eq.
    + intros Hid Hnone. rewrite Hst. unfold Prj1.setSensor.
      rewrite Hid, (set_proto _ _ _ Hnone). reflexivity.
  - intros this req r this' Hreach Hadd.
    assert (Hreach' : Prj1.reachable this').
    { replace this' with (Prj1.addSensorReading this req).2
        by now rewrite Hadd.
      now apply Prj1.reach_addSensorReading. }
    destruct (addSensorReading_ok _ _ _ _ Hadd) as (r' & Hmk & [= <-] & _ & Hst).
    assert (Hstored : exists rs,
               Prj1.sensorReadings this' !! SensorReading.sensorId r = Some rs
               /\ In r rs).
    { rewrite Hst. simpl. rewrite lookup_insert_eq. eexists.
      split; [reflexivity|apply In_updated]. }
    assert (Hplain : Obj.inherited (SensorReading.sensorId r) = false).
    { destruct (reachable_protoKeyed _ Hreach') as (_ & _ & Hr & _).
      destruct (Obj.inherited (SensorReading.sensorId r)) eqn:E; [|reflexivity].
      destruct Hstored as (rs & Hrs & _). rewrite (Hr _ E) in Hrs.
      discriminate. }
    destruct (validate_sensorId_only (SensorReading.sensorId r))
      as [filterReq Hv].
    destruct (findSensorReadings_char this' _ _ (SensorReading.sensorId r)
                Hreach' Hv) as (l & Hl & Hspec);
      [apply lookup_insert_eq|exact Hplain|].
    exists l. split; [assumption|].
    split.
    + apply Hspec. split; [exact Hstored|].
      destruct (makeSensorReading_finite _ _ Hmk) as [ts ->].
      destruct (makeSensorReading_value_finite _ _ Hmk) as [v ->].
      simpl. auto.
    + intros x Hx Heq. apply Hspec in Hx as [(rs & Hrs & Hin) _].
      destruct Hstored as (rs' & Hrs' & Hin'). rewrite Hrs in Hrs'.
      injection Hrs' as <-.
      apply list_elem_of_In, list_elem_of_lookup in Hin as [i Hi].
      apply list_elem_of_In, list_elem_of_lookup in Hin' as [j Hj].
      destruct (decide (i = j)) as [->|Hne]; [congruence|].
      pose proof (reachable_distinctTimestamps _ Hreach' _ _ Hrs i j x r Hi Hj Hne)
        as Hd.
      congruence.
Qed.

Lemma mem_add_then_find_witness :
  Prj1.addSensorReading store1 SENSOR_READING0
  = (Returns (okResult [SENSOR_READING0_VAL]), store2)
  /\ exists l,
       Prj1.findSensorReadings store2 (list_to_map [("sensorId", "ln1120")])
       = Returns (okResult l)
       /\ In SENSOR_READING0_VAL l.
Proof.
  assert (H : Prj1.addSensorReading store1 SENSOR_READING0
              = (Returns (okResult [SENSOR_READING0_VAL]), store2))
    by (vm_compute; reflexivity).
  split; [exact H|].
  destruct mem_add_then_find as (_ & _ & Hr).
  destruct (Hr store1 _ _ _ sample_store_reachable H) as (l & Hl & Hin & _).
  exists l. split; [exact Hl|exact Hin].
Defined.

(** X10.  The readings search of the in-memory store, in every state
    it reaches and for every request that passes validation.  For a
    sensor id that is no name of [Object.prototype] the answer holds
    exactly the stored readings of the requested sensor whose timestamp
    lies within the inclusive timestamp bounds as written, and whose
    value lies within the value bounds as [parseInt] reads them, that
    is, cut off at the decimal point; every reading answered names the
    requested sensor.  For a sensor id that is such a name the search
    throws a TypeError. *)
Theorem mem_findSensorReadings_bounds (this : Prj1.SensorsInfo) req filterReq sid :
  Prj1.reachable this ->
  validateFindCommand Validators.findSensorReadings req = okResult filterReq ->
  req !! "sensorId" = Some sid ->
  (Obj.inherited sid = false ->
   exists l,
     Prj1.findSensorReadings this req = Returns (okResult l)
     /\ (forall r,
            In r l <->
            (exists rs, Prj1.sensorReadings this !! sid = Some rs /\ In r rs)
            /\ JS.le (JS.NumberOr (req !! "minTimestamp") JS.NegInf)
                     (SensorReading.timestamp r) = true
            /\ JS.le (SensorReading.timestamp r)
                     (JS.NumberOr (req !! "maxTimestamp") JS.PosInf) = true
            /\ JS.le (lowerBound (req !! "minValue")) (SensorReading.value r)
               = true
            /\ JS.le (SensorReading.value r) (upperBound (req !! "maxValue"))
               = true)
     /\ (forall r, In r l -> SensorReading.sensorId r = sid))
  /\ (Obj.inherited sid = true ->
      Prj1.findSensorReadings this req = Throws TypeError).
Proof.
  intros Hreach Hv Hsid. split.
  - intros Hplain.
    destruct (findSensorReadings_char this req filterReq sid Hreach Hv Hsid Hplain)
      as (l & Hl & Hspec).
    exists l. split; [assumption|]. split; [assumption|].
    intros r Hr. apply Hspec in Hr as [(rs & Hrs & Hin) _].
    destruct (reachable_keyedById _ Hreach) as (_ & _ & Hk).
    specialize (Hk _ _ Hrs). rewrite List.Forall_forall in Hk. auto.
  - now apply (findSensorReadings_throws this req filterReq sid).
Qed.

Lemma mem_findSensorReadings_bounds_witness :
  Prj1.reachable store2
  /\ Prj1.findSensorReadings store2
       (list_to_map [("sensorId", "ln1120"); ("maxTimestamp", "1694129000")])
     = Returns (okResult [SENSOR_READING0_VAL])
  /\ Prj1.findSensorReadings store2 (list_to_map [("sensorId", "toString")])
     = Throws TypeError.
Proof.
  split; [exact sample_store2_reachable|]. split.
  - set (req := list_to_map [("sensorId", "ln1120");
                             ("maxTimestamp", "1694129000")] : FlatReq).
    destruct (proj1 (mem_findSensorReadings_bounds store2 req req "ln1120"
                       sample_store2_reachable eq_refl eq_refl) eq_refl)
      as (l & Hl & _ & _).
    rewrite Hl. f_equal.
    assert (H : Prj1.findSensorReadings store2 req
                = Returns (okResult [SENSOR_READING0_VAL]))
      by (vm_compute; reflexivity).
    congruence.
  - set (req := list_to_map [("sensorId", "toString")] : FlatReq).
    exact (proj2 (mem_findSensorReadings_bounds store2 req req "toString"
                    sample_store2_reachable eq_refl eq_refl) eq_refl).
Defined.

(** X11.  [addSensorsInfo] stops at the first sensor-type request that
    fails validation: it answers the errors of that request, the sensor
    types before it were added, and nothing after it is looked at; no
    sensor and no reading is added. *)
Theorem mem_addSensorsInfo_first_error
    (pre rest sensors sensorReadings : list FlatReq) (bad : FlatReq)
    (this : Prj1.SensorsInfo) es :
  Forall (fun req => isOk (makeSensorType req) = true) pre ->
  makeSensorType bad = errResults es ->
  Prj1.addSensorsInfo (pre ++ bad :: rest) sensors sensorReadings this
  = (Returns (errResults es),
     fold_left (fun st req => (Prj1.addSensorType st req).2) pre this)
  /\ Prj1.sensors
       (Prj1.addSensorsInfo (pre ++ bad :: rest) sensors sensorReadings this).2
     = Prj1.sensors this
  /\ Prj1.sensorsProto
       (Prj1.addSensorsInfo (pre ++ bad :: rest) sensors sensorReadings this).2
     = Prj1.sensorsProto this
  /\ Prj1.sensorReadings
       (Prj1.addSensorsInfo (pre ++ bad :: rest) sensors sensorReadings this).2
     = Prj1.sensorReadings this.
Proof.
  intros Hpre Hbad.
  assert (H : Prj1.addSensorsInfo (pre ++ bad :: rest) sensors sensorReadings this
              = (Returns (errResults es),
                 fold_left (fun st req => (Prj1.addSensorType st req).2) pre this)).
  { unfold Prj1.addSensorsInfo.
    rewrite (addAll_first_error
               (fun this req => (Returns (Prj1.addSensorType this req).1,
                                 (Prj1.addSensorType this req).2))
               pre bad rest this es); [reflexivity| |].
    - eapply Forall_impl; [exact Hpre|]. intros req Hreq st. simpl in Hreq.
      unfold Prj1.addSensorType. destruct (makeSensorType req) as [t|];
        [|discriminate].
      simpl. eauto.
    - intros st. unfold Prj1.addSensorType. now rewrite Hbad. }
  rewrite H. simpl. split; [reflexivity|]. clear H Hpre. revert this.
  induction pre as [|req pre IH]; intros this; simpl; [auto|].
  destruct (IH (Prj1.addSensorType this req).2) as (-> & -> & ->).
  apply addSensorType_keeps_rest.
Qed.

Lemma mem_addSensorsInfo_first_error_witness :
  Prj1.addSensorsInfo [SENSOR_TYPE1; delete "unit" SENSOR_TYPE1] [SENSOR1] []
    Prj1.new
  = (Returns
       (errResults
          [mkErr (Template REQUIRED_MSG ["unit"]) "REQUIRED" (Some "unit")]),
     (Prj1.addSensorType Prj1.new SENSOR_TYPE1).2).
Proof.
  refine (proj1 (mem_addSensorsInfo_first_error [SENSOR_TYPE1] [] [SENSOR1] []
                   (delete "unit" SENSOR_TYPE1) Prj1.new _ _ _)).
  - apply List.Forall_cons; [vm_compute; reflexivity|apply List.Forall_nil].
  - vm_compute. reflexivity.
Defined.

(** X12.  A store that [makeSensorsInfo] hands out is in a reachable
    state, and holds what it was made from: every request given was
    valid, the id of every sensor type and of every sensor given finds
    an entity in its dictionary, and for every reading given its sensor
    has a reading with that timestamp. *)
Theorem mem_makeSensorsInfo_loaded
    (sensorTypes sensors sensorReadings : list FlatReq)
    (this : Prj1.SensorsInfo) :
  Prj1.makeSensorsInfo sensorTypes sensors sensorReadings
  = Returns (okResult this) ->
  Prj1.reachable this
  /\ (forall req, In req sensorTypes ->
        exists t, makeSensorType req = okResult t
                  /\ exists x, Prj1.sensorTypeAt this (SensorType.id t)
                               = Obj.Entity x)
  /\ (forall req, In req sensors ->
        exists s, makeSensor req = okResult s
                  /\ exists x, Prj1.sensorAt this (Sensor.id s) = Obj.Entity x)
  /\ (forall req, In req sensorReadings ->
        exists r, makeSensorReading req = okResult r
          /\ exists rs x,
               Prj1.sensorReadings this !! SensorReading.sensorId r = Some rs
               /\ In x rs
               /\ JS.eqb (SensorReading.timestamp x) (SensorReading.timestamp r)
                  = true).
Proof.
  unfold Prj1.makeSensorsInfo, Prj1.addSensorsInfo.
  set (addType := fun this req =>
                    (Returns (Prj1.addSensorType this req).1,
                     (Prj1.addSensorType this req).2)).
  destruct (Prj1.addAll addType sensorTypes Prj1.new)
    as [[[[]|]|] s1] eqn:E1; try discriminate.
  destruct (Prj1.addAll Prj1.addSensor sensors s1) as [[[[]|]|] s2] eqn:E2;
    try discriminate.
  destruct (Prj1.addAll Prj1.addSensorReading sensorReadings s2)
    as [[[[]|]|] s3] eqn:E3; try discriminate.
  intros [= <-].
  assert (R1 : Prj1.reachable s1).
  { replace s1 with (Prj1.addAll addType sensorTypes Prj1.new).2
      by now rewrite E1.
    apply addAll_preserves; [|apply Prj1.reach_new].
    intros st req. apply Prj1.reach_addSensorType. }
  assert (R2 : Prj1.reachable s2).
  { replace s2 with (Prj1.addAll Prj1.addSensor sensors s1).2 by now rewrite E2.
    apply addAll_preserves; [|exact R1].
    intros st req. apply Prj1.reach_addSensor. }
  assert (R3 : Prj1.reachable s3).
  { replace s3 with (Prj1.addAll Prj1.addSensorReading sensorReadings s2).2
      by now rewrite E3.
    apply addAll_preserves; [|exact R2].
    intros st req. apply Prj1.reach_addSensorReading. }
  split; [exact R3|]. split; [|split].
  - intros req Hin.
    pose proof (addAll_ok addType
                  (fun req st => exists t, makeSensorType req = okResult t
                     /\ exists x, Prj1.sensorTypeAt st (SensorType.id t)
                                  = Obj.Entity x)
                  addSensorType_has_type) as H1.
    destruct (H1 (fun q st req' '(ex_intro _ t (conj Hq (ex_intro _ x Hs))) =>
                    ex_intro _ t
                      (conj Hq (addSensorType_keeps_type st req' _ _ Hs)))
                 _ _ _ E1 req Hin) as (t & Hmk & x & Hs).
    exists t. split; [assumption|].
    replace s3 with (Prj1.addAll Prj1.addSensorReading sensorReadings s2).2
      by now rewrite E3.
    apply (addAll_preserves Prj1.addSensorReading
             (fun st => exists x, Prj1.sensorTypeAt st (SensorType.id t)
                                  = Obj.Entity x)).
    { intros st q. now rewrite addSensorReading_keeps_types. }
    replace s2 with (Prj1.addAll Prj1.addSensor sensors s1).2 by now rewrite E2.
    apply (addAll_preserves Prj1.addSensor
             (fun st => exists x, Prj1.sensorTypeAt st (SensorType.id t)
                                  = Obj.Entity x));
      [|eauto].
    intros st q. now rewrite addSensor_keeps_types.
  - intros req Hin.
    pose proof (addAll_ok Prj1.addSensor
                  (fun req st => exists s, makeSensor req = okResult s
                     /\ exists x, Prj1.sensorAt st (Sensor.id s) = Obj.Entity x)
                  addSensor_has_sensor) as H2.
    destruct (H2 (fun q st req' '(ex_intro _ s (conj Hq (ex_intro _ x Hs))) =>
                    ex_intro _ s
                      (conj Hq (addSensor_keeps_sensor st req' _ _ Hs)))
                 _ _ _ E2 req Hin) as (s & Hmk & x & Hs).
    exists s. split; [assumption|].
    replace s3 with (Prj1.addAll Prj1.addSensorReading sensorReadings s2).2
      by now rewrite E3.
    apply (addAll_preserves Prj1.addSensorReading
             (fun st => exists x, Prj1.sensorAt st (Sensor.id s) = Obj.Entity x));
      [|eauto].
    intros st q. now rewrite addSensorReading_keeps_sensors.
  - intros req Hin.
    pose proof (addAll_ok Prj1.addSensorReading
                  (fun req st => exists r, makeSensorReading req = okResult r
                     /\ exists rs x,
                          Prj1.sensorReadings st !! SensorReading.sensorId r
                            = Some rs
                          /\ In x rs
                          /\ JS.eqb (SensorReading.timestamp x)
                                    (SensorReading.timestamp r) = true)
                  addSensorReading_has_reading) as H3.
    apply (H3 (fun q st req' '(ex_intro _ r (conj Hq Hs)) =>
                 ex_intro _ r
                   (conj Hq (addSensorReading_keeps_reading st req' _ _ Hs)))
              _ _ _ E3 req Hin).
Qed.

Lemma mem_makeSensorsInfo_loaded_witness :
  Prj1.makeSensorsInfo [SENSOR_TYPE1] [SENSOR1] [SENSOR_READING1]
  = Returns (okResult store1)
  /\ Prj1.reachable store1
  /\ exists s, makeSensor SENSOR1 = okResult s
               /\ exists x, Prj1.sensorAt store1 (Sensor.id s) = Obj.Entity x.
Proof.
  assert (H : Prj1.makeSensorsInfo [SENSOR_TYPE1] [SENSOR1] [SENSOR_READING1]
              = Returns (okResult store1)) by (vm_compute; reflexivity).
  split; [exact H|].
  destruct (mem_makeSensorsInfo_loaded _ _ _ _ H) as (Hreach & _ & Hs & _).
  split; [exact Hreach|]. apply Hs. now left.
Defined.

End MemStore.

(** ** The DAO-backed store, case by case *)

Module DaoCases.
Import Errors Checkers Validators Search Dyn Spec Inv.
Import JSFacts CheckerFacts FilterFacts MongoFacts Prj3Facts Prj3Inv NumFacts
       ValidFacts.

Lemma page_In {A : Type} index count (l l' : list A) x :
  Mongo.page index count l = Some l' -> In x l' -> In x l.
Proof.
  unfold Mongo.page. destruct (Mongo.as_nat index) as [i|]; [|discriminate].
  destruct (Mongo.as_nat count) as [c|]; [|discriminate].
  intros [= <-] H. apply list_elem_of_In. apply list_elem_of_In in H.
  destruct c.
  - now apply (subseteq_drop i l).
  - now apply (subseteq_drop i l), (subseteq_take (S c)).
Qed.

Lemma page_nil {A : Type} index count (l' : list A) :
  Mongo.page index count [] = Some l' -> l' = [].
Proof.
  intros H. destruct l' as [|x l']; [reflexivity|].
  destruct (page_In _ _ _ _ x H). now left.
Qed.

(** The three inserts of the DAO. *)
Lemma dao_addSensorType_cases t db :
  (exists es, Mongo.addSensorType t db = (errResults es, db))
  \/ (Mongo.connected db = true
      /\ Mongo.sensorTypes db !! SensorType.id t = None
      /\ Mongo.addSensorType t db
         = (okResult t,
            Mongo.mkDb (Mongo.connected db)
              (<[SensorType.id t := t]> (Mongo.sensorTypes db))
              (Mongo.sensors db) (Mongo.sensorReadings db))).
Proof.
  unfold Mongo.addSensorType, Mongo.insertOne.
  destruct (Mongo.connected db); simpl; [|left; eauto].
  destruct (Mongo.sensorTypes db !! SensorType.id t); [left; eauto|].
  right. auto.
Qed.

Lemma dao_addSensor_cases s db :
  (exists es, Mongo.addSensor s db = (errResults es, db))
  \/ (Mongo.connected db = true
      /\ Mongo.sensors db !! Sensor.id s = None
      /\ Mongo.addSensor s db
         = (okResult s,
            Mongo.mkDb (Mongo.connected db) (Mongo.sensorTypes db)
              (<[Sensor.id s := s]> (Mongo.sensors db))
              (Mongo.sensorReadings db))).
Proof.
  unfold Mongo.addSensor, Mongo.insertOne.
  destruct (Mongo.connected db); simpl; [|left; eauto].
  destruct (Mongo.sensors db !! Sensor.id s); [left; eauto|].
  right. auto.
Qed.

Lemma dao_addSensorReading_cases r db :
  (exists es, Mongo.addSensorReading r db = (errResults es, db))
  \/ (Mongo.connected db = true
      /\ existsb (Mongo.sameKey r) (Mongo.sensorReadings db) = false
      /\ Mongo.addSensorReading r db
         = (okResult r,
            Mongo.mkDb (Mongo.connected db) (Mongo.sensorTypes db)
              (Mongo.sensors db) (Mongo.sensorReadings db ++ [r])%list)).
Proof.
  unfold Mongo.addSensorReading, Mongo.insertReading.
  destruct (Mongo.connected db); simpl; [|left; eauto].
  destruct (existsb _ _); [left; eauto|].
  right. auto.
Qed.

Section Params.
Variables DC DI : nat.

(** The three adds of the store: an error and the database as it was,
    or the one insert, made after the checks of the store passed. *)
Lemma store_addSensorType_cases req db :
  (exists es, Prj3.addSensorType (DAO := Mongo.dao DC DI) req db
              = (errResults es, db))
  \/ exists t,
       makeSensorType req = okResult t
       /\ Mongo.connected db = true
       /\ Mongo.sensorTypes db !! SensorType.id t = None
       /\ Prj3.addSensorType (DAO := Mongo.dao DC DI) req db
          = (okResult t,
             Mongo.mkDb (Mongo.connected db)
               (<[SensorType.id t := t]> (Mongo.sensorTypes db))
               (Mongo.sensors db) (Mongo.sensorReadings db)).
Proof.
  unfold Prj3.addSensorType. destruct (makeSensorType req) as [t|es];
    [|left; eauto].
  simpl. destruct (dao_addSensorType_cases t db) as [H|(H1 & H2 & H3)];
    [now left|].
  right. exists t. auto.
Qed.

Lemma store_addSensor_cases req db :
  idKeyed db ->
  (exists es, Prj3.addSensor (DAO := Mongo.dao DC DI) req db
              = (errResults es, db))
  \/ exists s t,
       makeSensor req = okResult s
       /\ Mongo.connected db = true
       /\ Mongo.sensorTypes db !! Sensor.sensorTypeId s = Some t
       /\ Range.isSubrange (Sensor.expected s) (SensorType.limits t) = true
       /\ Mongo.sensors db !! Sensor.id s = None
       /\ Prj3.addSensor (DAO := Mongo.dao DC DI) req db
          = (okResult s,
             Mongo.mkDb (Mongo.connected db) (Mongo.sensorTypes db)
               (<[Sensor.id s := s]> (Mongo.sensors db))
               (Mongo.sensorReadings db)).
Proof.
  intros Hk. unfold Prj3.addSensor.
  destruct (makeSensor req) as [s|es]; [|left; eauto].
  simpl. unfold Mongo.findSensorTypes.
  destruct (Mongo.connected db) eqn:Hup; simpl; [|left; eauto].
  unfold Mongo.sortedSensorTypes. rewrite (matchSensorType_ofId _ _ Hk).
  destruct (Mongo.page _ _ _) as [l|] eqn:Hp; [|left; eauto].
  destruct l as [|ty [|? ?]]; [left; eauto| |left; eauto].
  assert (Hty : Mongo.sensorTypes db !! Sensor.sensorTypeId s = Some ty).
  { pose proof (page_In _ _ _ _ ty Hp (or_introl eq_refl)) as Hin.
    apply In_sort in Hin.
    destruct (Mongo.sensorTypes db !! Sensor.sensorTypeId s) as [t0|];
      simpl in Hin; [|destruct Hin].
    destruct Hin as [<-|[]]. reflexivity. }
  destruct (Range.isSubrange _ _) eqn:Es; simpl; [|left; eauto].
  destruct (dao_addSensor_cases s db) as [H|(_ & H2 & H3)]; [now left|].
  right. exists s, ty. rewrite Hup in H3. auto 10.
Qed.

Lemma store_addSensorReading_cases req db :
  idKeyed db ->
  (exists es, Prj3.addSensorReading (DAO := Mongo.dao DC DI) req db
              = (errResults es, db))
  \/ exists r,
       makeSensorReading req = okResult r
       /\ Mongo.connected db = true
       /\ is_Some (Mongo.sensors db !! SensorReading.sensorId r)
       /\ existsb (Mongo.sameKey r) (Mongo.sensorReadings db) = false
       /\ Prj3.addSensorReading (DAO := Mongo.dao DC DI) req db
          = (okResult r,
             Mongo.mkDb (Mongo.connected db) (Mongo.sensorTypes db)
               (Mongo.sensors db) (Mongo.sensorReadings db ++ [r])%list).
Proof.
  intros Hk. unfold Prj3.addSensorReading.
  destruct (makeSensorReading req) as [r|es]; [|left; eauto].
  simpl. unfold Mongo.findSensors.
  destruct (Mongo.connected db) eqn:Hup; simpl; [|left; eauto].
  unfold Mongo.sortedSensors. rewrite (matchSensor_ofId _ _ Hk).
  destruct (Mongo.page _ _ _) as [l|] eqn:Hp; [|left; eauto].
  destruct l as [|s [|? ?]]; [left; eauto| |left; eauto].
  assert (Hs : is_Some (Mongo.sensors db !! SensorReading.sensorId r)).
  { pose proof (page_In _ _ _ _ s Hp (or_introl eq_refl)) as Hin.
    apply In_sort in Hin.
    destruct (Mongo.sensors db !! SensorReading.sensorId r) as [s0|];
      simpl in Hin; [eauto|destruct Hin]. }
  destruct (dao_addSensorReading_cases r db) as [H|(_ & H2 & H3)]; [now left|].
  right. exists r. rewrite Hup in H3. auto 10.
Qed.

Lemma find_keeps_db_readings search db :
  (Mongo.findSensorReadings DC DI search db).2 = db.
Proof.
  unfold Mongo.findSensorReadings. destruct (negb _); [reflexivity|].
  now destruct (Mongo.page _ _ _).
Qed.

Lemma sameKey_sym a b : Mongo.sameKey a b = Mongo.sameKey b a.
Proof.
  unfold Mongo.sameKey. rewrite String.eqb_sym. f_equal. apply JSFacts.eqb_sym.
Qed.

(** Every reachable database keeps each sensor with its sensor type and
    within the limits of the type. *)
Lemma reachable_dbSensorsWithinLimits db :
  Prj3.reachable DC DI db -> dbSensorsWithinLimits db.
Proof.
  induction 1 as [up|db up _ IH|db _ IH|db req _ IH|db req Hr IH|db req Hr IH].
  - intros k s Hs. simpl in Hs. now rewrite lookup_empty in Hs.
  - exact IH.
  - unfold Prj3.clear. simpl. unfold Mongo.clear.
    destruct (negb _); [assumption|].
    intros k s Hs. simpl in Hs. now rewrite lookup_empty in Hs.
  - destruct (store_addSensorType_cases req db)
      as [[es ->]|(t & _ & _ & Hfresh & ->)]; [assumption|].
    intros k s Hs. simpl in *. destruct (IH k s Hs) as (ty & Hty & Hsub).
    exists ty. split; [|assumption].
    rewrite lookup_insert_ne; [assumption|]. congruence.
  - destruct (reachable_invariant DC DI db Hr) as [Hk _].
    destruct (store_addSensor_cases req db Hk)
      as [[es ->]|(s & t & _ & _ & Ht & Hsub & _ & ->)]; [assumption|].
    intros k x Hx. simpl in *.
    destruct (decide (Sensor.id s = k)) as [<-|Hne].
    + rewrite lookup_insert_eq in Hx. injection Hx as <-. eauto.
    + rewrite lookup_insert_ne in Hx by assumption. eauto.
  - destruct (reachable_invariant DC DI db Hr) as [Hk _].
    destruct (store_addSensorReading_cases req db Hk)
      as [[es ->]|(r & _ & _ & _ & _ & ->)]; assumption.
Qed.

(** Every reachable database keeps one reading at most for a sensor
    and a timestamp. *)
Lemma reachable_dbDistinctKeys db :
  Prj3.reachable DC DI db -> dbDistinctKeys db.
Proof.
  induction 1 as [up|db up _ IH|db _ IH|db req _ IH|db req Hr IH|db req Hr IH].
  - intros i j x y Hx. simpl in Hx. now rewrite lookup_nil in Hx.
  - exact IH.
  - unfold Prj3.clear. simpl. unfold Mongo.clear.
    destruct (negb _); [assumption|].
    intros i j x y Hx. simpl in Hx. now rewrite lookup_nil in Hx.
  - destruct (store_addSensorType_cases req db)
      as [[es ->]|(t & _ & _ & _ & ->)]; assumption.
  - destruct (reachable_invariant DC DI db Hr) as [Hk _].
    destruct (store_addSensor_cases req db Hk)
      as [[es ->]|(s & t & _ & _ & _ & _ & _ & ->)]; assumption.
  - destruct (reachable_invariant DC DI db Hr) as [Hk _].
    destruct (store_addSensorReading_cases req db Hk)
      as [[es ->]|(r & _ & _ & _ & Hnew & ->)]; [assumption|].
    assert (Hnone : forall x, In x (Mongo.sensorReadings db) ->
                              Mongo.sameKey r x = false).
    { intros x Hx. destruct (Mongo.sameKey r x) eqn:E; [|reflexivity].
      assert (existsb (Mongo.sameKey r) (Mongo.sensorReadings db) = true)
        by (apply existsb_exists; eauto).
      congruence. }
    intros i j x y Hx Hy Hij. simpl in *.
    apply lookup_app_Some in Hx as [Hx|[Hi Hx]];
      apply lookup_app_Some in Hy as [Hy|[Hj Hy]].
    + exact (IH i j x y Hx Hy Hij).
    + apply list_lookup_singleton_Some in Hy as [_ <-].
      rewrite sameKey_sym. apply Hnone.
      apply list_elem_of_In. eapply list_elem_of_lookup_2; eauto.
    + apply list_lookup_singleton_Some in Hx as [_ <-].
      apply Hnone. apply list_elem_of_In. eapply list_elem_of_lookup_2; eauto.
    + apply list_lookup_singleton_Some in Hx as [Hx _].
      apply list_lookup_singleton_Some in Hy as [Hy _]. lia.
Qed.
End Params.

End DaoCases.

(** ** Searches and bulk adds of the DAO-backed store *)

Module DaoSearch.
Import Errors Checkers Validators Search Dyn Spec Inv.
Import JSFacts CheckerFacts FilterFacts MongoFacts Prj3Facts Prj3Inv NumFacts
       ValidFacts DaoCases.

Ltac declared_field :=
  apply checkedVal_declared;
  [ assumption
  | apply optional_defaults;
    repeat (apply List.Forall_cons; [simpl; tauto|]); apply List.Forall_nil
  | simpl; tauto ].

(** The search criteria made from a request are the fields of the
    request. *)
Lemma SensorTypeSearch_fields req search :
  SensorTypeSearch.make req = okResult search ->
  SensorTypeSearch.id search = req !! "id"
  /\ SensorTypeSearch.manufacturer search = req !! "manufacturer"
  /\ SensorTypeSearch.modelNumber search = req !! "modelNumber"
  /\ SensorTypeSearch.quantity search = req !! "quantity"
  /\ SensorTypeSearch.unit search = req !! "unit".
Proof.
  unfold SensorTypeSearch.make.
  destruct (checkFlatReq req SensorTypeSearch.CHECKS) as [val|] eqn:E;
    [|discriminate].
  intros [= <-]. apply checkFlatReq_ok in E as (Herr & _ & ->).
  unfold SensorTypeSearch.new.
  cbn [SensorTypeSearch.id SensorTypeSearch.manufacturer
       SensorTypeSearch.modelNumber SensorTypeSearch.quantity
       SensorTypeSearch.unit].
  repeat split; declared_field.
Qed.

Lemma truthyField_ext (val req : FlatReq) f :
  val !! f = req !! f -> truthyField val f = truthyField req f.
Proof. unfold truthyField. now intros ->. Qed.

Lemma SensorSearch_fields req search :
  SensorSearch.make req = okResult search ->
  SensorSearch.id search = truthyField req "id"
  /\ SensorSearch.sensorTypeId search = truthyField req "sensorTypeId".
Proof.
  unfold SensorSearch.make.
  destruct (checkFlatReq req SensorSearch.CHECKS) as [val|] eqn:E;
    [|discriminate].
  intros [= <-]. apply checkFlatReq_ok in E as (Herr & _ & ->).
  unfold SensorSearch.new. cbn [SensorSearch.id SensorSearch.sensorTypeId].
  split; apply truthyField_ext; declared_field.
Qed.

Lemma SensorReadingSearch_fields req search :
  SensorReadingSearch.make req = okResult search ->
  (exists sid, req !! "sensorId" = Some sid
               /\ SensorReadingSearch.sensorId search = Some sid)
  /\ SensorReadingSearch.minTimestamp search
     = JS.NumberOr (req !! "minTimestamp") JS.NegInf
  /\ SensorReadingSearch.maxTimestamp search
     = JS.NumberOr (req !! "maxTimestamp") JS.PosInf
  /\ SensorReadingSearch.minValue search
     = JS.NumberOr (req !! "minValue") JS.NegInf
  /\ SensorReadingSearch.maxValue search
     = JS.NumberOr (req !! "maxValue") JS.PosInf.
Proof.
  unfold SensorReadingSearch.make.
  destruct (checkFlatReq req SensorReadingSearch.CHECKS) as [val|] eqn:E;
    [|discriminate].
  intros [= <-].
  destruct (checkFlatReq_ok_field _ _ _ "sensorId" required E)
    as (sid & Hsid & _); [simpl; tauto|reflexivity|].
  apply checkFlatReq_ok in E as (Herr & _ & ->).
  unfold SensorReadingSearch.new.
  cbn [SensorReadingSearch.sensorId SensorReadingSearch.minTimestamp
       SensorReadingSearch.maxTimestamp SensorReadingSearch.minValue
       SensorReadingSearch.maxValue].
  split; [exists sid; split; [assumption|]; rewrite <- Hsid; declared_field|].
  repeat split; f_equal; declared_field.
Qed.

Lemma fieldIs_Some v x : Mongo.fieldIs (Some v) x = true -> x = v.
Proof. simpl. intros H. now apply String.eqb_eq in H. Qed.

Lemma In_filter_values {V : Type} (p : string * V -> bool) (m : gmap string V) x :
  In x (List.filter p (map_to_list m)).*2 ->
  exists k, m !! k = Some x /\ p (k, x) = true.
Proof.
  intros H. apply list_elem_of_In, list_elem_of_fmap in H as ([k y] & -> & H).
  apply list_elem_of_In, filter_In in H as [H Hp].
  apply list_elem_of_In, elem_of_map_to_list in H. eauto.
Qed.

(** The bulk adds. *)
Section AddAll.
Context {D A : Type} (add : FlatReq -> D -> Result A * D).

Lemma daoAddAll_preserves (P : D -> Prop) :
  (forall req dao, P dao -> P (add req dao).2) ->
  forall reqs dao, P dao -> P (Prj3Factory.addAll add reqs dao).2.
Proof.
  intros Hstep reqs. induction reqs as [|req rest IH]; intros dao HP;
    [exact HP|].
  simpl. pose proof (Hstep req dao HP) as H1.
  destruct (add req dao) as [[a|es] dao1]; simpl in *; auto.
Qed.

Lemma daoAddAll_ok (I : D -> Prop) (Q : FlatReq -> D -> Prop) :
  (forall req dao, I dao -> I (add req dao).2) ->
  (forall req dao a dao', I dao -> add req dao = (okResult a, dao') ->
                          Q req dao') ->
  (forall q req dao, I dao -> Q q dao -> Q q (add req dao).2) ->
  forall reqs dao dao',
    I dao ->
    Prj3Factory.addAll add reqs dao = (okResult tt, dao') ->
    forall req, In req reqs -> Q req dao'.
Proof.
  intros HI Hadd Hkeep reqs.
  induction reqs as [|q rest IH]; intros dao dao' Hdao H req; [intros []|].
  simpl in H. destruct (add q dao) as [[a|es] dao1] eqn:E; [|discriminate].
  assert (HI1 : I dao1).
  { replace dao1 with (add q dao).2 by now rewrite E. now apply HI. }
  intros [<-|Hin].
  - pose proof (Hadd _ _ _ _ Hdao E) as HQ.
    pose proof (daoAddAll_preserves (fun d => I d /\ Q q d)) as HP.
    destruct (HP (fun req d '(conj Hd Hq) =>
                    conj (HI req d Hd) (Hkeep q req d Hd Hq))
                 rest dao1 (conj HI1 HQ)) as [_ HQ'].
    now rewrite H in HQ'.
  - exact (IH _ _ HI1 H _ Hin).
Qed.
End AddAll.

End DaoSearch.

(** ** The DAO-backed store, as its users see it *)

Module DaoStore.
Import Errors Checkers Validators Search Dyn Spec Inv Data.
Import JSFacts CheckerFacts FilterFacts MongoFacts Prj3Facts Prj3Inv NumFacts
       ValidFacts DaoCases DaoSearch.

Lemma sample_db_reachable DC DI : Prj3.reachable DC DI (db1 DC DI).
Proof.
  unfold db1. apply Prj3.reach_addSensorReading, Prj3.reach_addSensor,
    Prj3.reach_addSensorType, Prj3.reach_empty.
Qed.



(** X14.  In every state the database reaches under the DAO-backed
    store, no two readings have the same sensor and the same timestamp. *)
Theorem dao_distinct_keys (DEFAULT_COUNT DEFAULT_INDEX : nat) (db : Mongo.Db) :
  Prj3.reachable DEFAULT_COUNT DEFAULT_INDEX db -> dbDistinctKeys db.
Proof. apply reachable_dbDistinctKeys. Qed.

Lemma dao_distinct_keys_witness :
  let db := (Prj3.addSensorReading (DAO := Mongo.dao 5 0) SENSOR_READING0
               (db1 5 0)).2 in
  Prj3.reachable 5 0 db
  /\ Mongo.sensorReadings db = [SENSOR_READING1_VAL; SENSOR_READING0_VAL]
  /\ Mongo.sameKey SENSOR_READING1_VAL SENSOR_READING0_VAL = false.
Proof.
  intros db.
  assert (Hreach : Prj3.reachable 5 0 db)
    by (apply Prj3.reach_addSensorReading, sample_db_reachable).
  split; [exact Hreach|]. split; [vm_compute; reflexivity|].
  apply (dao_distinct_keys 5 0 db Hreach 0%nat 1%nat);
    [vm_compute; reflexivity | vm_compute; reflexivity | discriminate].
Defined.

(** X15.  What the DAO-backed searches for sensor types and sensors
    answer is stored and matches the request: a sensor type answered has
    exactly the value the request gives for each search field, an empty
    value included; a sensor answered has the value the request gives
    for each search field that is not empty. *)
Theorem dao_find_entities_sound (DEFAULT_COUNT DEFAULT_INDEX : nat)
    (db : Mongo.Db) (req : FlatReq) :
  (forall l t,
      (Prj3.findSensorTypes (DAO := Mongo.dao DEFAULT_COUNT DEFAULT_INDEX)
         req db).1 = okResult l ->
      In t l ->
      In t (values (Mongo.sensorTypes db))
      /\ forall f v, In f sensorTypeFields -> req !! f = Some v ->
                     fieldOf sensorType_get t f = v)
  /\ (forall l s,
         (Prj3.findSensors (DAO := Mongo.dao DEFAULT_COUNT DEFAULT_INDEX)
            req db).1 = okResult l ->
         In s l ->
         In s (values (Mongo.sensors db))
         /\ forall f v, In f sensorFields -> req !! f = Some v ->
                        v <> EmptyString -> fieldOf sensor_get s f = v).
Proof.
  split.
  - intros l t. unfold Prj3.findSensorTypes.
    destruct (SensorTypeSearch.make req) as [search|] eqn:E; [|discriminate].
    simpl. unfold Mongo.findSensorTypes. destruct (negb _); [discriminate|].
    destruct (Mongo.page _ _ _) as [l'|] eqn:Hp; [|discriminate].
    intros [= <-] Hin. apply (page_In _ _ _ _ _ Hp), In_sort in Hin.
    apply In_filter_values in Hin as (k & Hk & Hm).
    split; [apply In_values; eauto|].
    destruct (SensorTypeSearch_fields _ _ E) as (H1 & H2 & H3 & H4 & H5).
    unfold Mongo.matchSensorType in Hm. rewrite H1, H2, H3, H4, H5 in Hm.
    repeat (apply andb_true_iff in Hm as [Hm ?]). cbn [fst snd] in *.
    intros f v [<-|[<-|[<-|[<-|[<-|[]]]]]] Hv; unfold fieldOf; cbn;
      apply fieldIs_Some; rewrite <- Hv; assumption.
  - intros l s. unfold Prj3.findSensors.
    destruct (SensorSearch.make req) as [search|] eqn:E; [|discriminate].
    simpl. unfold Mongo.findSensors. destruct (negb _); [discriminate|].
    destruct (Mongo.page _ _ _) as [l'|] eqn:Hp; [|discriminate].
    intros [= <-] Hin. apply (page_In _ _ _ _ _ Hp), In_sort in Hin.
    apply In_filter_values in Hin as (k & Hk & Hm).
    split; [apply In_values; eauto|].
    destruct (SensorSearch_fields _ _ E) as (H1 & H2).
    unfold Mongo.matchSensor in Hm. rewrite H1, H2 in Hm.
    repeat (apply andb_true_iff in Hm as [Hm ?]). cbn [fst snd] in *.
    assert (Ht : forall f v, req !! f = Some v -> v <> EmptyString ->
                             truthyField req f = Some v).
    { intros f v Hv Hne. unfold truthyField. rewrite Hv.
      destruct v; [congruence|reflexivity]. }
    intros f v [<-|[<-|[]]] Hv Hne; unfold fieldOf; cbn;
      apply fieldIs_Some; rewrite <- (Ht _ _ Hv Hne); assumption.
Qed.

Lemma dao_find_entities_sound_witness :
  (Prj3.findSensors (DAO := Mongo.dao 5 0)
     (list_to_map [("sensorTypeId", "hw123")]) (db1 5 0)).1
  = okResult [SENSOR1_VAL]
  /\ In SENSOR1_VAL (values (Mongo.sensors (db1 5 0))).
Proof.
  set (req := list_to_map [("sensorTypeId", "hw123")] : FlatReq).
  assert (H : (Prj3.findSensors (DAO := Mongo.dao 5 0) req (db1 5 0)).1
              = okResult [SENSOR1_VAL]) by (vm_compute; reflexivity).
  split; [exact H|].
  destruct (proj2 (dao_find_entities_sound 5 0 (db1 5 0) req)
              [SENSOR1_VAL] SENSOR1_VAL H (or_introl eq_refl)) as [Hin _].
  exact Hin.
Defined.

(** X16.  What the DAO-backed search for readings answers is stored,
    belongs to the requested sensor, and lies within the inclusive
    bounds of the request as written, decimal places included. *)
Theorem dao_findSensorReadings_sound (DEFAULT_COUNT DEFAULT_INDEX : nat)
    (db : Mongo.Db) (req : FlatReq) l :
  (Prj3.findSensorReadings (DAO := Mongo.dao DEFAULT_COUNT DEFAULT_INDEX)
     req db).1 = okResult l ->
  exists sid,
    req !! "sensorId" = Some sid
    /\ forall r, In r l ->
         In r (Mongo.sensorReadings db)
         /\ SensorReading.sensorId r = sid
         /\ JS.le (JS.NumberOr (req !! "minTimestamp") JS.NegInf)
                  (SensorReading.timestamp r) = true
         /\ JS.le (SensorReading.timestamp r)
                  (JS.NumberOr (req !! "maxTimestamp") JS.PosInf) = true
         /\ JS.le (JS.NumberOr (req !! "minValue") JS.NegInf)
                  (SensorReading.value r) = true
         /\ JS.le (SensorReading.value r)
                  (JS.NumberOr (req !! "maxValue") JS.PosInf) = true.
Proof.
  unfold Prj3.findSensorReadings.
  destruct (SensorReadingSearch.make req) as [search|] eqn:E; [|discriminate].
  simpl. unfold Mongo.findSensorReadings. destruct (negb _); [discriminate|].
  destruct (Mongo.page _ _ _) as [l'|] eqn:Hp; [|discriminate].
  intros [= <-].
  destruct (SensorReadingSearch_fields _ _ E)
    as ((sid & Hsid & H0) & H1 & H2 & H3 & H4).
  exists sid. split; [assumption|]. intros r Hin.
  apply (page_In _ _ _ _ _ Hp), In_sort, filter_In in Hin as [Hin Hm].
  unfold Mongo.matchReading in Hm. rewrite H0, H1, H2, H3, H4 in Hm.
  repeat (apply andb_true_iff in Hm as [Hm ?]).
  apply fieldIs_Some in Hm. auto 10.
Qed.

Lemma dao_findSensorReadings_sound_witness :
  (Prj3.findSensorReadings (DAO := Mongo.dao 5 0)
     (list_to_map [("sensorId", "ln1120"); ("minValue", "12.3")])
     (db1 5 0)).1 = okResult [SENSOR_READING1_VAL]
  /\ JS.le (JS.Number "12.3") (SensorReading.value SENSOR_READING1_VAL) = true.
Proof.
  set (req := list_to_map [("sensorId", "ln1120"); ("minValue", "12.3")]
              : FlatReq).
  assert (H : (Prj3.findSensorReadings (DAO := Mongo.dao 5 0) req (db1 5 0)).1
              = okResult [SENSOR_READING1_VAL]) by (vm_compute; reflexivity).
  split; [exact H|].
  destruct (dao_findSensorReadings_sound 5 0 (db1 5 0) req _ H)
    as (sid & _ & Hall).
  destruct (Hall SENSOR_READING1_VAL (or_introl eq_refl))
    as (_ & _ & _ & _ & Hv & _).
  exact Hv.
Defined.

(** X17.  Consecutive pages tile the matches.  With the database
    connected and in a state the store reaches, where the keys the DAO
    sorts by are unique: the page of [count] results from [index]
    followed by the page of [count'] results from [index + count] is
    the page of [count + count'] results from [index]; nothing is
    skipped and nothing comes twice.  This holds for the three searches
    of the DAO, for readings with the sensor given. *)
Theorem dao_pages_tile (DEFAULT_COUNT DEFAULT_INDEX : nat) (db : Mongo.Db)
    (index count count' : nat) :
  Prj3.reachable DEFAULT_COUNT DEFAULT_INDEX db ->
  Mongo.connected db = true -> 1 <= count -> 1 <= count' ->
  (forall search, exists l1 l2,
      (Mongo.findSensorTypes DEFAULT_COUNT DEFAULT_INDEX
         (sensorTypesPage search index count) db).1 = okResult l1
      /\ (Mongo.findSensorTypes DEFAULT_COUNT DEFAULT_INDEX
            (sensorTypesPage search (index + count) count') db).1 = okResult l2
      /\ (Mongo.findSensorTypes DEFAULT_COUNT DEFAULT_INDEX
            (sensorTypesPage search index (count + count')) db).1
         = okResult (l1 ++ l2)%list)
  /\ (forall search, exists l1 l2,
         (Mongo.findSensors DEFAULT_COUNT DEFAULT_INDEX
            (sensorsPage search index count) db).1 = okResult l1
         /\ (Mongo.findSensors DEFAULT_COUNT DEFAULT_INDEX
               (sensorsPage search (index + count) count') db).1 = okResult l2
         /\ (Mongo.findSensors DEFAULT_COUNT DEFAULT_INDEX
               (sensorsPage search index (count + count')) db).1
            = okResult (l1 ++ l2)%list)
  /\ (forall search,
         is_Some (SensorReadingSearch.sensorId search) ->
         exists l1 l2,
           (Mongo.findSensorReadings DEFAULT_COUNT DEFAULT_INDEX
              (readingsPage search index count) db).1 = okResult l1
           /\ (Mongo.findSensorReadings DEFAULT_COUNT DEFAULT_INDEX
                 (readingsPage search (index + count) count') db).1
              = okResult l2
           /\ (Mongo.findSensorReadings DEFAULT_COUNT DEFAULT_INDEX
                 (readingsPage search index (count + count')) db).1
              = okResult (l1 ++ l2)%list).
Proof.
  intros _ Hup Hc Hc'.
  assert (Htile : forall (A : Type) (l : list A),
             window index (count + count') l
             = (window index count l ++ window (index + count) count' l)%list).
  { intros A l. unfold window. rewrite <- (drop_drop l count index).
    symmetry. apply take_take_drop. }
  split; [|split]; intros search.
  - unfold Mongo.findSensorTypes. rewrite Hup. simpl.
    change (Mongo.sortedSensorTypes (sensorTypesPage search _ _) db)
      with (Mongo.sortedSensorTypes search db).
    rewrite !page_window by lia. simpl. rewrite Htile. eauto.
  - unfold Mongo.findSensors. rewrite Hup. simpl.
    change (Mongo.sortedSensors (sensorsPage search _ _) db)
      with (Mongo.sortedSensors search db).
    rewrite !page_window by lia. simpl. rewrite Htile. eauto.
  - intros _. unfold Mongo.findSensorReadings. rewrite Hup. simpl.
    change (Mongo.sortedReadings (readingsPage search _ _) db)
      with (Mongo.sortedReadings search db).
    rewrite !page_window by lia. simpl. rewrite Htile. eauto.
Qed.

Lemma dao_pages_tile_witness :
  let all := SensorTypeSearch.mk None None None None None None None in
  Prj3.reachable 5 0 (db6 5 0)
  /\ Mongo.connected (db6 5 0) = true
  /\ exists l1 l2,
       (Mongo.findSensorTypes 5 0 (sensorTypesPage all 0 2) (db6 5 0)).1
       = okResult l1
       /\ (Mongo.findSensorTypes 5 0 (sensorTypesPage all (0 + 2) 3) (db6 5 0)).1
          = okResult l2
       /\ (Mongo.findSensorTypes 5 0 (sensorTypesPage all 0 (2 + 3)) (db6 5 0)).1
          = okResult (l1 ++ l2)%list.
Proof.
  intros all.
  assert (Hreach : Prj3.reachable 5 0 (db6 5 0)).
  { unfold db6, sixSensorTypes. cbn [map fold_left].
    repeat apply Prj3.reach_addSensorType. apply Prj3.reach_empty. }
  assert (Hup : Mongo.connected (db6 5 0) = true) by (vm_compute; reflexivity).
  split; [exact Hreach|]. split; [exact Hup|].
  assert (H2 : 1 <= 2) by lia. assert (H3 : 1 <= 3) by lia.
  exact (proj1 (dao_pages_tile 5 0 (db6 5 0) 0 2 3 Hreach Hup H2 H3) all).
Defined.

(** X18.  While the database cannot be reached, [clear] and every
    request that passes validation fail with the one code DB, and the
    database is left as it was. *)
Theorem dao_unavailable (DEFAULT_COUNT DEFAULT_INDEX : nat) (db : Mongo.Db)
    (req : FlatReq) :
  Mongo.connected db = false ->
  let dao := Mongo.dao DEFAULT_COUNT DEFAULT_INDEX in
  (failsWith (Prj3.clear (DAO := dao) db).1 "DB"
   /\ (Prj3.clear (DAO := dao) db).2 = db)
  /\ (isOk (makeSensorType req) = true ->
      failsWith (Prj3.addSensorType (DAO := dao) req db).1 "DB"
      /\ (Prj3.addSensorType (DAO := dao) req db).2 = db)
  /\ (isOk (makeSensor req) = true ->
      failsWith (Prj3.addSensor (DAO := dao) req db).1 "DB"
      /\ (Prj3.addSensor (DAO := dao) req db).2 = db)
  /\ (isOk (makeSensorReading req) = true ->
      failsWith (Prj3.addSensorReading (DAO := dao) req db).1 "DB"
      /\ (Prj3.addSensorReading (DAO := dao) req db).2 = db)
  /\ (isOk (SensorTypeSearch.make req) = true ->
      failsWith (Prj3.findSensorTypes (DAO := dao) req db).1 "DB")
  /\ (isOk (SensorSearch.make req) = true ->
      failsWith (Prj3.findSensors (DAO := dao) req db).1 "DB")
  /\ (isOk (SensorReadingSearch.make req) = true ->
      failsWith (Prj3.findSensorReadings (DAO := dao) req db).1 "DB").
Proof.
  intros Hup dao. subst dao. repeat split.
  all: try (unfold Prj3.clear; simpl; unfold Mongo.clear; rewrite Hup;
            reflexivity).
  all: revert H.
  all: unfold Prj3.addSensorType, Prj3.addSensor, Prj3.addSensorReading,
         Prj3.findSensorTypes, Prj3.findSensors, Prj3.findSensorReadings.
  all: match goal with
       | |- context [match ?m with okResult _ => _ | errResults _ => _ end] =>
           destruct m; [intros _|discriminate]
       end.
  all: simpl; unfold Mongo.addSensorType, Mongo.insertOne, Mongo.findSensorTypes,
         Mongo.findSensors, Mongo.findSensorReadings; rewrite Hup; reflexivity.
Qed.

Lemma dao_unavailable_witness :
  let down := Mongo.mkDb false (Mongo.sensorTypes (db1 5 0))
                (Mongo.sensors (db1 5 0)) (Mongo.sensorReadings (db1 5 0)) in
  codes (Prj3.addSensorReading (DAO := Mongo.dao 5 0) SENSOR_READING0 down).1
  = ["DB"].
Proof.
  intros down.
  destruct (dao_unavailable 5 0 down SENSOR_READING0 eq_refl)
    as (_ & _ & _ & H & _).
  apply H. vm_compute. reflexivity.
Defined.

(** X19.  With the database connected, [clear] succeeds and empties it:
    afterwards whatever a search answers is the empty list. *)
Theorem dao_clear_empties (DEFAULT_COUNT DEFAULT_INDEX : nat) (db : Mongo.Db) :
  Mongo.connected db = true ->
  let dao := Mongo.dao DEFAULT_COUNT DEFAULT_INDEX in
  let db' := (Prj3.clear (DAO := dao) db).2 in
  (Prj3.clear (DAO := dao) db).1 = okResult tt
  /\ (forall req l,
         (Prj3.findSensorTypes (DAO := dao) req db').1 = okResult l -> l = [])
  /\ (forall req l,
         (Prj3.findSensors (DAO := dao) req db').1 = okResult l -> l = [])
  /\ (forall req l,
         (Prj3.findSensorReadings (DAO := dao) req db').1 = okResult l ->
         l = []).
Proof.
  intros Hup dao db'. subst dao db'. unfold Prj3.clear. simpl.
  unfold Mongo.clear. rewrite Hup. simpl. split; [reflexivity|].
  split; [|split]; intros req l.
  - unfold Prj3.findSensorTypes.
    destruct (SensorTypeSearch.make req) as [search|]; [|discriminate].
    simpl. unfold Mongo.findSensorTypes. simpl.
    unfold Mongo.sortedSensorTypes. simpl. rewrite map_to_list_empty. simpl.
    destruct (Mongo.page _ _ _) as [l'|] eqn:Hp; [|discriminate].
    intros [= <-]. exact (page_nil _ _ _ Hp).
  - unfold Prj3.findSensors.
    destruct (SensorSearch.make req) as [search|]; [|discriminate].
    simpl. unfold Mongo.findSensors. simpl.
    unfold Mongo.sortedSensors. simpl. rewrite map_to_list_empty. simpl.
    destruct (Mongo.page _ _ _) as [l'|] eqn:Hp; [|discriminate].
    intros [= <-]. exact (page_nil _ _ _ Hp).
  - unfold Prj3.findSensorReadings.
    destruct (SensorReadingSearch.make req) as [search|]; [|discriminate].
    simpl. unfold Mongo.findSensorReadings. simpl.
    unfold Mongo.sortedReadings. simpl.
    destruct (Mongo.page _ _ _) as [l'|] eqn:Hp; [|discriminate].
    intros [= <-]. exact (page_nil _ _ _ Hp).
Qed.

Lemma dao_clear_empties_witness :
  Mongo.connected (db1 5 0) = true
  /\ (Prj3.findSensorTypes (DAO := Mongo.dao 5 0) ∅
        (Prj3.clear (DAO := Mongo.dao 5 0) (db1 5 0)).2).1 = okResult [].
Proof.
  assert (Hup : Mongo.connected (db1 5 0) = true) by (vm_compute; reflexivity).
  split; [exact Hup|].
  destruct (Prj3.findSensorTypes (DAO := Mongo.dao 5 0) ∅
              (Prj3.clear (DAO := Mongo.dao 5 0) (db1 5 0)).2).1
    as [l|es] eqn:E.
  - destruct (dao_clear_empties 5 0 (db1 5 0) Hup) as (_ & H & _).
    now rewrite (H _ _ E).
  - vm_compute in E. discriminate E.
Defined.



(** X21.  With the database connected, in a state the store reaches,
    and [DEFAULT_INDEX] zero, a reading that passes validation is
    accepted exactly when its sensor is in the database and no reading
    with its sensor and timestamp is: for an unknown sensor the add
    fails with BAD_ID and changes nothing; otherwise the reading is
    answered and is the last of the readings. *)
Theorem dao_addSensorReading_needs_sensor (DEFAULT_COUNT : nat) (db : Mongo.Db)
    (req : FlatReq) (r : SensorReading.t) :
  Prj3.reachable DEFAULT_COUNT 0 db -> Mongo.connected db = true ->
  makeSensorReading req = okResult r ->
  let result := Prj3.addSensorReading (DAO := Mongo.dao DEFAULT_COUNT 0) req db in
  (Mongo.sensors db !! SensorReading.sensorId r = None ->
   failsWith result.1 "BAD_ID" /\ result.2 = db)
  /\ (is_Some (Mongo.sensors db !! SensorReading.sensorId r) ->
      existsb (Mongo.sameKey r) (Mongo.sensorReadings db) = false ->
      result = (okResult r,
                Mongo.mkDb (Mongo.connected db) (Mongo.sensorTypes db)
                  (Mongo.sensors db) (Mongo.sensorReadings db ++ [r])%list)).
Proof.
  intros Hreach Hup Hmk result. subst result.
  destruct (reachable_invariant _ _ _ Hreach) as [Hk _].
  unfold Prj3.addSensorReading. rewrite Hmk. simpl.
  rewrite (findSensors_ofId DEFAULT_COUNT db _ Hup Hk). split.
  - intros ->. repeat split.
  - intros [s ->] Hnew.
    destruct (dao_addSensorReading_cases r db) as [[es H]|(_ & _ & H)];
      [|exact H].
    exfalso. revert H. unfold Mongo.addSensorReading, Mongo.insertReading.
    rewrite Hup, Hnew. discriminate.
Qed.

Lemma dao_addSensorReading_needs_sensor_witness :
  Prj3.reachable 5 0 (db1 5 0)
  /\ makeSensorReading (<[ "sensorId" := "ln9" ]> SENSOR_READING0)
     = okResult (SensorReading.mk "ln9" (JS.of_Z 1694129000) (JS.of_Z 11))
  /\ failsWith
       (Prj3.addSensorReading (DAO := Mongo.dao 5 0)
          (<[ "sensorId" := "ln9" ]> SENSOR_READING0) (db1 5 0)).1 "BAD_ID".
Proof.
  assert (Hmk : makeSensorReading (<[ "sensorId" := "ln9" ]> SENSOR_READING0)
                = okResult (SensorReading.mk "ln9" (JS.of_Z 1694129000)
                              (JS.of_Z 11))) by (vm_compute; reflexivity).
  split; [apply sample_db_reachable|]. split; [exact Hmk|].
  apply (proj1 (dao_addSensorReading_needs_sensor 5 (db1 5 0) _ _
                  (sample_db_reachable 5 0) eq_refl Hmk)).
  vm_compute. reflexivity.
Defined.

(** X22.  [addSensorsInfo] over the DAO: started in a reachable state
    it ends in one, and when it succeeds everything given is in the
    database as given: every request was valid, each sensor type and
    each sensor is stored under its id, and each reading is among the
    readings. *)
Theorem dao_addSensorsInfo_loaded (DEFAULT_COUNT DEFAULT_INDEX : nat)
    (sensorTypes sensors sensorReadings : list FlatReq) (db db' : Mongo.Db) :
  Prj3.reachable DEFAULT_COUNT DEFAULT_INDEX db ->
  Prj3Factory.addSensorsInfo (DAO := Mongo.dao DEFAULT_COUNT DEFAULT_INDEX)
    sensorTypes sensors sensorReadings db = (okResult tt, db') ->
  Prj3.reachable DEFAULT_COUNT DEFAULT_INDEX db'
  /\ (forall req, In req sensorTypes ->
        exists t, makeSensorType req = okResult t
                  /\ Mongo.sensorTypes db' !! SensorType.id t = Some t)
  /\ (forall req, In req sensors ->
        exists s, makeSensor req = okResult s
                  /\ Mongo.sensors db' !! Sensor.id s = Some s)
  /\ (forall req, In req sensorReadings ->
        exists r, makeSensorReading req = okResult r
                  /\ In r (Mongo.sensorReadings db')).
Proof.
  set (DC := DEFAULT_COUNT). set (DI := DEFAULT_INDEX).
  set (I := Prj3.reachable DC DI).
  assert (St : forall req d, I d ->
                 I (Prj3.addSensorType (DAO := Mongo.dao DC DI) req d).2)
    by (intros; now apply Prj3.reach_addSensorType).
  assert (Ss : forall req d, I d ->
                 I (Prj3.addSensor (DAO := Mongo.dao DC DI) req d).2)
    by (intros; now apply Prj3.reach_addSensor).
  assert (Sr : forall req d, I d ->
                 I (Prj3.addSensorReading (DAO := Mongo.dao DC DI) req d).2)
    by (intros; now apply Prj3.reach_addSensorReading).
  (* what each add keeps *)
  assert (Kt : forall k (x : SensorType.t) d,
             I d -> Mongo.sensorTypes d !! k = Some x ->
             (forall req, Mongo.sensorTypes
                (Prj3.addSensorType (DAO := Mongo.dao DC DI) req d).2 !! k = Some x)
             /\ (forall req, Mongo.sensorTypes
                   (Prj3.addSensor (DAO := Mongo.dao DC DI) req d).2 !! k = Some x)
             /\ (forall req, Mongo.sensorTypes
                   (Prj3.addSensorReading (DAO := Mongo.dao DC DI) req d).2 !! k
                 = Some x)).
  { intros k x d Hd Hx. destruct (reachable_invariant _ _ _ Hd) as [Hk _].
    split; [|split]; intros req.
    - destruct (store_addSensorType_cases DC DI req d)
        as [[es ->]|(t & _ & _ & Hfresh & ->)]; [assumption|].
      simpl. rewrite lookup_insert_ne; [assumption|congruence].
    - destruct (store_addSensor_cases DC DI req d Hk)
        as [[es ->]|(s & t & _ & _ & _ & _ & _ & ->)]; assumption.
    - destruct (store_addSensorReading_cases DC DI req d Hk)
        as [[es ->]|(r & _ & _ & _ & _ & ->)]; assumption. }
  assert (Ks : forall k (x : Sensor.t) d,
             I d -> Mongo.sensors d !! k = Some x ->
             (forall req, Mongo.sensors
                (Prj3.addSensor (DAO := Mongo.dao DC DI) req d).2 !! k = Some x)
             /\ (forall req, Mongo.sensors
                   (Prj3.addSensorReading (DAO := Mongo.dao DC DI) req d).2 !! k
                 = Some x)).
  { intros k x d Hd Hx. destruct (reachable_invariant _ _ _ Hd) as [Hk _].
    split; intros req.
    - destruct (store_addSensor_cases DC DI req d Hk)
        as [[es ->]|(s & t & _ & _ & _ & _ & Hfresh & ->)]; [assumption|].
      simpl. rewrite lookup_insert_ne; [assumption|congruence].
    - destruct (store_addSensorReading_cases DC DI req d Hk)
        as [[es ->]|(r & _ & _ & _ & _ & ->)]; assumption. }
  assert (Kr : forall (x : SensorReading.t) d req,
             I d -> In x (Mongo.sensorReadings d) ->
             In x (Mongo.sensorReadings
                     (Prj3.addSensorReading (DAO := Mongo.dao DC DI) req d).2)).
  { intros x d req Hd Hx. destruct (reachable_invariant _ _ _ Hd) as [Hk _].
    destruct (store_addSensorReading_cases DC DI req d Hk)
      as [[es ->]|(r & _ & _ & _ & _ & ->)]; [assumption|].
    simpl. apply in_or_app. now left. }
  intros Hdb. unfold Prj3Factory.addSensorsInfo.
  destruct (Prj3Factory.addAll Prj3.addSensorType sensorTypes db)
    as [[[]|] d1] eqn:E1; [|discriminate].
  destruct (Prj3Factory.addAll Prj3.addSensor sensors d1)
    as [[[]|] d2] eqn:E2; [|discriminate].
  intros E3.
  assert (R1 : I d1).
  { replace d1 with (Prj3Factory.addAll
                       (Prj3.addSensorType (DAO := Mongo.dao DC DI))
                       sensorTypes db).2 by now rewrite E1.
    now apply daoAddAll_preserves. }
  assert (R2 : I d2).
  { replace d2 with (Prj3Factory.addAll
                       (Prj3.addSensor (DAO := Mongo.dao DC DI)) sensors d1).2
      by now rewrite E2.
    now apply daoAddAll_preserves. }
  assert (R3 : I db').
  { replace db' with (Prj3Factory.addAll
                        (Prj3.addSensorReading (DAO := Mongo.dao DC DI))
                        sensorReadings d2).2 by now rewrite E3.
    now apply daoAddAll_preserves. }
  split; [exact R3|]. split; [|split].
  - intros req Hin.
    destruct (daoAddAll_ok (Prj3.addSensorType (DAO := Mongo.dao DC DI)) I
                (fun req d => exists t, makeSensorType req = okResult t
                   /\ Mongo.sensorTypes d !! SensorType.id t = Some t) St)
      with (reqs := sensorTypes) (dao := db) (dao' := d1) (req := req)
      as (t & Hmk & Ht); try assumption.
    { intros q d a d' Hd Hadd.
      destruct (store_addSensorType_cases DC DI q d)
        as [[es H]|(t & Hmk & _ & _ & H)]; [congruence|].
      rewrite H in Hadd. injection Hadd as <- <-. exists t.
      split; [assumption|]. simpl. apply lookup_insert_eq. }
    { intros q q' d Hd (t & Hmk & Ht). exists t. split; [assumption|].
      now apply Kt. }
    exists t. split; [assumption|].
    replace db' with (Prj3Factory.addAll
                        (Prj3.addSensorReading (DAO := Mongo.dao DC DI))
                        sensorReadings d2).2 by now rewrite E3.
    apply (daoAddAll_preserves _
             (fun d => I d /\ Mongo.sensorTypes d !! SensorType.id t = Some t)).
    { intros q d [Hd Hx]. split; [now apply Sr|now apply Kt]. }
    split; [assumption|].
    replace d2 with (Prj3Factory.addAll
                       (Prj3.addSensor (DAO := Mongo.dao DC DI)) sensors d1).2
      by now rewrite E2.
    apply (daoAddAll_preserves _
             (fun d => I d /\ Mongo.sensorTypes d !! SensorType.id t = Some t)).
    { intros q d [Hd Hx]. split; [now apply Ss|now apply Kt]. }
    now split.
  - intros req Hin.
    destruct (daoAddAll_ok (Prj3.addSensor (DAO := Mongo.dao DC DI)) I
                (fun req d => exists s, makeSensor req = okResult s
                   /\ Mongo.sensors d !! Sensor.id s = Some s) Ss)
      with (reqs := sensors) (dao := d1) (dao' := d2) (req := req)
      as (s & Hmk & Hs); try assumption.
    { intros q d a d' Hd Hadd.
      destruct (reachable_invariant _ _ _ Hd) as [Hk _].
      destruct (store_addSensor_cases DC DI q d Hk)
        as [[es H]|(s & t & Hmk & _ & _ & _ & _ & H)]; [congruence|].
      rewrite H in Hadd. injection Hadd as <- <-. exists s.
      split; [assumption|]. simpl. apply lookup_insert_eq. }
    { intros q q' d Hd (s & Hmk & Hs). exists s. split; [assumption|].
      now apply Ks. }
    exists s. split; [assumption|].
    replace db' with (Prj3Factory.addAll
                        (Prj3.addSensorReading (DAO := Mongo.dao DC DI))
                        sensorReadings d2).2 by now rewrite E3.
    apply (daoAddAll_preserves _
             (fun d => I d /\ Mongo.sensors d !! Sensor.id s = Some s)).
    { intros q d [Hd Hx]. split; [now apply Sr|now apply Ks]. }
    now split.
  - intros req Hin.
    apply (daoAddAll_ok (Prj3.addSensorReading (DAO := Mongo.dao DC DI)) I
             (fun req d => exists r, makeSensorReading req = okResult r
                /\ In r (Mongo.sensorReadings d)) Sr)
      with (reqs := sensorReadings) (dao := d2); try assumption.
    { intros q d a d' Hd Hadd.
      destruct (reachable_invariant _ _ _ Hd) as [Hk _].
      destruct (store_addSensorReading_cases DC DI q d Hk)
        as [[es H]|(r & Hmk & _ & _ & _ & H)]; [congruence|].
      rewrite H in Hadd. injection Hadd as <- <-. exists r.
      split; [assumption|]. simpl. apply in_or_app. right. now left. }
    { intros q q' d Hd (r & Hmk & Hr). exists r. split; [assumption|].
      now apply Kr. }
Qed.

Lemma dao_addSensorsInfo_loaded_witness :
  Prj3Factory.addSensorsInfo (DAO := Mongo.dao 5 0)
    [SENSOR_TYPE1] [SENSOR1] [SENSOR_READING1] (Mongo.mkDb true ∅ ∅ [])
  = (okResult tt, db1 5 0)
  /\ exists r, makeSensorReading SENSOR_READING1 = okResult r
               /\ In r (Mongo.sensorReadings (db1 5 0)).
Proof.
  assert (H : Prj3Factory.addSensorsInfo (DAO := Mongo.dao 5 0)
                [SENSOR_TYPE1] [SENSOR1] [SENSOR_READING1]
                (Mongo.mkDb true ∅ ∅ [])
              = (okResult tt, db1 5 0)) by (vm_compute; reflexivity).
  split; [exact H|].
  destruct (dao_addSensorsInfo_loaded 5 0 _ _ _ _ _ (Prj3.reach_empty 5 0 true) H)
    as (_ & _ & _ & Hr).
  apply Hr. now left.
Defined.

End DaoStore.

(** ** Error codes and HTTP statuses *)

Module CodeFacts.
Import Errors Checkers Validators Search Dyn Spec Inv.
Import CheckerFacts ValidatorFacts Prj1Facts.

Lemma checkField_code req id info e :
  checkField req id info = Failed e ->
  code e = "REQUIRED" \/ code e = "BAD_VAL".
Proof.
  unfold checkField. destruct (req !! id) as [v|].
  - destruct (chk info) as [c|]; [|discriminate].
    destruct (regex c v); [discriminate|]. intros [= <-]. now right.
  - destruct (default info); [discriminate|]. intros [= <-]. now left.
Qed.

Lemma fieldErrors_codes req fs :
  Forall (fun e => code e = "REQUIRED" \/ code e = "BAD_VAL")
         (fieldErrors (outcomes req fs)).
Proof.
  induction fs as [|[id info] fs IH]; simpl; [constructor|].
  destruct (checkField req id info) as [v|e] eqn:E; simpl; [assumption|].
  constructor; [|assumption]. exact (checkField_code _ _ _ _ E).
Qed.

Lemma crossErrors_codes req os cs cd :
  (forall c msg cd', In c cs -> xchk c req = Some (msg, cd') -> cd' = cd) ->
  Forall (fun e => code e = cd) (crossErrors req os cs).
Proof.
  induction cs as [|c cs IH]; intros H; simpl; [constructor|].
  apply Forall_app. split.
  - destruct (forallb _ _); [|constructor].
    destruct (xchk c req) as [[msg cd']|] eqn:E; [|constructor].
    constructor; [|constructor]. simpl. apply (H c msg); [now left|assumption].
  - apply IH. intros c' msg cd' Hin. apply H. now right.
Qed.

Lemma rangeChk_code minId maxId req msg cd :
  xchk (rangeChk minId maxId) req = Some (msg, cd) -> cd = "BAD_RANGE".
Proof. simpl. destruct (negb _); [now intros [= _ <-]|discriminate]. Qed.

Lemma checkFlatReq_codes req checks es :
  rangeChecks checks ->
  checkFlatReq req checks = errResults es ->
  Forall (fun e => In (code e) validationCodes) es.
Proof.
  intros Hx. unfold checkFlatReq.
  pose proof (fieldErrors_codes req (fields checks)) as Hf.
  assert (Hc : Forall (fun e => code e = "BAD_RANGE")
                 (crossErrors req (outcomes req (fields checks)) (chks checks))).
  { apply crossErrors_codes. intros c msg cd Hin Hcd.
    destruct (Hx c Hin) as (minId & maxId & ->).
    exact (rangeChk_code _ _ _ _ _ Hcd). }
  destruct (_ ++ _)%list as [|e l] eqn:E; [discriminate|]. intros [= <-].
  rewrite <- E. apply Forall_app. split.
  - eapply List.Forall_impl; [|exact Hf]. simpl. intros a [->| ->]; simpl; tauto.
  - eapply List.Forall_impl; [|exact Hc]. simpl. intros a ->. simpl. tauto.
Qed.

(** The tables of the validators. *)
Lemma tables_rangeChecks :
  rangeChecks ADD_SENSOR_TYPE_CHECKS
  /\ rangeChecks ADD_SENSOR_CHECKS
  /\ rangeChecks ADD_SENSOR_READING_CHECKS
  /\ (forall cmd, rangeChecks (FIND_VALIDATION_INFO cmd))
  /\ rangeChecks SensorTypeSearch.CHECKS
  /\ rangeChecks SensorSearch.CHECKS
  /\ rangeChecks SensorReadingSearch.CHECKS.
Proof.
  unfold rangeChecks. repeat split.
  4: intros cmd; destruct cmd.
  all: intros c H; simpl in H; repeat (destruct H as [<-|H]; [eauto|]);
    destruct H.
Qed.

Lemma makeSensorType_codes req es :
  makeSensorType req = errResults es ->
  Forall (fun e => In (code e) validationCodes) es.
Proof.
  unfold makeSensorType.
  destruct (checkFlatReq req ADD_SENSOR_TYPE_CHECKS) as [val|es'] eqn:E;
    [discriminate|].
  intros [= <-]. exact (checkFlatReq_codes _ _ _ (proj1 tables_rangeChecks) E).
Qed.

Lemma makeSensor_codes req es :
  makeSensor req = errResults es ->
  Forall (fun e => In (code e) validationCodes) es.
Proof.
  unfold makeSensor.
  destruct (checkFlatReq req ADD_SENSOR_CHECKS) as [val|es'] eqn:E;
    [discriminate|].
  intros [= <-].
  exact (checkFlatReq_codes _ _ _ (proj1 (proj2 tables_rangeChecks)) E).
Qed.

Lemma makeSensorReading_codes req es :
  makeSensorReading req = errResults es ->
  Forall (fun e => In (code e) validationCodes) es.
Proof.
  unfold makeSensorReading.
  destruct (checkFlatReq req ADD_SENSOR_READING_CHECKS) as [val|es'] eqn:E;
    [discriminate|].
  intros [= <-].
  exact (checkFlatReq_codes _ _ _ (proj1 (proj2 (proj2 tables_rangeChecks))) E).
Qed.

Lemma validateFindCommand_codes cmd req es :
  validateFindCommand cmd req = errResults es ->
  Forall (fun e => In (code e) validationCodes) es.
Proof.
  apply checkFlatReq_codes.
  exact (proj1 (proj2 (proj2 (proj2 tables_rangeChecks))) cmd).
Qed.

Lemma SensorTypeSearch_codes req es :
  SensorTypeSearch.make req = errResults es ->
  Forall (fun e => In (code e) validationCodes) es.
Proof.
  unfold SensorTypeSearch.make.
  destruct (checkFlatReq req SensorTypeSearch.CHECKS) as [val|es'] eqn:E;
    [discriminate|].
  intros [= <-]. destruct tables_rangeChecks as (_ & _ & _ & _ & Ht & Hs & Hr).
  exact (checkFlatReq_codes _ _ _ Ht E).
Qed.

Lemma SensorSearch_codes req es :
  SensorSearch.make req = errResults es ->
  Forall (fun e => In (code e) validationCodes) es.
Proof.
  unfold SensorSearch.make.
  destruct (checkFlatReq req SensorSearch.CHECKS) as [val|es'] eqn:E;
    [discriminate|].
  intros [= <-]. destruct tables_rangeChecks as (_ & _ & _ & _ & Ht & Hs & Hr).
  exact (checkFlatReq_codes _ _ _ Hs E).
Qed.

Lemma SensorReadingSearch_codes req es :
  SensorReadingSearch.make req = errResults es ->
  Forall (fun e => In (code e) validationCodes) es.
Proof.
  unfold SensorReadingSearch.make.
  destruct (checkFlatReq req SensorReadingSearch.CHECKS) as [val|es'] eqn:E;
    [discriminate|].
  intros [= <-]. destruct tables_rangeChecks as (_ & _ & _ & _ & Ht & Hs & Hr).
  exact (checkFlatReq_codes _ _ _ Hr E).
Qed.

Lemma codes_more (l l' : list string) (es : list Err) :
  (forall c, In c l -> In c l') ->
  Forall (fun e => In (code e) l) es -> Forall (fun e => In (code e) l') es.
Proof. intros H. apply List.Forall_impl. intros a. apply H. Qed.

Lemma checkDuplicateError_codes {A : Type} err dataType es :
  @Mongo.checkDuplicateError A err dataType = errResults es ->
  Forall (fun e => In (code e) daoCodes) es.
Proof.
  unfold Mongo.checkDuplicateError.
  destruct err as [c|]; [destruct (_ =? _)%Z|]; intros [= <-];
    repeat constructor; simpl; tauto.
Qed.

Lemma dao_add_codes db es :
  (forall t, (Mongo.addSensorType t db).1 = errResults es ->
             Forall (fun e => In (code e) daoCodes) es)
  /\ (forall s, (Mongo.addSensor s db).1 = errResults es ->
                Forall (fun e => In (code e) daoCodes) es)
  /\ (forall r, (Mongo.addSensorReading r db).1 = errResults es ->
                Forall (fun e => In (code e) daoCodes) es).
Proof.
  split; [|split].
  - intros t. unfold Mongo.addSensorType.
    destruct (Mongo.insertOne _ _ _ _); [|discriminate].
    apply checkDuplicateError_codes.
  - intros s. unfold Mongo.addSensor.
    destruct (Mongo.insertOne _ _ _ _); [|discriminate].
    apply checkDuplicateError_codes.
  - intros r. unfold Mongo.addSensorReading.
    destruct (Mongo.insertReading _ _ _); [|discriminate].
    apply checkDuplicateError_codes.
Qed.

Lemma dao_find_codes DC DI db es :
  (forall search, (Mongo.findSensorTypes DC DI search db).1 = errResults es ->
                  Forall (fun e => code e = "DB") es)
  /\ (forall search, (Mongo.findSensors DC DI search db).1 = errResults es ->
                     Forall (fun e => code e = "DB") es)
  /\ (forall search, (Mongo.findSensorReadings DC DI search db).1 = errResults es ->
                     Forall (fun e => code e = "DB") es).
Proof.
  split; [|split]; intros search;
    unfold Mongo.findSensorTypes, Mongo.findSensors, Mongo.findSensorReadings;
    destruct (negb _);
    try (intros [= <-]; repeat constructor);
    destruct (Mongo.page _ _ _); try discriminate;
    intros [= <-]; repeat constructor.
Qed.

End CodeFacts.

(** ** The status of an error response *)

Module WsFacts.
Import Errors Checkers Validators Search Dyn Spec Inv Ws.

Lemma ERROR_MAP_500 c :
  ERROR_MAP c = Some 500%Z <-> c = "DB" \/ c = "INTERNAL".
Proof.
  unfold ERROR_MAP.
  repeat match goal with
         | |- context [String.eqb c ?s] =>
             destruct (String.eqb_spec c s) as [->|?]
         end; split; try discriminate; intros H;
    try (destruct H; discriminate); try (destruct H; congruence); tauto.
Qed.

Lemma ERROR_MAP_pos c s : ERROR_MAP c = Some s -> (0 < s)%Z.
Proof.
  unfold ERROR_MAP.
  repeat match goal with
         | |- context [String.eqb c ?s] => destruct (String.eqb c s)
         end; intros [= <-]; reflexivity.
Qed.

Lemma statusStep_unmapped status e :
  ERROR_MAP (code e) = None -> statusStep status e = status.
Proof. unfold statusStep. now intros ->. Qed.

Lemma statusStep_500 status e :
  ERROR_MAP (code e) = Some 500%Z -> statusStep status e = 500%Z.
Proof. unfold statusStep. now intros ->. Qed.

Lemma statusStep_set status e :
  status <> 0%Z -> ERROR_MAP (code e) <> Some 500%Z -> statusStep status e = status.
Proof.
  unfold statusStep. intros Hs He.
  destruct (ERROR_MAP (code e)) as [s|]; [|reflexivity].
  assert (E : (status =? 0)%Z = false) by now apply Z.eqb_neq.
  rewrite E, andb_false_r.
  destruct (Z.eqb_spec s STATUS.INTERNAL_SERVER_ERROR) as [->|]; [|reflexivity].
  now elim He.
Qed.

Lemma statusStep_first e s :
  ERROR_MAP (code e) = Some s -> statusStep 0 e = s.
Proof.
  unfold statusStep. intros H. rewrite H.
  apply ERROR_MAP_pos in H. apply Z.ltb_lt in H. rewrite H. simpl.
  now destruct (s =? _)%Z.
Qed.

Lemma fold_unmapped l status :
  Forall (fun e => ERROR_MAP (code e) = None) l ->
  fold_left statusStep l status = status.
Proof.
  revert status. induction l as [|e l IH]; intros status H; [reflexivity|].
  inversion H as [|? ? He Hl]; subst. simpl.
  rewrite (statusStep_unmapped _ _ He). now apply IH.
Qed.

Lemma fold_set l status :
  status <> 0%Z -> Forall (fun e => ERROR_MAP (code e) <> Some 500%Z) l ->
  fold_left statusStep l status = status.
Proof.
  intros Hs. induction l as [|e l IH]; intros H; [reflexivity|].
  inversion H as [|? ? He Hl]; subst. simpl.
  rewrite (statusStep_set _ _ Hs He). now apply IH.
Qed.

Lemma statusStep_at_500 e : statusStep 500 e = 500%Z.
Proof.
  unfold statusStep. destruct (ERROR_MAP (code e)) as [s|]; [|reflexivity].
  rewrite andb_false_r.
  now destruct (Z.eqb_spec s STATUS.INTERNAL_SERVER_ERROR) as [->|].
Qed.

Lemma fold_at_500 l : fold_left statusStep l 500%Z = 500%Z.
Proof.
  induction l as [|e l IH]; [reflexivity|]. simpl.
  now rewrite statusStep_at_500.
Qed.

Lemma fold_500 l status :
  Exists (fun e => ERROR_MAP (code e) = Some 500%Z) l ->
  fold_left statusStep l status = 500%Z.
Proof.
  intros H. revert status. induction H as [e l He|e l _ IH]; intros status.
  - simpl. rewrite (statusStep_500 _ _ He). apply fold_at_500.
  - simpl. apply IH.
Qed.

(** [getHttpStatus], case by case. *)
Lemma getHttpStatus_500 errors :
  Exists (fun e => ERROR_MAP (code e) = Some 500%Z) errors ->
  getHttpStatus errors = 500%Z.
Proof. intros H. unfold getHttpStatus. now rewrite (fold_500 _ _ H). Qed.

Lemma getHttpStatus_unmapped errors :
  Forall (fun e => ERROR_MAP (code e) = None) errors ->
  getHttpStatus errors = 400%Z.
Proof. intros H. unfold getHttpStatus. now rewrite (fold_unmapped _ _ H). Qed.

Lemma getHttpStatus_first pre e rest s :
  Forall (fun x => ERROR_MAP (code x) = None) pre ->
  ERROR_MAP (code e) = Some s ->
  Forall (fun x => ERROR_MAP (code x) <> Some 500%Z) rest ->
  getHttpStatus (pre ++ e :: rest) = s.
Proof.
  intros Hpre He Hrest. unfold getHttpStatus.
  rewrite fold_left_app, (fold_unmapped _ _ Hpre). simpl.
  rewrite (statusStep_first _ _ He).
  pose proof (ERROR_MAP_pos _ _ He) as Hpos.
  rewrite fold_set by (assumption || lia).
  destruct (Z.eqb_spec s 0); [lia|reflexivity].
Qed.

End WsFacts.

(** ** The handlers of the web services *)

Module HandlerFacts.
Import Errors Checkers Validators Search Dyn Spec Inv Ws CodeFacts WsFacts.
Import CheckerFacts FilterFacts MongoFacts Prj3Facts Prj3Inv DaoCases.

(** The status for errors of the store and the DAO: 500 once the
    database failed, else 409 for a duplicate, else 400. *)
Lemma fold_store_codes es :
  Forall (fun e => In (code e) (storeCodes ++ daoCodes)%list) es ->
  fold_left statusStep es 409%Z
  = (if existsb (fun e => String.eqb (code e) "DB") es then 500 else 409)%Z
  /\ fold_left statusStep es 0%Z
     = (if existsb (fun e => String.eqb (code e) "DB") es then 500
        else if existsb (fun e => String.eqb (code e) "EXISTS") es then 409
             else 0)%Z.
Proof.
  induction 1 as [|e es He _ [IH1 IH2]]; [now split|].
  simpl in He. simpl. unfold statusStep.
  destruct He as [He|[He|[He|[He|[He|[He|[]]]]]]]; rewrite <- He; simpl;
    rewrite ?fold_at_500; auto.
Qed.

Lemma getHttpStatus_store es :
  Forall (fun e => In (code e) (storeCodes ++ daoCodes)%list) es ->
  getHttpStatus es
  = (if existsb (fun e => String.eqb (code e) "DB") es then 500
     else if existsb (fun e => String.eqb (code e) "EXISTS") es then 409
          else 400)%Z.
Proof.
  intros H. unfold getHttpStatus. rewrite (proj2 (fold_store_codes es H)).
  destruct (existsb _ es); [reflexivity|]. now destruct (existsb _ es).
Qed.

(** A search by id alone passes validation. *)
Lemma SensorTypeSearch_make_id i :
  SensorTypeSearch.make (list_to_map [("id", i)])
  = okResult (SensorTypeSearch.ofId i).
Proof. reflexivity. Qed.

Lemma SensorSearch_make_ok i :
  exists search, SensorSearch.make (list_to_map [("id", i)]) = okResult search.
Proof. destruct i; eexists; reflexivity. Qed.

Lemma SensorSearch_make_id i :
  i <> EmptyString ->
  SensorSearch.make (list_to_map [("id", i)]) = okResult (SensorSearch.ofId i).
Proof. destruct i; [congruence|reflexivity]. Qed.

Ltac one_code :=
  intros [= <-]; constructor; [simpl; tauto|constructor].

(** The codes of the errors of the two stores. *)
Lemma mem_store_codes this req es :
  ((Prj1.addSensorType this req).1 = errResults es ->
   Forall (fun e => In (code e) validationCodes) es)
  /\ ((Prj1.addSensor this req).1 = Returns (errResults es) ->
      Forall (fun e => In (code e) storeCodes) es)
  /\ ((Prj1.addSensorReading this req).1 = Returns (errResults es) ->
      Forall (fun e => In (code e) storeCodes) es)
  /\ (Prj1.findSensorTypes this req = errResults es ->
      Forall (fun e => In (code e) validationCodes) es)
  /\ (Prj1.findSensors this req = errResults es ->
      Forall (fun e => In (code e) validationCodes) es)
  /\ (Prj1.findSensorReadings this req = Returns (errResults es) ->
      Forall (fun e => In (code e) validationCodes) es).
Proof.
  split; [|split; [|split; [|split; [|split]]]].
  - unfold Prj1.addSensorType.
    destruct (makeSensorType req) as [t|es'] eqn:E; [discriminate|].
    intros [= <-]. now apply (makeSensorType_codes req).
  - unfold Prj1.addSensor.
    destruct (makeSensor req) as [s|es'] eqn:E.
    + destruct (Prj1.sensorTypeAt this _) as [ty|x].
      * destruct (Range.isSubrange _ _); [discriminate|]. one_code.
      * destruct (Dyn.truthy x); [discriminate|]. one_code.
    + intros [= <-]. apply (codes_more validationCodes); [simpl; tauto|].
      now apply (makeSensor_codes req).
  - unfold Prj1.addSensorReading.
    destruct (makeSensorReading req) as [r|es'] eqn:E.
    + cbn zeta. destruct (negb _); [one_code|].
      destruct (Prj1.sensorReadingsAt this _) as [rs|x]; [discriminate|].
      destruct (Dyn.truthy x); discriminate.
    + intros [= <-]. apply (codes_more validationCodes); [simpl; tauto|].
      now apply (makeSensorReading_codes req).
  - unfold Prj1.findSensorTypes.
    destruct (validateFindCommand _ req) as [f|es'] eqn:E; [discriminate|].
    intros [= <-]. exact (validateFindCommand_codes _ _ _ E).
  - unfold Prj1.findSensors.
    destruct (validateFindCommand _ req) as [f|es'] eqn:E; [discriminate|].
    intros [= <-]. exact (validateFindCommand_codes _ _ _ E).
  - unfold Prj1.findSensorReadings.
    destruct (validateFindCommand _ req) as [f|es'] eqn:E.
    + destruct (Prj1.sensorReadingsAt this _) as [rs|x]; [discriminate|].
      destruct (Dyn.truthy x); discriminate.
    + intros [= <-]. exact (validateFindCommand_codes _ _ _ E).
Qed.

Lemma dao_store_codes DC DI db req es :
  ((Prj3.clear (DAO := Mongo.dao DC DI) db).1 = errResults es ->
   Forall (fun e => code e = "DB") es)
  /\ ((Prj3.addSensorType (DAO := Mongo.dao DC DI) req db).1 = errResults es ->
      Forall (fun e => In (code e) (validationCodes ++ daoCodes)%list) es)
  /\ ((Prj3.addSensor (DAO := Mongo.dao DC DI) req db).1 = errResults es ->
      Forall (fun e => In (code e) (storeCodes ++ daoCodes)%list) es)
  /\ ((Prj3.addSensorReading (DAO := Mongo.dao DC DI) req db).1
      = errResults es ->
      Forall (fun e => In (code e) (storeCodes ++ daoCodes)%list) es)
  /\ ((Prj3.findSensorTypes (DAO := Mongo.dao DC DI) req db).1 = errResults es ->
      Forall (fun e => In (code e) (validationCodes ++ ["DB"])%list) es)
  /\ ((Prj3.findSensors (DAO := Mongo.dao DC DI) req db).1 = errResults es ->
      Forall (fun e => In (code e) (validationCodes ++ ["DB"])%list) es)
  /\ ((Prj3.findSensorReadings (DAO := Mongo.dao DC DI) req db).1
      = errResults es ->
      Forall (fun e => In (code e) (validationCodes ++ ["DB"])%list) es).
Proof.
  assert (Hdb : forall l, In "DB" l ->
                  Forall (fun e => code e = "DB") es ->
                  Forall (fun e => In (code e) l) es).
  { intros l Hl. apply List.Forall_impl. now intros a ->. }
  destruct (dao_add_codes db es) as (At & As & Ar).
  destruct (dao_find_codes DC DI db es) as (Ft & Fs & Fr).
  split; [|split; [|split; [|split; [|split; [|split]]]]].
  - unfold Prj3.clear. cbn [Dao.clear Mongo.dao]. unfold Mongo.clear.
    destruct (negb _); [|discriminate]. intros [= <-]. now repeat constructor.
  - unfold Prj3.addSensorType.
    destruct (makeSensorType req) as [t|es'] eqn:E.
    + intros H. apply (codes_more daoCodes); [simpl; tauto|]. exact (At t H).
    + intros [= <-]. apply (codes_more validationCodes); [simpl; tauto|].
      now apply (makeSensorType_codes req).
  - unfold Prj3.addSensor.
    destruct (makeSensor req) as [s|es'] eqn:E.
    + cbn [Dao.findSensorTypes Dao.addSensor Mongo.dao].
      pose proof (Ft (SensorTypeSearch.ofId (Sensor.sensorTypeId s))) as Hf.
      pose proof (find_keeps_db_types DC DI
                    (SensorTypeSearch.ofId (Sensor.sensorTypeId s)) db) as Hk.
      destruct (Mongo.findSensorTypes DC DI _ db) as [[l|es'] db'].
      * simpl in Hk. subst db'.
        destruct l as [|ty [|? ?]]; try one_code.
        destruct (negb _); [one_code|].
        intros H. apply (codes_more daoCodes); [simpl; tauto|]. exact (As s H).
      * intros [= <-]. apply Hdb; [simpl; tauto|]. now apply Hf.
    + intros [= <-]. apply (codes_more validationCodes); [simpl; tauto|].
      now apply (makeSensor_codes req).
  - unfold Prj3.addSensorReading.
    destruct (makeSensorReading req) as [r|es'] eqn:E.
    + cbn [Dao.findSensors Dao.addSensorReading Mongo.dao].
      pose proof (Fs (SensorSearch.ofId (SensorReading.sensorId r))) as Hf.
      pose proof (find_keeps_db_sensors DC DI
                    (SensorSearch.ofId (SensorReading.sensorId r)) db) as Hk.
      destruct (Mongo.findSensors DC DI _ db) as [[l|es'] db'].
      * simpl in Hk. subst db'.
        destruct l as [|s [|? ?]]; try one_code.
        intros H. apply (codes_more daoCodes); [simpl; tauto|]. exact (Ar r H).
      * intros [= <-]. apply Hdb; [simpl; tauto|]. now apply Hf.
    + intros [= <-]. apply (codes_more validationCodes); [simpl; tauto|].
      now apply (makeSensorReading_codes req).
  - unfold Prj3.findSensorTypes.
    destruct (SensorTypeSearch.make req) as [search|es'] eqn:E.
    + intros H. apply Hdb; [simpl; tauto|]. exact (Ft _ H).
    + intros [= <-]. apply (codes_more validationCodes); [simpl; tauto|].
      now apply (SensorTypeSearch_codes req).
  - unfold Prj3.findSensors.
    destruct (SensorSearch.make req) as [search|es'] eqn:E.
    + intros H. apply Hdb; [simpl; tauto|]. exact (Fs _ H).
    + intros [= <-]. apply (codes_more validationCodes); [simpl; tauto|].
      now apply (SensorSearch_codes req).
  - unfold Prj3.findSensorReadings.
    destruct (SensorReadingSearch.make req) as [search|es'] eqn:E.
    + intros H. apply Hdb; [simpl; tauto|]. exact (Fr _ H).
    + intros [= <-]. apply (codes_more validationCodes); [simpl; tauto|].
      now apply (SensorReadingSearch_codes req).
Qed.

End HandlerFacts.

(** ** Error codes, and the web services over the MongoDB DAO *)

Module WebServices.
Import Errors Checkers Validators Search Dyn Spec Inv Data Ws.
Import CheckerFacts FilterFacts MongoFacts Prj3Facts Prj3Inv CodeFacts WsFacts
       HandlerFacts.

(** X23.  The error codes of the two stores are those their comments
    list.  In the in-memory store an add of a sensor type and every
    search fail with REQUIRED, BAD_VAL or BAD_RANGE only, an add of a
    sensor or of a reading with these or BAD_ID.  In the store over the
    MongoDB DAO the same codes occur, and besides them EXISTS and DB for
    an add, DB for a search and for [clear]. *)
Theorem store_error_codes :
  (forall this req es,
      ((Prj1.addSensorType this req).1 = errResults es ->
       Forall (fun e => In (code e) validationCodes) es)
      /\ ((Prj1.addSensor this req).1 = Returns (errResults es) ->
          Forall (fun e => In (code e) storeCodes) es)
      /\ ((Prj1.addSensorReading this req).1 = Returns (errResults es) ->
          Forall (fun e => In (code e) storeCodes) es)
      /\ (Prj1.findSensorTypes this req = errResults es ->
          Forall (fun e => In (code e) validationCodes) es)
      /\ (Prj1.findSensors this req = errResults es ->
          Forall (fun e => In (code e) validationCodes) es)
      /\ (Prj1.findSensorReadings this req = Returns (errResults es) ->
          Forall (fun e => In (code e) validationCodes) es))
  /\ (forall DC DI db req es,
         ((Prj3.clear (DAO := Mongo.dao DC DI) db).1 = errResults es ->
          Forall (fun e => code e = "DB") es)
         /\ ((Prj3.addSensorType (DAO := Mongo.dao DC DI) req db).1
             = errResults es ->
             Forall (fun e => In (code e) (validationCodes ++ daoCodes)%list) es)
         /\ ((Prj3.addSensor (DAO := Mongo.dao DC DI) req db).1
             = errResults es ->
             Forall (fun e => In (code e) (storeCodes ++ daoCodes)%list) es)
         /\ ((Prj3.addSensorReading (DAO := Mongo.dao DC DI) req db).1
             = errResults es ->
             Forall (fun e => In (code e) (storeCodes ++ daoCodes)%list) es)
         /\ ((Prj3.findSensorTypes (DAO := Mongo.dao DC DI) req db).1
             = errResults es ->
             Forall (fun e => In (code e) (validationCodes ++ ["DB"])%list) es)
         /\ ((Prj3.findSensors (DAO := Mongo.dao DC DI) req db).1
             = errResults es ->
             Forall (fun e => In (code e) (validationCodes ++ ["DB"])%list) es)
         /\ ((Prj3.findSensorReadings (DAO := Mongo.dao DC DI) req db).1
             = errResults es ->
             Forall (fun e => In (code e) (validationCodes ++ ["DB"])%list) es)).
Proof. split; [exact mem_store_codes|exact dao_store_codes]. Qed.

Lemma store_error_codes_witness :
  (exists es, (Prj3.addSensor (DAO := Mongo.dao 5 0) SENSOR1 (db1 5 0)).1
              = errResults es
              /\ map code es = ["EXISTS"]
              /\ Forall (fun e => In (code e) (storeCodes ++ daoCodes)%list) es).
Proof.
  assert (H : exists es,
             (Prj3.addSensor (DAO := Mongo.dao 5 0) SENSOR1 (db1 5 0)).1
             = errResults es /\ map code es = ["EXISTS"])
    by (eexists; split; vm_compute; reflexivity).
  destruct H as (es & H & Hc). exists es. split; [exact H|]. split; [exact Hc|].
  destruct (proj2 store_error_codes 5 0 (db1 5 0) SENSOR1 es)
    as (_ & _ & Hs & _).
  exact (Hs H).
Defined.

(** X24.  [getHttpStatus]: INTERNAL_SERVER_ERROR as soon as one error
    has the code DB or INTERNAL; otherwise the status of the first error
    whose code [ERROR_MAP] mentions; BAD_REQUEST when it mentions none
    of the codes. *)
Theorem getHttpStatus_spec (errors : list Err) :
  (Exists (fun e => code e = "DB" \/ code e = "INTERNAL") errors ->
   getHttpStatus errors = STATUS.INTERNAL_SERVER_ERROR)
  /\ (forall pre e rest s,
         errors = (pre ++ e :: rest)%list ->
         Forall (fun x => ERROR_MAP (code x) = None) pre ->
         ERROR_MAP (code e) = Some s ->
         ~ Exists (fun x => code x = "DB" \/ code x = "INTERNAL") rest ->
         getHttpStatus errors = s)
  /\ (Forall (fun e => ERROR_MAP (code e) = None) errors ->
      getHttpStatus errors = STATUS.BAD_REQUEST).
Proof.
  split; [|split].
  - intros H. apply getHttpStatus_500.
    apply Exists_exists in H as (e & Hin & He). apply Exists_exists.
    exists e. split; [assumption|]. now apply ERROR_MAP_500.
  - intros pre e rest s -> Hpre He Hrest.
    apply getHttpStatus_first; try assumption.
    apply Forall_forall. intros x Hx Hx500. apply Hrest.
    apply Exists_exists. exists x. split; [assumption|].
    now apply ERROR_MAP_500.
  - apply getHttpStatus_unmapped.
Qed.

Lemma getHttpStatus_spec_witness :
  getHttpStatus [mkErr (Literal []) "BAD_ID" None;
                 mkErr (Literal []) "EXISTS" None;
                 mkErr (Literal []) "NOT_FOUND" None] = STATUS.CONFLICT
  /\ getHttpStatus [mkErr (Literal []) "EXISTS" None;
                    mkErr (Literal []) "DB" None]
     = STATUS.INTERNAL_SERVER_ERROR.
Proof.
  split.
  - apply (proj1 (proj2 (getHttpStatus_spec _))
             [mkErr (Literal []) "BAD_ID" None]
             (mkErr (Literal []) "EXISTS" None)
             [mkErr (Literal []) "NOT_FOUND" None]);
      [reflexivity | repeat constructor | reflexivity |].
    intros H. apply Exists_exists in H as (x & Hx & Hc).
    apply list_elem_of_In in Hx. destruct Hx as [<-|[]].
    destruct Hc; discriminate.
  - apply (proj1 (getHttpStatus_spec _)).
    apply Exists_cons_tl, Exists_cons_hd. now left.
Defined.





End WebServices.
